(** * VPN performance analyzer: metric derivation and rating

    A shallow embedding of [src/tools/vpn_analyzer.py] (class [VPNAnalyzer]).

    Python objects live in a store.  A dict is an insertion-ordered list of
    key/value pairs, a value is a float, a string or a reference to a dict,
    and every dict the program creates ([results = {}], a dict
    comprehension, a dict display) is a fresh cell of the store.  An
    uncaught exception ends the run and is the outcome of the computation. *)

From Stdlib Require Import Floats.
From stdpp Require Import base list strings.

Set Warnings "-inexact-float,-clear-no-such-hyp".

(** ** Values, dicts and the store *)

Abbreviation loc := nat.

(** What a loaded JSON record holds, and what the analyses build from it.
    A number is a Python float (binary64); an integer of the JSON text is
    taken at its float value, which [-] and [/] treat alike below 2^53.
    An integer beyond the float range, on which Python's [/] and the
    formats of the report raise [OverflowError], has no counterpart here:
    what is said of the report and of the run holds for records whose
    numbers are floats.
    A string is a Python [str].  [VRef] points to a dict object of the store.
    Booleans, [null] and arrays are outside the model. *)
Inductive value : Type :=
| VNum (x : float)
| VStr (s : string)
| VRef (l : loc).

Abbreviation dict := (list (string * value)).
Abbreviation heap := (list (list (string * value))).

(** [d[k]] finds the first binding of [k]; a Python dict binds a key once. *)
Fixpoint dict_get (d : dict) (k : string) : option value :=
  match d with
  | [] => None
  | (k', v) :: d' => if String.eqb k' k then Some v else dict_get d' k
  end.

(** [d[k] = v]: an existing key keeps its place, a new key goes last. *)
Fixpoint dict_set (d : dict) (k : string) (v : value) : dict :=
  match d with
  | [] => [(k, v)]
  | (k', v') :: d' =>
      if String.eqb k' k then (k, v) :: d' else (k', v') :: dict_set d' k v
  end.

Definition dict_mem (d : dict) (k : string) : bool :=
  match dict_get d k with Some _ => true | None => false end.

(** [k.startswith(p)] *)
Definition startswith (k p : string) : bool := String.prefix p k.

(** The items of [d] whose key starts with [p], in the order of [d]:
    [{k: v for k, v in d.items() if k.startswith(p)}]. *)
Definition select_prefix (p : string) (d : dict) : dict :=
  filter (λ kv, startswith kv.1 p = true) d.

(** ** Exceptions and the computation monad *)

(** The exceptions the modelled code can raise.  [BadReference] is not a
    Python exception: it is the outcome of following a reference that the
    store does not hold, which no Python run can do. *)
Inductive pyerr : Type :=
| KeyError (k : string)
| TypeError
| AttributeError
| ValueError
| ZeroDivisionError
| BadReference.

Definition M (A : Type) : Type := heap → heap * (pyerr + A).

#[global] Instance M_ret : MRet M := λ A a h, (h, inr a).
#[global] Instance M_bind : MBind M := λ A B f m h,
  match m h with
  | (h', inr a) => f a h'
  | (h', inl e) => (h', inl e)
  end.

Definition raise {A} (e : pyerr) : M A := λ h, (h, inl e).

(** *** Store primitives *)

(** A dict display or comprehension: a new object holding the items [d]. *)
Definition new_dict (d : dict) : M loc := λ h, (h ++ [d], inr (List.length h)).

Definition load (l : loc) : M dict := λ h,
  match h !! l with
  | Some d => (h, inr d)
  | None => (h, inl BadReference)
  end.

Definition store (l : loc) (d : dict) : M unit := λ h,
  match h !! l with
  | Some _ => (<[l := d]> h, inr tt)
  | None => (h, inl BadReference)
  end.

(** [o[k]]: only a dict can be subscripted by a string. *)
Definition subscript (o : value) (k : string) : M value :=
  match o with
  | VRef l =>
      d ← load l;
      match dict_get d k with
      | Some v => mret v
      | None => raise (KeyError k)
      end
  | _ => raise TypeError
  end.

(** [o.items()] *)
Definition items (o : value) : M dict :=
  match o with
  | VRef l => load l
  | _ => raise AttributeError
  end.

(** [o.get(k, dflt)] *)
Definition get_default (o : value) (k : string) (dflt : value) : M value :=
  match o with
  | VRef l => d ← load l; mret (default dflt (dict_get d k))
  | _ => raise AttributeError
  end.

(** [l[k] = v] on a dict object. *)
Definition setitem (l : loc) (k : string) (v : value) : M unit :=
  d ← load l; store l (dict_set d k v).

(** [k in l] on a dict object. *)
Definition contains (k : string) (l : loc) : M bool :=
  d ← load l; mret (dict_mem d k).

(** The keys a [for k in l] loop visits. *)
Definition keys (l : loc) : M (list string) :=
  d ← load l; mret d.*1.

(** A [for] loop over a list of already computed items. *)
Fixpoint for_each `{MBind F, MRet F} {A} (xs : list A) (body : A → F unit)
    : F unit :=
  match xs with
  | [] => mret tt
  | x :: xs' => body x;; for_each xs' body
  end.

(** *** Arithmetic *)

(** [a - b] *)
Definition py_sub (a b : value) : M float :=
  match a, b with
  | VNum x, VNum y => mret (x - y)%float
  | _, _ => raise TypeError
  end.

(** [a / b]: Python raises on a zero divisor, of either sign. *)
Definition py_truediv (a b : value) : M float :=
  match a, b with
  | VNum x, VNum y =>
      if (y =? 0)%float then raise ZeroDivisionError else mret (x / y)%float
  | _, _ => raise TypeError
  end.

(** ** The metrics engine *)

(** Lines 78-93: the body of the loop of [analyze_latency] for one matched
    pair, up to the dict display. *)
Definition latency_entry (baseline vpn : value) : M dict :=
  a ← subscript vpn "avg_ping_ms";
  b ← subscript baseline "avg_ping_ms";
  overhead_ms ← py_sub a b;
  b' ← subscript baseline "avg_ping_ms";
  q ← py_truediv (VNum overhead_ms) b';
  let overhead_percent := (q * 100)%float in
  baseline_avg ← subscript baseline "avg_ping_ms";
  vpn_avg ← subscript vpn "avg_ping_ms";
  baseline_min ← subscript baseline "min_ping_ms";
  baseline_max ← subscript baseline "max_ping_ms";
  vpn_min ← subscript vpn "min_ping_ms";
  vpn_max ← subscript vpn "max_ping_ms";
  baseline_loss ← subscript baseline "packet_loss_percent";
  vpn_loss ← subscript vpn "packet_loss_percent";
  mret [ ("baseline_avg", baseline_avg);
         ("vpn_avg", vpn_avg);
         ("overhead_ms", VNum overhead_ms);
         ("overhead_percent", VNum overhead_percent);
         ("baseline_min", baseline_min);
         ("baseline_max", baseline_max);
         ("vpn_min", vpn_min);
         ("vpn_max", vpn_max);
         ("baseline_loss", baseline_loss);
         ("vpn_loss", vpn_loss) ].

(** Lines 65-95. *)
Definition analyze_latency (data : value) : M value :=
  results ← new_dict [];
  all_baseline ← subscript data "baseline";
  baseline_items ← items all_baseline;
  baseline_ping ← new_dict (select_prefix "ping_" baseline_items);
  all_vpn ← subscript data "vpn";
  vpn_items ← items all_vpn;
  vpn_ping ← new_dict (select_prefix "ping_" vpn_items);
  names ← keys baseline_ping;
  for_each names (λ test_name,
    matched ← contains test_name vpn_ping;
    if matched : bool then
      baseline ← subscript (VRef baseline_ping) test_name;
      vpn ← subscript (VRef vpn_ping) test_name;
      entry ← latency_entry baseline vpn;
      e ← new_dict entry;
      setitem results test_name (VRef e)
    else mret tt);;
  mret (VRef results).

(** Lines 110-120. *)
Definition bandwidth_entry (baseline vpn : value) : M dict :=
  a ← subscript vpn "bandwidth_mbps";
  b ← subscript baseline "bandwidth_mbps";
  bandwidth_ratio ← py_truediv a b;
  let bandwidth_loss_percent := ((1 - bandwidth_ratio) * 100)%float in
  baseline_mbps ← subscript baseline "bandwidth_mbps";
  vpn_mbps ← subscript vpn "bandwidth_mbps";
  direction ← get_default baseline "direction" (VStr "unknown");
  mret [ ("baseline_mbps", baseline_mbps);
         ("vpn_mbps", vpn_mbps);
         ("bandwidth_ratio", VNum bandwidth_ratio);
         ("bandwidth_loss_percent", VNum bandwidth_loss_percent);
         ("direction", direction) ].

(** Lines 97-122. *)
Definition analyze_bandwidth (data : value) : M value :=
  results ← new_dict [];
  all_baseline ← subscript data "baseline";
  baseline_items ← items all_baseline;
  baseline_iperf ← new_dict (select_prefix "iperf_" baseline_items);
  all_vpn ← subscript data "vpn";
  vpn_items ← items all_vpn;
  vpn_iperf ← new_dict (select_prefix "iperf_" vpn_items);
  names ← keys baseline_iperf;
  for_each names (λ test_name,
    matched ← contains test_name vpn_iperf;
    if matched : bool then
      baseline ← subscript (VRef baseline_iperf) test_name;
      vpn ← subscript (VRef vpn_iperf) test_name;
      entry ← bandwidth_entry baseline vpn;
      e ← new_dict entry;
      setitem results test_name (VRef e)
    else mret tt);;
  mret (VRef results).

(** ** The report *)

(** What [f.write] receives is kept structured: literal text, a float under
    a fixed-point format, a test name made presentable, the time of the run. *)
Inductive piece : Type :=
| Lit (s : string)
| Fixed (digits : nat) (x : float)
    (* x under the format .<digits>f *)
| Display (pfx name : string)
    (* name.replace(pfx, '').replace('_', ' ').title() *)
| Now (fmt : string).
    (* datetime.now().strftime(fmt) *)

(** The report is computed from the store without changing it: a computation
    reads the store, appends writes to the file, and may raise. *)
Definition W (A : Type) : Type := heap → list (list piece) * (pyerr + A).

#[global] Instance W_ret : MRet W := λ A a h, ([], inr a).
#[global] Instance W_bind : MBind W := λ A B f m h,
  match m h with
  | (out, inr a) => let '(out', r) := f a h in (out ++ out', r)
  | (out, inl e) => (out, inl e)
  end.

Definition f_write (ps : list piece) : W unit := λ h, ([ps], inr tt).

(** A store computation used for what it returns. *)
Definition reading {A} (m : M A) : W A := λ h, ([], (m h).2).

Definition nl : string := String (Ascii.ascii_of_nat 10) EmptyString.

Fixpoint str_repeat (s : string) (n : nat) : string :=
  match n with
  | O => EmptyString
  | S n' => s +:+ str_repeat s n'
  end.

(** [bool(o)]: a dict is true when it has an item, a float when it is not
    zero, a string when it is not empty. *)
Definition truthy (o : value) : M bool :=
  match o with
  | VRef l => d ← load l; mret (match d with [] => false | _ => true end)
  | VNum x => mret (negb (x =? 0)%float)
  | VStr s => mret (match s with EmptyString => false | _ => true end)
  end.

(** [f"{o:.<digits>f}"] *)
Definition fmt_fixed (digits : nat) (o : value) : M piece :=
  match o with
  | VNum x => mret (Fixed digits x)
  | VStr _ => raise ValueError
  | VRef _ => raise TypeError
  end.

(** [o < c] and [o > c] against a numeric constant. *)
Definition py_lt (o : value) (c : float) : M bool :=
  match o with
  | VNum x => mret (x <? c)%float
  | _ => raise TypeError
  end.

Definition py_gt (o : value) (c : float) : M bool :=
  match o with
  | VNum x => mret (c <? x)%float
  | _ => raise TypeError
  end.

(** [o * 100]; a string is repeated. *)
Definition py_mul100 (o : value) : M value :=
  match o with
  | VNum x => mret (VNum (x * 100)%float)
  | VStr s => mret (VStr (str_repeat s 100))
  | VRef _ => raise TypeError
  end.

Definition as_float (o : value) : option float :=
  match o with VNum x => Some x | _ => None end.

(** Lines 257-263. *)
Definition latency_rating (data : value) : M string :=
  p ← subscript data "overhead_percent";
  c ← py_lt p 10;
  if c : bool then mret "EXCELLENT"
  else
    p' ← subscript data "overhead_percent";
    c' ← py_lt p' 25;
    if c' : bool then mret "GOOD" else mret "NEEDS IMPROVEMENT".

(** Lines 278-284. *)
Definition bandwidth_rating (data : value) : M string :=
  p ← subscript data "bandwidth_ratio";
  c ← py_gt p 0.8;
  if c : bool then mret "EXCELLENT"
  else
    p' ← subscript data "bandwidth_ratio";
    c' ← py_gt p' 0.6;
    if c' : bool then mret "GOOD" else mret "NEEDS IMPROVEMENT".

(** Lines 248-266. *)
Definition latency_section (latency_data : value) : W unit :=
  f_write [Lit ("LATENCY ANALYSIS" +:+ nl)];;
  f_write [Lit (str_repeat "-" 20 +:+ nl)];;
  nonempty ← reading (truthy latency_data);
  if nonempty : bool then
    entries ← reading (items latency_data);
    for_each entries (λ '(test_name, data),
      f_write [Lit nl; Display "ping_" test_name; Lit (":" +:+ nl)];;
      baseline_avg ← reading (subscript data "baseline_avg" ≫= fmt_fixed 2);
      f_write [Lit "  Baseline Average: "; baseline_avg; Lit ("ms" +:+ nl)];;
      vpn_avg ← reading (subscript data "vpn_avg" ≫= fmt_fixed 2);
      f_write [Lit "  VPN Average: "; vpn_avg; Lit ("ms" +:+ nl)];;
      overhead_ms ← reading (subscript data "overhead_ms" ≫= fmt_fixed 2);
      overhead_percent ←
        reading (subscript data "overhead_percent" ≫= fmt_fixed 1);
      f_write [Lit "  Overhead: +"; overhead_ms; Lit "ms (+";
               overhead_percent; Lit ("%)" +:+ nl)];;
      rating ← reading (latency_rating data);
      f_write [Lit "  Rating: "; Lit rating; Lit nl])
  else f_write [Lit ("No latency data available" +:+ nl)].

(** Lines 268-287. *)
Definition bandwidth_section (bandwidth_data : value) : W unit :=
  f_write [Lit (nl +:+ nl +:+ "BANDWIDTH ANALYSIS" +:+ nl)];;
  f_write [Lit (str_repeat "-" 20 +:+ nl)];;
  nonempty ← reading (truthy bandwidth_data);
  if nonempty : bool then
    entries ← reading (items bandwidth_data);
    for_each entries (λ '(test_name, data),
      f_write [Lit nl; Display "iperf_" test_name; Lit (":" +:+ nl)];;
      baseline_mbps ← reading (subscript data "baseline_mbps" ≫= fmt_fixed 2);
      f_write [Lit "  Baseline: "; baseline_mbps; Lit (" Mbps" +:+ nl)];;
      vpn_mbps ← reading (subscript data "vpn_mbps" ≫= fmt_fixed 2);
      f_write [Lit "  VPN: "; vpn_mbps; Lit (" Mbps" +:+ nl)];;
      efficiency ←
        reading (r ← subscript data "bandwidth_ratio";
                 r100 ← py_mul100 r;
                 fmt_fixed 1 r100);
      f_write [Lit "  Efficiency: "; efficiency; Lit ("%" +:+ nl)];;
      rating ← reading (bandwidth_rating data);
      f_write [Lit "  Rating: "; Lit rating; Lit nl])
  else f_write [Lit ("No bandwidth data available" +:+ nl)].

Section Report.

(** [numpy.mean] over a list of floats is taken as given. *)
Variable np_mean : list float → float.

(** [np.mean([d[field] for d in mapping.values()])]; numpy rejects a list
    that holds anything but numbers. *)
Definition mean_of (field : string) (mapping : value) : M float :=
  entries ← items mapping;
  column ← mapM (λ kv : string * value, subscript kv.2 field) entries;
  match mapM as_float column with
  | Some xs => mret (np_mean xs)
  | None => raise TypeError
  end.

(** Lines 300-305. *)
Definition overall_rating (avg_latency_overhead avg_bandwidth_efficiency
    : float) : string :=
  if ((avg_latency_overhead <? 10) && (0.8 <? avg_bandwidth_efficiency))%float
  then "EXCELLENT"
  else if ((avg_latency_overhead <? 25)
           && (0.6 <? avg_bandwidth_efficiency))%float
  then "GOOD"
  else "NEEDS IMPROVEMENT".

(** Lines 289-309. *)
Definition overall_section (latency_data bandwidth_data : value) : W unit :=
  f_write [Lit (nl +:+ nl +:+ "OVERALL ASSESSMENT" +:+ nl)];;
  f_write [Lit (str_repeat "-" 20 +:+ nl)];;
  both ← reading (has_latency ← truthy latency_data;
                  if has_latency : bool then truthy bandwidth_data
                  else mret false);
  if both : bool then
    avg_latency_overhead ← reading (mean_of "overhead_percent" latency_data);
    avg_bandwidth_efficiency ←
      reading (mean_of "bandwidth_ratio" bandwidth_data);
    f_write [Lit "Average Latency Overhead: ";
             Fixed 1 avg_latency_overhead; Lit ("%" +:+ nl)];;
    f_write [Lit "Average Bandwidth Efficiency: ";
             Fixed 1 (avg_bandwidth_efficiency * 100)%float;
             Lit ("%" +:+ nl)];;
    let overall := overall_rating avg_latency_overhead
                     avg_bandwidth_efficiency in
    f_write [Lit "Overall Rating: "; Lit overall; Lit nl]
  else f_write [Lit ("Insufficient data for overall assessment" +:+ nl)].

(** Lines 238-311: what is written to the report file. *)
Definition generate_summary_report (latency_data bandwidth_data : value)
    : W unit :=
  f_write [Lit ("WireGuard VPN Performance Analysis Report" +:+ nl)];;
  f_write [Lit (str_repeat "=" 50 +:+ nl)];;
  f_write [Lit "Generated: "; Now "%Y-%m-%d %H:%M:%S"; Lit (nl +:+ nl)];;
  latency_section latency_data;;
  bandwidth_section bandwidth_data;;
  overall_section latency_data bandwidth_data.

End Report.

(** ** Loading, charting and the run as a whole *)

(** *** Test names *)

(** [s.replace(old, '')] for a non-empty [old]: the occurrences of [old] are
    dropped from left to right, [skip] counting what is left to drop of the
    occurrence at hand. *)
Fixpoint str_remove_from (old : string) (skip : nat) (s : string) : string :=
  match s with
  | EmptyString => EmptyString
  | String c s' =>
      match skip with
      | S n => str_remove_from old n s'
      | O =>
          if String.prefix old s
          then str_remove_from old (String.length old - 1) s'
          else String c (str_remove_from old 0 s')
      end
  end.

(** Lines 42 and 54: [file_path.stem.replace(f"_{test_type}", "")]. *)
Definition test_name_of (stem test_type : string) : string :=
  str_remove_from ("_" +:+ test_type) 0 stem.

(** *** What a run does to the world *)

(** The data handed to matplotlib for one figure: the tick labels, the two
    series of the left plot, the bars of the right plot and their colours. *)
Record chart : Type := Chart {
  labels : list piece;
  left_baseline : list value;
  left_vpn : list value;
  right_bars : list value;
  colors : list string
}.

Inductive event : Type :=
| Said (ps : list piece)                       (* print(...) *)
| Warned (stem why : string)                   (* the warning of the loader *)
| SaidSaved (what : string) (file : list piece)
    (* print(f"<what>: {path}"), the path being [file] in the analysis
       directory *)
| Drew (file : list piece) (c : chart)         (* plt.savefig *)
| Wrote (file : list piece) (content : list (list piece))
    (* the report file, once closed *)
| Counted (what : string) (n : nat).
    (* print(f"<what>: {n} tests analyzed") *)

(** A computation on the store that also acts on the world. *)
Definition IO (A : Type) : Type := heap → heap * list event * (pyerr + A).

#[global] Instance IO_ret : MRet IO := λ A a h, (h, [], inr a).
#[global] Instance IO_bind : MBind IO := λ A B f m h,
  match m h with
  | (h', evs, inr a) => let '(h'', evs', r) := f a h' in (h'', evs ++ evs', r)
  | (h', evs, inl e) => (h', evs, inl e)
  end.

Definition act {A} (m : M A) : IO A := λ h, let '(h', r) := m h in (h', [], r).

Definition emit (e : event) : IO unit := λ h, (h, [e], inr tt).

(** *** The loader *)

(** What [json.loads] makes of a test file: a number, a string, or an object
    with numbers and strings for fields (nested objects and arrays are
    outside the model). *)
Inductive atom : Type :=
| ANum (x : float)
| AStr (s : string).

Inductive json : Type :=
| JNum (x : float)
| JStr (s : string)
| JObj (fields : list (string * atom)).

(** What opening, reading, stripping and decoding a file comes to: nothing
    but white space, a JSON text, or one of the two exceptions the loader
    catches ([json.JSONDecodeError], [FileNotFoundError]).  A file on which
    [open], [read] or [json.loads] raises anything else (a
    [UnicodeDecodeError], a [PermissionError], a [RecursionError], the
    [ValueError] of an overlong integer) ends the loader with that
    exception; such files are not among the listings considered here, and
    what is said of the loader and of the run holds for listings of files of
    these three kinds. *)
Inductive file : Type :=
| Blank
| Json (j : json)
| Broken (why : string).

Definition atom_value (a : atom) : value :=
  match a with ANum x => VNum x | AStr s => VStr s end.

(** The decoder keeps, for a repeated key of an object, its last value. *)
Definition json_object (fields : list (string * atom)) : dict :=
  foldl (λ d kv, dict_set d kv.1 (atom_value kv.2)) [] fields.

Definition json_value (j : json) : M value :=
  match j with
  | JNum x => mret (VNum x)
  | JStr s => mret (VStr s)
  | JObj fields => l ← new_dict (json_object fields); mret (VRef l)
  end.

(** [o[k] = v] *)
Definition setitem_of (o : value) (k : string) (v : value) : M unit :=
  match o with
  | VRef l => setitem l k v
  | _ => raise TypeError
  end.

(** Lines 40-49 and 52-61: one directory, given as the files its glob
    yields, each with its stem; [None] is a directory that does not exist. *)
Definition load_side (data : value) (side test_type : string)
    (dir : option (list (string * file))) : IO unit :=
  match dir with
  | None => mret tt
  | Some files =>
      for_each files (λ '(stem, f),
        let test_name := test_name_of stem test_type in
        match f with
        | Blank => mret tt
        | Json j =>
            loaded ← act (json_value j);
            mapping ← act (subscript data side);
            act (setitem_of mapping test_name loaded)
        | Broken why => emit (Warned stem why)
        end)
  end.

(** Lines 32-63. *)
Definition load_test_data (test_type : string)
    (baseline_dir vpn_dir : option (list (string * file))) : IO value :=
  baseline ← act (new_dict []);
  vpn ← act (new_dict []);
  data ← act (new_dict [("baseline", VRef baseline); ("vpn", VRef vpn)]);
  load_side (VRef data) "baseline" test_type baseline_dir;;
  load_side (VRef data) "vpn" test_type vpn_dir;;
  mret (VRef data).

(** *** The charts *)

(** Line 160. *)
Definition latency_colour (x : value) : M string :=
  c ← py_lt x 10;
  if c : bool then mret "green"
  else c' ← py_lt x 25; if c' : bool then mret "orange" else mret "red".

(** Line 217. *)
Definition bandwidth_colour (x : value) : M string :=
  c ← py_gt x 80;
  if c : bool then mret "green"
  else c' ← py_gt x 60; if c' : bool then mret "orange" else mret "red".

Definition stamped (name ext : string) : list piece :=
  [Lit name; Now "%Y%m%d_%H%M%S"; Lit ext].

(** Lines 124-179, up to what is handed to matplotlib: the lookups in the
    entries and the choice of the colours are the function's own code;
    what matplotlib does with the series (the figure, its layout, the file
    it saves, [plt.show]) is taken to succeed and is kept as one [Drew]. *)
Definition generate_latency_chart (latency_data : value) : IO unit :=
  nonempty ← act (truthy latency_data);
  if nonempty : bool then
    entries ← act (items latency_data);
    rows ← act (mapM (λ '(test_name, data),
              baseline_avg ← subscript data "baseline_avg";
              vpn_avg ← subscript data "vpn_avg";
              overhead ← subscript data "overhead_ms";
              mret (Display "ping_" test_name, baseline_avg, vpn_avg,
                    overhead)) entries);
    let overheads := rows.*2 in
    colors ← act (mapM latency_colour overheads);
    emit (Drew (stamped "latency_analysis_" ".png")
            (Chart rows.*1.*1.*1 rows.*1.*1.*2 rows.*1.*2 overheads colors));;
    emit (SaidSaved "Latency chart saved" (stamped "latency_analysis_" ".png"))
  else emit (Said [Lit "No latency data available for charting"]).

(** Lines 181-236, up to what is handed to matplotlib, as for the latency
    chart. *)
Definition generate_bandwidth_chart (bandwidth_data : value) : IO unit :=
  nonempty ← act (truthy bandwidth_data);
  if nonempty : bool then
    entries ← act (items bandwidth_data);
    rows ← act (mapM (λ '(test_name, data),
              baseline_mbps ← subscript data "baseline_mbps";
              vpn_mbps ← subscript data "vpn_mbps";
              ratio ← subscript data "bandwidth_ratio";
              percent ← py_mul100 ratio;
              mret (Display "iperf_" test_name, baseline_mbps, vpn_mbps,
                    percent)) entries);
    let ratios := rows.*2 in
    colors ← act (mapM bandwidth_colour ratios);
    emit (Drew (stamped "bandwidth_analysis_" ".png")
            (Chart rows.*1.*1.*1 rows.*1.*1.*2 rows.*1.*2 ratios colors));;
    emit (SaidSaved "Bandwidth chart saved"
            (stamped "bandwidth_analysis_" ".png"))
  else emit (Said [Lit "No bandwidth data available for charting"]).

(** *** The run *)

(** [len(o)] *)
Definition py_len (o : value) : M nat :=
  match o with
  | VRef l => d ← load l; mret (List.length d)
  | VStr s => mret (String.length s)
  | VNum _ => raise TypeError
  end.

Section Run.

Variable np_mean : list float → float.

(** Lines 240-311: the report file as it is left, and the closing print.
    Opening and writing the file are taken to succeed; the [with] block
    closes the file also when a line of the report raises. *)
Definition write_report (latency_data bandwidth_data : value) : IO unit :=
  λ h,
    let '(content, r) :=
      generate_summary_report np_mean latency_data bandwidth_data h in
    let file := stamped "comprehensive_report_" ".txt" in
    match r with
    | inr _ =>
        (h, [Wrote file content; SaidSaved "Comprehensive report saved" file],
         inr tt)
    | inl e => (h, [Wrote file content], inl e)
    end.

(** Lines 313-338. *)
Definition run_analysis (test_type : string) (generate_charts : bool)
    (baseline_dir vpn_dir : option (list (string * file))) : IO value :=
  emit (Said [Lit "Loading test data..."]);;
  data ← load_test_data test_type baseline_dir vpn_dir;
  emit (Said [Lit "Analyzing latency performance..."]);;
  latency_data ← act (analyze_latency data);
  emit (Said [Lit "Analyzing bandwidth performance..."]);;
  bandwidth_data ← act (analyze_bandwidth data);
  (if generate_charts then
     emit (Said [Lit "Generating charts..."]);;
     has_latency ← act (truthy latency_data);
     (if has_latency : bool then generate_latency_chart latency_data
      else mret tt);;
     has_bandwidth ← act (truthy bandwidth_data);
     (if has_bandwidth : bool then generate_bandwidth_chart bandwidth_data
      else mret tt)
   else mret tt);;
  emit (Said [Lit "Generating summary report..."]);;
  write_report latency_data bandwidth_data;;
  emit (Said [Lit "Analysis complete!"]);;
  results ← act (new_dict [("latency", latency_data);
                           ("bandwidth", bandwidth_data)]);
  mret (VRef results).

(** Lines 348-355, the arguments being parsed and the analyzer built (lines
    19-30 make the analysis directory and set the plotting style, which is
    taken to succeed); the two directories are [results_dir/baseline] and
    [results_dir/vpn]. *)
Definition main (test_type : string) (no_charts : bool)
    (baseline_dir vpn_dir : option (list (string * file))) : IO unit :=
  results ← run_analysis test_type (negb no_charts) baseline_dir vpn_dir;
  latency ← act (subscript results "latency");
  has_latency ← act (truthy latency);
  (if has_latency : bool then
     latency' ← act (subscript results "latency");
     n ← act (py_len latency');
     emit (Counted "Latency Analysis" n)
   else mret tt);;
  bandwidth ← act (subscript results "bandwidth");
  has_bandwidth ← act (truthy bandwidth);
  (if has_bandwidth : bool then
     bandwidth' ← act (subscript results "bandwidth");
     n ← act (py_len bandwidth');
     emit (Counted "Bandwidth Analysis" n)
   else mret tt).

End Run.

(** ** A sample store *)

Module Sample.

Definition data : dict := [("baseline", VRef 1); ("vpn", VRef 2)].

(** A run with one latency test and one bandwidth test measured on both
    sides, and one latency test on each side alone.  [data] is object 0,
    its two mappings objects 1 and 2, the records objects 3 to 6. *)
Definition baseline : dict :=
  [("ping_gateway", VRef 3); ("iperf_upload", VRef 4);
   ("ping_only_base", VRef 3)].

Definition vpn : dict :=
  [("iperf_upload", VRef 5); ("ping_only_vpn", VRef 6);
   ("ping_gateway", VRef 6)].

Definition h0 : heap :=
  [ data; baseline; vpn;
    [("avg_ping_ms", VNum 20); ("min_ping_ms", VNum 18);
     ("max_ping_ms", VNum 25); ("packet_loss_percent", VNum 0)];
    [("bandwidth_mbps", VNum 500)];
    [("bandwidth_mbps", VNum 450); ("direction", VStr "upload")];
    [("avg_ping_ms", VNum 22); ("min_ping_ms", VNum 19);
     ("max_ping_ms", VNum 31); ("packet_loss_percent", VNum 0)] ].

(** A run whose baseline measured nothing: average 0 ms, throughput
    0 Mbps. *)
Definition baseline_zero : dict :=
  [("ping_dead", VRef 3); ("iperf_dead", VRef 5)].

Definition vpn_zero : dict :=
  [("ping_dead", VRef 4); ("iperf_dead", VRef 6)].

Definition h_zero : heap :=
  [ data; baseline_zero; vpn_zero;
    [("avg_ping_ms", VNum 0); ("min_ping_ms", VNum 0);
     ("max_ping_ms", VNum 0); ("packet_loss_percent", VNum 100)];
    [("avg_ping_ms", VNum 5); ("min_ping_ms", VNum 4);
     ("max_ping_ms", VNum 6); ("packet_loss_percent", VNum 0)];
    [("bandwidth_mbps", VNum 0)];
    [("bandwidth_mbps", VNum 90)] ].

(** No test file was loaded on either side. *)
Definition h_empty : heap := [ data; []; [] ].

(** The store once both analyses have run on [h0]: the latency comparisons
    are object 7, the bandwidth comparisons object 11. *)
Definition h_done : heap :=
  (analyze_bandwidth (VRef 0) (analyze_latency (VRef 0) h0).1).1.

(** A mean that adds from the left, for the runs below. *)
Definition seq_mean (xs : list float) : float :=
  (foldl PrimFloat.add 0 xs /
   PrimFloat.of_uint63 (Uint63.of_nat (List.length xs)))%float.

End Sample.

(** ** A sample pair of directories *)

Module Listing.

Definition ping (avg lo hi loss : float) : file :=
  Json (JObj [("avg_ping_ms", ANum avg); ("min_ping_ms", ANum lo);
              ("max_ping_ms", ANum hi); ("packet_loss_percent", ANum loss)]).

Definition iperf (mbps : float) : file :=
  Json (JObj [("bandwidth_mbps", ANum mbps)]).

(** The gateway and the name server were measured on both sides, in a
    different order; one baseline file is blank and one holds no JSON. *)
Definition baseline_dir : option (list (string * file)) :=
  Some [("ping_gateway_latest", ping 2 1 3 0);
        ("ping_dns_latest", ping 20 18 25 0);
        ("iperf_upload_latest", iperf 500);
        ("ping_lonely_latest", Blank);
        ("ping_broken_latest", Broken "Expecting value")].

Definition vpn_dir : option (list (string * file)) :=
  Some [("ping_dns_latest", ping 23 19 31 0);
        ("iperf_upload_latest", iperf 400);
        ("ping_gateway_latest", ping 4 2 9 0);
        ("ping_broken_latest", ping 5 4 6 0)].

(** A baseline that measured nothing but losses. *)
Definition dead_dir : option (list (string * file)) :=
  Some [("ping_gateway_latest", ping 0 0 0 100)].

(** The store the loader leaves, from an empty one: the baseline mapping is
    object 0, the VPN mapping object 1, the data object 2 and the records
    objects 3 to 9. *)
Definition h_loaded : heap :=
  (load_test_data "latest" baseline_dir vpn_dir []).1.1.

(** The store once both analyses have run on it: the latency comparisons
    are object 10, the bandwidth comparisons object 15. *)
Definition h_analyzed : heap :=
  (analyze_bandwidth (VRef 2) (analyze_latency (VRef 2) h_loaded).1).1.

(** A mean for lists of at most two numbers. *)
Definition mean2 (xs : list float) : float :=
  match xs with
  | [x] => x
  | [x; y] => ((x + y) / 2)%float
  | _ => 0%float
  end.

End Listing.

(** ** Vocabulary of the statements *)

(** Every object of [h] is found unchanged, at its location, in [h']. *)
Definition preserved (h h' : heap) : Prop :=
  ∀ l d, h !! l = Some d → h' !! l = Some d.

(** A computation that leaves every store as it found it. *)
Definition read_only {A} (m : M A) : Prop := ∀ h, (m h).1 = h.

(** A computation that keeps the objects of [h], from any store that has
    them, and drops no object. *)
Definition keeps {A} (h : heap) (m : M A) : Prop :=
  ∀ hc, preserved h hc →
    preserved h (m hc).1 ∧ List.length hc ≤ List.length (m hc).1.

(** The shape both analyses share: select by prefix, then join on the name.
    [analyze_latency] and [analyze_bandwidth] are its two instances. *)
Section Join.

Variable pfx : string.
Variable entry_of : value → value → M dict.

Definition join_step (results baseline_sel vpn_sel : loc)
    (test_name : string) : M unit :=
  matched ← contains test_name vpn_sel;
  if matched : bool then
    baseline ← subscript (VRef baseline_sel) test_name;
    vpn ← subscript (VRef vpn_sel) test_name;
    entry ← entry_of baseline vpn;
    e ← new_dict entry;
    setitem results test_name (VRef e)
  else mret tt.

Definition join_rest (data : value) (results : loc) : M value :=
  all_baseline ← subscript data "baseline";
  baseline_items ← items all_baseline;
  baseline_sel ← new_dict (select_prefix pfx baseline_items);
  all_vpn ← subscript data "vpn";
  vpn_items ← items all_vpn;
  vpn_sel ← new_dict (select_prefix pfx vpn_items);
  names ← keys baseline_sel;
  for_each names (join_step results baseline_sel vpn_sel);;
  mret (VRef results).

Definition join_on (data : value) : M value :=
  results ← new_dict [];
  join_rest data results.

End Join.

(** [field h o k v]: in store [h], [o] is a dict that binds [k] to [v]. *)
Definition field (h : heap) (o : value) (k : string) (v : value) : Prop :=
  ∃ l d, o = VRef l ∧ h !! l = Some d ∧ dict_get d k = Some v.

(** [is_dict h o d]: in store [h], [o] is the dict with the items [d]. *)
Definition is_dict (h : heap) (o : value) (d : dict) : Prop :=
  ∃ l, o = VRef l ∧ h !! l = Some d.

(** A latency record with average [avg]: the four fields [analyze_latency]
    reads are there, the average is a number. *)
Definition latency_record (h : heap) (o : value) (avg : float) : Prop :=
  field h o "avg_ping_ms" (VNum avg) ∧
  (∃ v, field h o "min_ping_ms" v) ∧
  (∃ v, field h o "max_ping_ms" v) ∧
  (∃ v, field h o "packet_loss_percent" v).

(** A bandwidth record with throughput [mbps]. *)
Definition bandwidth_record (h : heap) (o : value) (mbps : float) : Prop :=
  field h o "bandwidth_mbps" (VNum mbps).

(** [name] is a test of the kind selected by [pfx] that both mappings hold,
    with record [b] in the baseline and [v] under the VPN. *)
Definition matched (pfx : string) (BL VL : dict) (name : string)
    (b v : value) : Prop :=
  startswith name pfx = true ∧
  dict_get BL name = Some b ∧ dict_get VL name = Some v.

(** The mapping [res] of store [h'] has an entry under a name exactly when
    the name starts with [pfx] and both [BL] and [VL] hold it. *)
Definition inner_join (pfx : string) (BL VL : dict) (h' : heap)
    (res : value) : Prop :=
  ∀ name, (∃ e, field h' res name e) ↔
          startswith name pfx = true ∧
          is_Some (dict_get BL name) ∧ is_Some (dict_get VL name).

(** The floats [xs] are what the entries of [mapping] hold under [k]. *)
Definition column (h : heap) (mapping : dict) (k : string) (xs : list float)
    : Prop :=
  Forall2 (λ kv x, field h kv.2 k (VNum x)) mapping xs.

(** What the report says of a run without data. *)
Definition dashes : list piece := [Lit (str_repeat "-" 20 +:+ nl)].

Definition overall_heading : list (list piece) :=
  [ [Lit (nl +:+ nl +:+ "OVERALL ASSESSMENT" +:+ nl)]; dashes ].

Definition insufficient : list (list piece) :=
  overall_heading ++
  [ [Lit ("Insufficient data for overall assessment" +:+ nl)] ].

Definition report_without_data : list (list piece) :=
  [ [Lit ("WireGuard VPN Performance Analysis Report" +:+ nl)];
    [Lit (str_repeat "=" 50 +:+ nl)];
    [Lit "Generated: "; Now "%Y-%m-%d %H:%M:%S"; Lit (nl +:+ nl)];
    [Lit ("LATENCY ANALYSIS" +:+ nl)]; dashes;
    [Lit ("No latency data available" +:+ nl)];
    [Lit (nl +:+ nl +:+ "BANDWIDTH ANALYSIS" +:+ nl)]; dashes;
    [Lit ("No bandwidth data available" +:+ nl)] ] ++ insufficient.

(** In store [hc] the mapping [R] holds, under [name], a new object with the
    items [entry_of b v] returned at some stage of the run. *)
Definition entry_at (entry_of : value → value → M dict) (h hc : heap)
    (R : dict) (name : string) (b v : value) : Prop :=
  ∃ e items hmid,
    dict_get R name = Some (VRef e) ∧ hc !! e = Some items ∧
    S (S (List.length h)) < e ∧
    preserved h hmid ∧ entry_of b v hmid = (hmid, inr items).

(** The state of the join once the names [done] have been visited: the run
    started in [h], whose three new objects are the result mapping and the
    two selections [BP] and [VP]. *)
Definition join_inv (entry_of : value → value → M dict) (h : heap)
    (BP VP : dict) (done : list string) (hc : heap) : Prop :=
  preserved h hc ∧
  hc !! S (List.length h) = Some BP ∧
  hc !! S (S (List.length h)) = Some VP ∧
  ∃ R, hc !! List.length h = Some R ∧
    (∀ name, dict_mem R name = true ↔ name ∈ done ∧ dict_mem VP name = true) ∧
    (∀ name b v, name ∈ done →
       dict_get BP name = Some b → dict_get VP name = Some v →
       entry_at entry_of h hc R name b v).

(** The run ended with [err], raised for a pair of records under one name. *)
Definition join_fails (entry_of : value → value → M dict) (h : heap)
    (BP VP : dict) (err : pyerr) : Prop :=
  ∃ name b v hmid,
    dict_get BP name = Some b ∧ dict_get VP name = Some v ∧
    preserved h hmid ∧ entry_of b v hmid = (hmid, inl err).

(** ** Vocabulary of the further properties *)

(** No occurrence of [old] in [s +:+ old] starts inside [s]. *)
Fixpoint early_free (old s : string) : bool :=
  match s with
  | EmptyString => true
  | String c s' => negb (String.prefix old (s +:+ old)) && early_free old s'
  end.

(** The colours and ratings as functions of the number they judge. *)
Definition colour_of_ms (m : float) : string :=
  if (m <? 10)%float then "green"
  else if (m <? 25)%float then "orange" else "red".

Definition colour_of_percent (p : float) : string :=
  if (80 <? p)%float then "green"
  else if (60 <? p)%float then "orange" else "red".

Definition rating_of_percent (p : float) : string :=
  if (p <? 10)%float then "EXCELLENT"
  else if (p <? 25)%float then "GOOD" else "NEEDS IMPROVEMENT".

Definition rating_of_ratio (r : float) : string :=
  if (0.8 <? r)%float then "EXCELLENT"
  else if (0.6 <? r)%float then "GOOD" else "NEEDS IMPROVEMENT".

(** [kv] is an item of a result mapping: its value is an object, newer than
    [r], with the items some call of [entry_of] returned. *)
Definition entry_made (entry_of : value → value → M dict) (r : loc)
    (hc : heap) (kv : string * value) : Prop :=
  ∃ e items b v hmid,
    kv.2 = VRef e ∧ r < e ∧ hc !! e = Some items ∧
    entry_of b v hmid = (hmid, inr items).

(** What the visited names [done] have made of the result mapping: every
    item is an entry, and the keys are the visited names that the VPN side
    holds, in the order of the visit. *)
Definition join_all (entry_of : value → value → M dict) (h : heap)
    (BP VP : dict) (done : list string) (hc : heap) : Prop :=
  ∃ R, hc !! List.length h = Some R ∧
    Forall (entry_made entry_of (List.length h) hc) R ∧
    (NoDup BP.*1 → R.*1 = filter (λ n, dict_mem VP n = true) done).

(** The files of a directory; none when it does not exist. *)
Definition entries_of (dir : option (list (string * file)))
    : list (string * file) :=
  default [] dir.

(** The warnings a listing gives rise to: one for each file that cannot be
    read or decoded, in the order of the listing. *)
Definition warnings (files : list (string * file)) : list event :=
  omap (λ '(stem, f),
    match f with Broken why => Some (Warned stem why) | _ => None end) files.

(** The listing without the files that are blank or cannot be decoded. *)
Definition is_json (f : file) : bool :=
  match f with Json _ => true | _ => false end.

Definition decodable (files : list (string * file)) : list (string * file) :=
  filter (λ sf, is_json sf.2 = true) files.

(** [put d k j]: as [dict_set], on decoded texts. *)
Fixpoint put (d : list (string * json)) (k : string) (j : json)
    : list (string * json) :=
  match d with
  | [] => [(k, j)]
  | (k', j') :: d' =>
      if String.eqb k' k then (k, j) :: d' else (k', j') :: put d' k j
  end.

(** The decoded texts of a listing under their test names: a name is placed
    by its first file and holds the text of its last. *)
Definition decoded (test_type : string) (files : list (string * file))
    : list (string * json) :=
  foldl (λ acc sf,
    match sf.2 with
    | Json j => put acc (test_name_of sf.1 test_type) j
    | _ => acc
    end) [] files.

(** In store [h], the value [v] is the decoded text [j]. *)
Definition holds (h : heap) (v : value) (j : json) : Prop :=
  match j with
  | JNum x => v = VNum x
  | JStr s => v = VStr s
  | JObj fields => is_dict h v (json_object fields)
  end.

(** The mapping [m] has the items [js], name by name. *)
Definition loaded_as (h : heap) (m : dict) (js : list (string * json))
    : Prop :=
  Forall2 (λ kv nj, kv.1 = nj.1 ∧ holds h kv.2 nj.2) m js.

(** As [holds], for an object made since the store had [n] objects. *)
Definition item_new (n : nat) (hc : heap) (kv : string * value)
    (nj : string * json) : Prop :=
  kv.1 = nj.1 ∧
  match nj.2 with
  | JNum x => kv.2 = VNum x
  | JStr s => kv.2 = VStr s
  | JObj fs => ∃ l, kv.2 = VRef l ∧ n ≤ l ∧ hc !! l = Some (json_object fs)
  end.

(** The text a listing gives a test name: that of the last decodable file
    with this test name. *)
Definition last_text (test_type name : string)
    (files : list (string * file)) : option json :=
  foldl (λ acc sf,
    match sf.2 with
    | Json j =>
        if String.eqb (test_name_of sf.1 test_type) name then Some j else acc
    | _ => acc
    end) None files.

Fixpoint json_get (d : list (string * json)) (k : string) : option json :=
  match d with
  | [] => None
  | (k', j) :: d' => if String.eqb k' k then Some j else json_get d' k
  end.



(** The names of the kind selected by [pfx] that both mappings hold, in the
    order of the baseline mapping. *)
Definition matched_names (pfx : string) (BL VL : dict) : list string :=
  filter (λ n, startswith n pfx = true ∧ dict_mem VL n = true) BL.*1.

(** The names of [bs] of the kind selected by [pfx] that [vs] has too, in
    the order of [bs]. *)
Definition common_names (pfx : string) (bs vs : list string) : list string :=
  filter (λ n, startswith n pfx = true ∧ n ∈ vs) bs.

(** The numbers of a latency comparison and of a bandwidth comparison. *)
Record lrow : Type := LRow {
  baseline_avg_of : float;
  vpn_avg_of : float;
  overhead_ms_of : float;
  overhead_percent_of : float
}.

Record brow : Type := BRow {
  baseline_mbps_of : float;
  vpn_mbps_of : float;
  ratio_of : float
}.

(** The entry [kv] of a mapping of comparisons holds the numbers [r]. *)
Definition latency_row (h : heap) (kv : string * value) (r : lrow) : Prop :=
  field h kv.2 "baseline_avg" (VNum (baseline_avg_of r)) ∧
  field h kv.2 "vpn_avg" (VNum (vpn_avg_of r)) ∧
  field h kv.2 "overhead_ms" (VNum (overhead_ms_of r)) ∧
  field h kv.2 "overhead_percent" (VNum (overhead_percent_of r)).

Definition bandwidth_row (h : heap) (kv : string * value) (r : brow) : Prop :=
  field h kv.2 "baseline_mbps" (VNum (baseline_mbps_of r)) ∧
  field h kv.2 "vpn_mbps" (VNum (vpn_mbps_of r)) ∧
  field h kv.2 "bandwidth_ratio" (VNum (ratio_of r)).

(** The numbers of a comparison that follow from its two measurements. *)
Definition latency_row_derived (r : lrow) : Prop :=
  (baseline_avg_of r =? 0)%float = false ∧
  overhead_ms_of r = (vpn_avg_of r - baseline_avg_of r)%float ∧
  overhead_percent_of r
  = ((vpn_avg_of r - baseline_avg_of r) / baseline_avg_of r * 100)%float.

Definition bandwidth_row_derived (r : brow) : Prop :=
  (baseline_mbps_of r =? 0)%float = false ∧
  ratio_of r = (vpn_mbps_of r / baseline_mbps_of r)%float.

(** What the report writes for the comparisons [L] with the numbers [rows]. *)
Definition latency_block (kv : string * value) (r : lrow)
    : list (list piece) :=
  [ [Lit nl; Display "ping_" kv.1; Lit (":" +:+ nl)];
    [Lit "  Baseline Average: "; Fixed 2 (baseline_avg_of r);
     Lit ("ms" +:+ nl)];
    [Lit "  VPN Average: "; Fixed 2 (vpn_avg_of r); Lit ("ms" +:+ nl)];
    [Lit "  Overhead: +"; Fixed 2 (overhead_ms_of r); Lit "ms (+";
     Fixed 1 (overhead_percent_of r); Lit ("%)" +:+ nl)];
    [Lit "  Rating: "; Lit (rating_of_percent (overhead_percent_of r));
     Lit nl] ].

Definition bandwidth_block (kv : string * value) (r : brow)
    : list (list piece) :=
  [ [Lit nl; Display "iperf_" kv.1; Lit (":" +:+ nl)];
    [Lit "  Baseline: "; Fixed 2 (baseline_mbps_of r); Lit (" Mbps" +:+ nl)];
    [Lit "  VPN: "; Fixed 2 (vpn_mbps_of r); Lit (" Mbps" +:+ nl)];
    [Lit "  Efficiency: "; Fixed 1 (ratio_of r * 100)%float;
     Lit ("%" +:+ nl)];
    [Lit "  Rating: "; Lit (rating_of_ratio (ratio_of r)); Lit nl] ].

Definition latency_part (L : dict) (rows : list lrow) : list (list piece) :=
  [ [Lit ("LATENCY ANALYSIS" +:+ nl)]; dashes ] ++
  match L with
  | [] => [ [Lit ("No latency data available" +:+ nl)] ]
  | _ => concat (zip_with latency_block L rows)
  end.

Definition bandwidth_part (B : dict) (rows : list brow)
    : list (list piece) :=
  [ [Lit (nl +:+ nl +:+ "BANDWIDTH ANALYSIS" +:+ nl)]; dashes ] ++
  match B with
  | [] => [ [Lit ("No bandwidth data available" +:+ nl)] ]
  | _ => concat (zip_with bandwidth_block B rows)
  end.

Definition overall_part (np_mean : list float → float) (L B : dict)
    (lrows : list lrow) (brows : list brow) : list (list piece) :=
  match L, B with
  | [], _ | _, [] => insufficient
  | _, _ =>
      overall_heading ++
      [ [Lit "Average Latency Overhead: ";
         Fixed 1 (np_mean (overhead_percent_of <$> lrows)); Lit ("%" +:+ nl)];
        [Lit "Average Bandwidth Efficiency: ";
         Fixed 1 (np_mean (ratio_of <$> brows) * 100)%float;
         Lit ("%" +:+ nl)];
        [Lit "Overall Rating: ";
         Lit (overall_rating (np_mean (overhead_percent_of <$> lrows))
                (np_mean (ratio_of <$> brows)));
         Lit nl] ]
  end.

Definition report_of (np_mean : list float → float) (L B : dict)
    (lrows : list lrow) (brows : list brow) : list (list piece) :=
  [ [Lit ("WireGuard VPN Performance Analysis Report" +:+ nl)];
    [Lit (str_repeat "=" 50 +:+ nl)];
    [Lit "Generated: "; Now "%Y-%m-%d %H:%M:%S"; Lit (nl +:+ nl)] ] ++
  latency_part L lrows ++ bandwidth_part B brows ++
  overall_part np_mean L B lrows brows.

(** What the charts hand to matplotlib for them. *)
Definition latency_chart_of (L : dict) (rows : list lrow) : chart :=
  Chart (Display "ping_" <$> L.*1)
    ((λ r, VNum (baseline_avg_of r)) <$> rows)
    ((λ r, VNum (vpn_avg_of r)) <$> rows)
    ((λ r, VNum (overhead_ms_of r)) <$> rows)
    ((λ r, colour_of_ms (overhead_ms_of r)) <$> rows).

Definition bandwidth_chart_of (B : dict) (rows : list brow) : chart :=
  Chart (Display "iperf_" <$> B.*1)
    ((λ r, VNum (baseline_mbps_of r)) <$> rows)
    ((λ r, VNum (vpn_mbps_of r)) <$> rows)
    ((λ r, VNum (ratio_of r * 100)%float) <$> rows)
    ((λ r, colour_of_percent (ratio_of r * 100)%float) <$> rows).

(** The fields an entry takes over as they are: the key of the entry, the
    record it is read from ([true] for the baseline), the key read. *)
Definition latency_copies : list (string * bool * string) :=
  [ ("baseline_avg", true, "avg_ping_ms");
    ("vpn_avg", false, "avg_ping_ms");
    ("baseline_min", true, "min_ping_ms");
    ("baseline_max", true, "max_ping_ms");
    ("vpn_min", false, "min_ping_ms");
    ("vpn_max", false, "max_ping_ms");
    ("baseline_loss", true, "packet_loss_percent");
    ("vpn_loss", false, "packet_loss_percent") ].

Definition bandwidth_copies : list (string * bool * string) :=
  [ ("baseline_mbps", true, "bandwidth_mbps");
    ("vpn_mbps", false, "bandwidth_mbps") ].

(** The entry [items] holds, under each key of [table], what the record it
    names holds in store [h]. *)
Definition copied (table : list (string * bool * string)) (h : heap)
    (b v : value) (items : dict) : Prop :=
  Forall (λ c, ∀ x, field h (if c.1.2 : bool then b else v) c.2 x →
                    dict_get items c.1.1 = Some x) table.

(** What a run leaves behind: the figures drawn for the comparisons ... *)
Definition chart_events (L : dict) (lrows : list lrow) (B : dict)
    (brows : list brow) : list event :=
  match L with
  | [] => []
  | _ => [Drew (stamped "latency_analysis_" ".png") (latency_chart_of L lrows);
          SaidSaved "Latency chart saved" (stamped "latency_analysis_" ".png")]
  end ++
  match B with
  | [] => []
  | _ => [Drew (stamped "bandwidth_analysis_" ".png")
            (bandwidth_chart_of B brows);
          SaidSaved "Bandwidth chart saved"
            (stamped "bandwidth_analysis_" ".png")]
  end.

(** ... and all that a run that returns has done, [loading] being the
    warnings of the loader. *)
Definition run_events (np_mean : list float → float) (charts : bool)
    (loading : list event) (L B : dict) (lrows : list lrow)
    (brows : list brow) : list event :=
  [Said [Lit "Loading test data..."]] ++ loading ++
  [Said [Lit "Analyzing latency performance..."];
   Said [Lit "Analyzing bandwidth performance..."]] ++
  (if charts
   then Said [Lit "Generating charts..."] :: chart_events L lrows B brows
   else []) ++
  [Said [Lit "Generating summary report..."];
   Wrote (stamped "comprehensive_report_" ".txt")
     (report_of np_mean L B lrows brows);
   SaidSaved "Comprehensive report saved"
     (stamped "comprehensive_report_" ".txt");
   Said [Lit "Analysis complete!"]].

(** The closing lines of [main]. *)
Definition counts (L B : dict) : list event :=
  match L with
  | [] => []
  | _ => [Counted "Latency Analysis" (List.length L)]
  end ++
  match B with
  | [] => []
  | _ => [Counted "Bandwidth Analysis" (List.length B)]
  end.

(** The line that rates a comparison. *)
Definition rating_line (rating : string) : list piece :=
  [Lit "  Rating: "; Lit rating; Lit nl].

(** ** Sample comparisons at the bounds of the ratings *)

Module Ratings.

Definition latency_entry_of (base vpn ms percent : float) : dict :=
  [("baseline_avg", VNum base); ("vpn_avg", VNum vpn);
   ("overhead_ms", VNum ms); ("overhead_percent", VNum percent)].

Definition bandwidth_entry_of (base vpn ratio : float) : dict :=
  [("baseline_mbps", VNum base); ("vpn_mbps", VNum vpn);
   ("bandwidth_ratio", VNum ratio)].

(** Four latency comparisons, object 0, whose overhead percentages are
    9.999, 10.0, 24.999 and 25.0. *)
Definition latency_names : dict :=
  [("ping_a", VRef 1); ("ping_b", VRef 2); ("ping_c", VRef 3);
   ("ping_d", VRef 4)].

Definition latency_rows : list lrow :=
  [LRow 100 109.999 9.999 9.999; LRow 100 110 10 10.0;
   LRow 100 124.999 24.999 24.999; LRow 100 125 25 25.0].

Definition latency_store : heap :=
  [ latency_names;
    latency_entry_of 100 109.999 9.999 9.999;
    latency_entry_of 100 110 10 10.0;
    latency_entry_of 100 124.999 24.999 24.999;
    latency_entry_of 100 125 25 25.0 ].

(** Four bandwidth comparisons, object 0, whose ratios are 0.8, 0.8001, 0.6
    and 0.6001. *)
Definition bandwidth_names : dict :=
  [("iperf_a", VRef 1); ("iperf_b", VRef 2); ("iperf_c", VRef 3);
   ("iperf_d", VRef 4)].

Definition bandwidth_rows : list brow :=
  [BRow 1000 800 0.8; BRow 10000 8001 0.8001; BRow 1000 600 0.6;
   BRow 10000 6001 0.6001].

Definition bandwidth_store : heap :=
  [ bandwidth_names;
    bandwidth_entry_of 1000 800 0.8;
    bandwidth_entry_of 10000 8001 0.8001;
    bandwidth_entry_of 1000 600 0.6;
    bandwidth_entry_of 10000 6001 0.6001 ].

(** What the analyses make of infinite measurements: a latency comparison,
    object 0 with entry 2, and a bandwidth comparison, object 1 with
    entry 3, whose derived numbers are NaN. *)
Definition nan_store : heap :=
  [ [("ping_far", VRef 2)]; [("iperf_far", VRef 3)];
    latency_entry_of infinity infinity nan nan;
    bandwidth_entry_of infinity infinity nan ].

End Ratings.

(** * Properties *)

(** ** Float comparisons *)

Lemma SFcompare_antisym a b :
  SFcompare b a = option_map CompOpp (SFcompare a b).
Proof.
  destruct a as [[]|[]| |[] m1 e1], b as [[]|[]| |[] m2 e2]; simpl; try done.
  all: rewrite (Z.compare_antisym e1 e2); destruct (e1 ?= e2)%Z; simpl;
    try done.
  all: change (PosDef.Pos.compare_cont Eq ?x ?y) with (Pos.compare x y).
  all: rewrite (Pos.compare_antisym m1 m2); by destruct (m1 ?= m2)%positive.
Qed.

Lemma leb_true_ltb_false (a b : float) :
  (a <=? b)%float = true → (b <? a)%float = false.
Proof.
  rewrite FloatAxioms.leb_spec, FloatAxioms.ltb_spec. unfold SFleb, SFltb.
  rewrite (SFcompare_antisym (Prim2SF a)).
  by destruct (SFcompare _ _) as [[]|].
Qed.

Lemma ltb_true_eqb_false (a b : float) :
  (a <? b)%float = true → (b =? a)%float = false.
Proof.
  rewrite FloatAxioms.eqb_spec, FloatAxioms.ltb_spec. unfold SFeqb, SFltb.
  rewrite (SFcompare_antisym (Prim2SF a)).
  by destruct (SFcompare _ _) as [[]|].
Qed.

Ltac float_consts c1 c2 :=
  rewrite FloatAxioms.leb_spec, FloatAxioms.ltb_spec; unfold SFleb, SFltb;
  let v1 := eval vm_compute in (Prim2SF c1) in change (Prim2SF c1) with v1;
  let v2 := eval vm_compute in (Prim2SF c2) in change (Prim2SF c2) with v2.

Ltac close_cmp := intros ?; first [reflexivity | discriminate | lia].

Lemma compare_cont_spec (x y : positive) :
  CompareSpec (Z.pos x = Z.pos y) (Z.pos x < Z.pos y)%Z (Z.pos y < Z.pos x)%Z
    (PosDef.Pos.compare_cont Eq x y).
Proof.
  change (PosDef.Pos.compare_cont Eq x y) with (Pos.compare x y).
  destruct (Pos.compare_spec x y); constructor; subst; lia.
Qed.

Lemma leb_25_ltb_10 (x : float) :
  (25 <=? x)%float = true → (x <? 10)%float = false.
Proof.
  float_consts 25%float 10%float.
  destruct (Prim2SF x) as [[]|[]| |[] m e]; unfold SFcompare;
    try close_cmp.
  destruct (Z.compare_spec (-48) e), (Z.compare_spec e (-49)); close_cmp.
Qed.

Lemma leb_06_ltb_08 (x : float) :
  (x <=? 0.6)%float = true → (0.8 <? x)%float = false.
Proof.
  float_consts 0.6%float 0.8%float.
  destruct (Prim2SF x) as [[]|[]| |[] m e]; unfold SFcompare;
    try close_cmp.
  destruct (Z.compare_spec e (-53)), (Z.compare_spec (-53) e),
    (compare_cont_spec m 5404319552844595),
    (compare_cont_spec 7205759403792794 m); close_cmp.
Qed.

(** ** Dicts *)

Lemma dict_get_set d k v k' :
  dict_get (dict_set d k v) k' =
  if String.eqb k k' then Some v else dict_get d k'.
Proof.
  induction d as [|[k0 v0] d IH]; simpl.
  - done.
  - destruct (String.eqb_spec k0 k) as [->|Hne]; simpl.
    + by destruct (String.eqb k k').
    + rewrite IH. destruct (String.eqb_spec k0 k') as [->|?]; [|done].
      by destruct (String.eqb_spec k k') as [->|?].
Qed.

Lemma dict_get_None d k : dict_get d k = None ↔ k ∉ d.*1.
Proof.
  induction d as [|[k0 v0] d IH]; simpl.
  - split; [intros _; apply not_elem_of_nil | done].
  - rewrite not_elem_of_cons. destruct (String.eqb_spec k0 k) as [->|?].
    + split; [done | intros []; done].
    + rewrite IH. naive_solver.
Qed.

Lemma dict_mem_true d k : dict_mem d k = true ↔ k ∈ d.*1.
Proof.
  unfold dict_mem. destruct (dict_get d k) eqn:E.
  - split; [|done]. intros _. destruct (decide (k ∈ d.*1)) as [|Hn]; [done|].
    apply dict_get_None in Hn. congruence.
  - apply dict_get_None in E. split; [done | intros; done].
Qed.

Lemma dict_mem_get d k : dict_mem d k = true ↔ is_Some (dict_get d k).
Proof.
  unfold dict_mem. destruct (dict_get d k); split; try done.
Qed.

Lemma dict_get_select_prefix p d k :
  dict_get (select_prefix p d) k =
  if startswith k p then dict_get d k else None.
Proof.
  unfold select_prefix. induction d as [|[k0 v0] d IH]; simpl.
  - by destruct (startswith k p).
  - rewrite filter_cons. simpl. destruct (decide _) as [Hp|Hp]; simpl.
    + rewrite IH. destruct (String.eqb_spec k0 k) as [->|?]; [|done].
      by rewrite Hp.
    + rewrite IH. destruct (String.eqb_spec k0 k) as [->|?]; [|done].
      by destruct (startswith k p).
Qed.

(** ** The store *)

Lemma preserved_refl h : preserved h h.
Proof. by intros l d. Qed.

Lemma preserved_trans h1 h2 h3 :
  preserved h1 h2 → preserved h2 h3 → preserved h1 h3.
Proof. intros H12 H23 l d Hl. eauto. Qed.

Lemma preserved_alloc h hc d : preserved h hc → preserved h (hc ++ [d]).
Proof. intros H l d' Hl. apply lookup_app_l_Some. eauto. Qed.

Lemma preserved_length h hc : preserved h hc → List.length h ≤ List.length hc.
Proof.
  intros H. destruct (decide (List.length h = 0)) as [->|Hn]; [lia|].
  destruct (lookup_lt_is_Some_2 h (List.length h - 1)) as [d Hd]; [lia|].
  apply H, lookup_lt_Some in Hd. lia.
Qed.

Lemma preserved_update h hc l d :
  preserved h hc → List.length h ≤ l → preserved h (<[l := d]> hc).
Proof.
  intros H Hle l' d' Hl. rewrite list_lookup_insert_ne; [eauto|].
  apply lookup_lt_Some in Hl. lia.
Qed.

(** *** Computations that only read *)

Lemma run_bind {A B} (m : M A) (f : A → M B) h :
  (m ≫= f) h =
  match m h with
  | (h', inr a) => f a h'
  | (h', inl e) => (h', inl e)
  end.
Proof. done. Qed.

Lemma bind_inr {A B} (m : M A) (f : A → M B) h r :
  ((m ≫= f) h).2 = inr r → ∃ a h1, m h = (h1, inr a) ∧ (f a h1).2 = inr r.
Proof.
  rewrite run_bind. destruct (m h) as [h1 [e|a]]; simpl; [done|]. eauto.
Qed.

Lemma read_only_ret {A} (a : A) : read_only (mret a).
Proof. by intros h. Qed.

Lemma read_only_raise {A} e : read_only (raise (A := A) e).
Proof. by intros h. Qed.

Lemma read_only_bind {A B} (m : M A) (f : A → M B) :
  read_only m → (∀ a, read_only (f a)) → read_only (m ≫= f).
Proof.
  intros Hm Hf h. rewrite run_bind. specialize (Hm h).
  destruct (m h) as [h1 [e|a]]; simpl in *; subst; [done|]. apply Hf.
Qed.

Lemma read_only_load l : read_only (load l).
Proof. intros h. unfold load. by destruct (h !! l). Qed.

Lemma read_only_if {A} (b : bool) (m1 m2 : M A) :
  read_only m1 → read_only m2 → read_only (if b then m1 else m2).
Proof. by destruct b. Qed.

Create HintDb store discriminated.

#[local] Hint Resolve read_only_ret read_only_raise read_only_bind
  read_only_load read_only_if : store.

Lemma read_only_subscript o k : read_only (subscript o k).
Proof.
  destruct o; simpl; auto with store. apply read_only_bind; auto with store.
  intros d. destruct (dict_get d k); auto with store.
Qed.

Lemma read_only_items o : read_only (items o).
Proof. destruct o; simpl; auto with store. Qed.

Lemma read_only_get_default o k v : read_only (get_default o k v).
Proof. destruct o; simpl; auto with store. Qed.

Lemma read_only_contains k l : read_only (contains k l).
Proof. unfold contains. auto with store. Qed.

Lemma read_only_keys l : read_only (keys l).
Proof. unfold keys. auto with store. Qed.

Lemma read_only_py_sub a b : read_only (py_sub a b).
Proof. destruct a, b; simpl; auto with store. Qed.

Lemma read_only_py_truediv a b : read_only (py_truediv a b).
Proof. destruct a, b; simpl; auto with store. Qed.

#[local] Hint Resolve read_only_subscript read_only_items
  read_only_get_default read_only_contains read_only_keys read_only_py_sub
  read_only_py_truediv : store.

Lemma read_only_latency_entry baseline vpn :
  read_only (latency_entry baseline vpn).
Proof. unfold latency_entry. auto 20 with store. Qed.

Lemma read_only_bandwidth_entry baseline vpn :
  read_only (bandwidth_entry baseline vpn).
Proof. unfold bandwidth_entry. auto 20 with store. Qed.

(** *** Computations that keep the objects of a store *)

Lemma keeps_read_only {A} h (m : M A) : read_only m → keeps h m.
Proof. intros Hm hc Hc. by rewrite Hm. Qed.

Lemma keeps_bind {A B} h (m : M A) (f : A → M B) :
  keeps h m → (∀ a, keeps h (f a)) → keeps h (m ≫= f).
Proof.
  intros Hm Hf hc Hc. rewrite run_bind. destruct (Hm hc Hc) as [Hp Hl].
  destruct (m hc) as [h1 [e|a]]; simpl in *; [done|].
  destruct (Hf a h1 Hp) as [Hp' Hl']. split; [done|lia].
Qed.

Lemma keeps_new_dict h d : keeps h (new_dict d).
Proof.
  intros hc Hc. simpl. split; [by apply preserved_alloc|].
  rewrite length_app. lia.
Qed.

Lemma keeps_setitem h l k v : List.length h ≤ l → keeps h (setitem l k v).
Proof.
  intros Hl hc Hc. unfold setitem, load, store. rewrite run_bind.
  destruct (hc !! l) as [d|] eqn:E; simpl; [|done].
  rewrite E. simpl. split; [by apply preserved_update|].
  by rewrite length_insert.
Qed.

Lemma keeps_if {A} h (b : bool) (m1 m2 : M A) :
  keeps h m1 → keeps h m2 → keeps h (if b then m1 else m2).
Proof. by destruct b. Qed.

Lemma keeps_for_each {A} h (xs : list A) (body : A → M unit) :
  (∀ x, keeps h (body x)) → keeps h (for_each xs body).
Proof.
  intros Hb. induction xs as [|x xs IH]; simpl.
  - apply keeps_read_only, read_only_ret.
  - apply keeps_bind; auto.
Qed.

Lemma keeps_join_rest h pfx entry_of data :
  (∀ b v, read_only (entry_of b v)) →
  keeps h (join_rest pfx entry_of data (List.length h)).
Proof.
  intros Hro. unfold join_rest, join_step.
  repeat first
    [ apply keeps_new_dict
    | by apply keeps_setitem
    | apply keeps_read_only; solve [auto with store]
    | apply keeps_for_each; intros ?
    | apply keeps_if
    | apply keeps_bind; [|intros ?] ].
Qed.

(** Whatever [data] is and however the run ends, the objects of the store
    are kept, and a mapping that is returned is a new object. *)
Lemma join_on_frame pfx entry_of data h :
  (∀ b v, read_only (entry_of b v)) →
  preserved h (join_on pfx entry_of data h).1 ∧
  List.length h < List.length (join_on pfx entry_of data h).1 ∧
  ∀ res, (join_on pfx entry_of data h).2 = inr res →
         res = VRef (List.length h).
Proof.
  intros Hro. unfold join_on. rewrite run_bind. simpl.
  destruct (keeps_join_rest h pfx entry_of data Hro (h ++ [[]])) as [Hp Hl].
  { apply preserved_alloc, preserved_refl. }
  split_and!; [done| |].
  - rewrite length_app in Hl. simpl in Hl. lia.
  - intros res H. unfold join_rest in H.
    repeat (apply bind_inr in H as (? & ? & _ & H)). by injection H as <-.
Qed.

Lemma analyze_latency_join : analyze_latency = join_on "ping_" latency_entry.
Proof. reflexivity. Qed.

Lemma analyze_bandwidth_join :
  analyze_bandwidth = join_on "iperf_" bandwidth_entry.
Proof. reflexivity. Qed.

(** *** Running the primitives *)

Lemma run_load hc l d : hc !! l = Some d → load l hc = (hc, inr d).
Proof. unfold load. by intros ->. Qed.

Lemma run_contains hc l d k :
  hc !! l = Some d → contains k l hc = (hc, inr (dict_mem d k)).
Proof. intros H. unfold contains. by rewrite run_bind, (run_load _ _ _ H). Qed.

Lemma run_keys hc l d : hc !! l = Some d → keys l hc = (hc, inr d.*1).
Proof. intros H. unfold keys. by rewrite run_bind, (run_load _ _ _ H). Qed.

Lemma run_items hc l d : hc !! l = Some d → items (VRef l) hc = (hc, inr d).
Proof. apply run_load. Qed.

Lemma run_subscript hc l d k :
  hc !! l = Some d →
  subscript (VRef l) k hc =
  (hc, match dict_get d k with Some v => inr v | None => inl (KeyError k) end).
Proof.
  intros H. unfold subscript. rewrite run_bind, (run_load _ _ _ H).
  by destruct (dict_get d k).
Qed.

Lemma run_subscript_field hc o k v :
  field hc o k v → subscript o k hc = (hc, inr v).
Proof.
  intros (l & d & -> & Hl & Hk). by rewrite (run_subscript _ _ _ _ Hl), Hk.
Qed.

Lemma run_get_default hc l d k dflt :
  hc !! l = Some d →
  get_default (VRef l) k dflt hc = (hc, inr (default dflt (dict_get d k))).
Proof.
  intros H. unfold get_default. by rewrite run_bind, (run_load _ _ _ H).
Qed.

Lemma run_setitem hc l d k v :
  hc !! l = Some d →
  setitem l k v hc = (<[l := dict_set d k v]> hc, inr ()).
Proof.
  intros H. unfold setitem. rewrite run_bind, (run_load _ _ _ H).
  unfold store. by rewrite H.
Qed.

Lemma field_preserved h hc o k v :
  preserved h hc → field h o k v → field hc o k v.
Proof. intros Hp (l & d & -> & Hl & Hk). exists l, d. eauto. Qed.

Lemma field_inj h o k v v' : field h o k v → field h o k v' → v = v'.
Proof.
  intros (l & d & -> & Hl & Hk) (l' & d' & [= <-] & Hl' & Hk'). congruence.
Qed.

(** ** The join, one name at a time *)

Section JoinSpec.

Context (entry_of : value → value → M dict).
Hypothesis entry_ro : ∀ b v, read_only (entry_of b v).
Context (h : heap) (BP VP : dict).

Local Abbreviation r := (List.length h).
Local Abbreviation step := (join_step entry_of r (S r) (S (S r))).

Lemma join_inv_length done hc :
  join_inv entry_of h BP VP done hc → S (S r) < List.length hc.
Proof. intros (_ & _ & Hv & _). by apply lookup_lt_Some in Hv. Qed.

Lemma entry_at_later hc hc' R R' name b v :
  entry_at entry_of h hc R name b v →
  dict_get R' name = dict_get R name →
  (∀ e items, S (S r) < e → hc !! e = Some items → hc' !! e = Some items) →
  entry_at entry_of h hc' R' name b v.
Proof.
  intros (e & its & hmid & HR & He & Hlt & Hp & Hrun) Hget Hhc.
  exists e, its, hmid. rewrite Hget. eauto 10.
Qed.

Lemma join_step_skip done hc name :
  join_inv entry_of h BP VP done hc →
  dict_mem VP name = false →
  join_inv entry_of h BP VP (done ++ [name]) hc.
Proof.
  intros (Hp & Hb & Hv & R & HR & Hkeys & Hent) Hm.
  split_and!; try done. exists R. split_and!; [done|..].
  - intros n. rewrite Hkeys, elem_of_app, list_elem_of_singleton.
    split; [naive_solver|]. intros [[?| ->] ?]; [done|congruence].
  - intros n b v [Hn| ->%list_elem_of_singleton]%elem_of_app Hgb Hgv; [eauto|].
    unfold dict_mem in Hm. by rewrite Hgv in Hm.
Qed.

Lemma join_step_add done hc name b v items :
  join_inv entry_of h BP VP done hc →
  dict_get BP name = Some b → dict_get VP name = Some v →
  entry_of b v hc = (hc, inr items) →
  ∃ R, hc !! r = Some R ∧
    join_inv entry_of h BP VP (done ++ [name])
      (<[r := dict_set R name (VRef (List.length hc))]> (hc ++ [items])).
Proof.
  intros Hinv Hgb Hgv Hrun. pose proof (join_inv_length _ _ Hinv) as Hlen.
  destruct Hinv as (Hp & Hb & Hv & R & HR & Hkeys & Hent).
  exists R. split; [done|].
  assert (∀ e its, r < e → hc !! e = Some its →
    (<[r := dict_set R name (VRef (List.length hc))]> (hc ++ [items])) !! e
      = Some its) as Hkeep.
  { intros e its Hlt He. rewrite list_lookup_insert_ne by lia.
    by apply lookup_app_l_Some. }
  split_and!.
  - apply preserved_update; [by apply preserved_alloc | done].
  - apply Hkeep; [lia|done].
  - apply Hkeep; [lia|done].
  - exists (dict_set R name (VRef (List.length hc))). split_and!.
    + apply list_lookup_insert_eq. rewrite length_app. lia.
    + intros n. rewrite dict_mem_get, dict_get_set, elem_of_app,
        list_elem_of_singleton.
      destruct (String.eqb_spec name n) as [->|Hne].
      * split; [|by eexists]. intros _. split; [by right|].
        apply dict_mem_get. by eexists.
      * rewrite <- dict_mem_get, Hkeys. naive_solver.
    + intros n b' v' Hn Hgb' Hgv'.
      destruct (String.eqb_spec name n) as [<-|Hne].
      * exists (List.length hc), items, hc.
        rewrite dict_get_set, String.eqb_refl.
        assert (b' = b) as -> by congruence.
        assert (v' = v) as -> by congruence.
        split_and!; try done; try lia.
        rewrite list_lookup_insert_ne by lia.
        apply list_lookup_middle. done.
      * apply elem_of_app in Hn as [Hn|Hn%list_elem_of_singleton]; [|done].
        eapply entry_at_later; [by eapply Hent| |].
        -- rewrite dict_get_set.
           by destruct (String.eqb_spec name n).
        -- intros e its ? ?. apply Hkeep; [lia|done].
Qed.

Lemma join_step_spec done hc name :
  join_inv entry_of h BP VP done hc →
  name ∈ BP.*1 →
  match step name hc with
  | (h', inr _) => join_inv entry_of h BP VP (done ++ [name]) h'
  | (_, inl err) => join_fails entry_of h BP VP err
  end.
Proof.
  intros Hinv Hname. pose proof Hinv as (Hp & Hb & Hv & _).
  unfold join_step. rewrite run_bind, (run_contains _ _ _ _ Hv).
  destruct (dict_mem VP name) eqn:Hm; [|by apply join_step_skip].
  apply dict_mem_get in Hm as [v Hgv].
  apply dict_mem_true, dict_mem_get in Hname as [b Hgb].
  rewrite run_bind, (run_subscript _ _ _ _ Hb), Hgb.
  rewrite run_bind, (run_subscript _ _ _ _ Hv), Hgv.
  rewrite run_bind. pose proof (entry_ro b v hc) as Hro.
  destruct (entry_of b v hc) as [h1 [err|items]] eqn:Hrun;
    simpl in Hro; subst h1.
  - by exists name, b, v, hc.
  - destruct (join_step_add _ _ _ _ _ _ Hinv Hgb Hgv Hrun) as (R & HR & Hinv').
    rewrite run_bind. simpl.
    rewrite (run_setitem _ _ R); [done|]. by apply lookup_app_l_Some.
Qed.

Lemma join_loop_spec names : ∀ done hc,
  join_inv entry_of h BP VP done hc →
  (∀ n, n ∈ names → n ∈ BP.*1) →
  match for_each names step hc with
  | (h', inr _) => join_inv entry_of h BP VP (done ++ names) h'
  | (_, inl err) => join_fails entry_of h BP VP err
  end.
Proof.
  induction names as [|name names IH]; intros done hc Hinv Hin; simpl.
  - by rewrite app_nil_r.
  - rewrite run_bind.
    pose proof (join_step_spec done hc name Hinv) as Hstep.
    destruct (step name hc) as [h1 [err|[]]].
    + apply Hstep, Hin. by left.
    + rewrite (cons_middle name done names), app_assoc. apply IH.
      * apply Hstep, Hin. by left.
      * intros n Hn. apply Hin. by right.
Qed.

End JoinSpec.

(** ** The join as a whole *)

Lemma is_dict_preserved h hc o d :
  preserved h hc → is_dict h o d → is_dict hc o d.
Proof. intros Hp (l & -> & Hl). exists l. eauto. Qed.

Lemma run_items_dict hc o d : is_dict hc o d → items o hc = (hc, inr d).
Proof. intros (l & -> & Hl). by apply run_items. Qed.

Lemma length_snoc {A} (l : list A) x :
  List.length (l ++ [x]) = S (List.length l).
Proof. rewrite length_app. simpl. lia. Qed.

Lemma join_on_spec pfx entry_of h data all_b all_v BL VL :
  (∀ b v, read_only (entry_of b v)) →
  field h data "baseline" all_b → is_dict h all_b BL →
  field h data "vpn" all_v → is_dict h all_v VL →
  match join_on pfx entry_of data h with
  | (h', inr res) =>
      res = VRef (List.length h) ∧
      join_inv entry_of h (select_prefix pfx BL) (select_prefix pfx VL)
        (select_prefix pfx BL).*1 h'
  | (_, inl err) =>
      join_fails entry_of h (select_prefix pfx BL) (select_prefix pfx VL) err
  end.
Proof.
  intros Hro Hfb Hdb Hfv Hdv.
  set (BP := select_prefix pfx BL). set (VP := select_prefix pfx VL).
  set (h1 := h ++ [[]]). set (h2 := h1 ++ [BP]). set (h3 := h2 ++ [VP]).
  assert (preserved h h1) as Hp1 by apply preserved_alloc, preserved_refl.
  assert (preserved h h2) as Hp2 by by apply preserved_alloc.
  assert (preserved h h3) as Hp3 by by apply preserved_alloc.
  assert (List.length h1 = S (List.length h)) as Hl1 by apply length_snoc.
  assert (List.length h2 = S (S (List.length h))) as Hl2
    by (unfold h2; by rewrite length_snoc, Hl1).
  assert (h3 !! S (List.length h) = Some BP) as Hb.
  { apply lookup_app_l_Some, list_lookup_middle. done. }
  assert (h3 !! S (S (List.length h)) = Some VP) as Hv.
  { apply list_lookup_middle. done. }
  assert (join_inv entry_of h BP VP [] h3) as Hinv.
  { split_and!; try done. exists []. split_and!.
    - do 2 apply lookup_app_l_Some. by apply list_lookup_middle.
    - intros n. split; [done|]. by intros [?%elem_of_nil _].
    - by intros n b v ?%elem_of_nil. }
  unfold join_on. rewrite run_bind. simpl. fold h1. unfold join_rest.
  rewrite run_bind, (run_subscript_field h1 data "baseline" all_b)
    by by eapply field_preserved.
  rewrite run_bind, (run_items_dict h1 all_b BL)
    by by eapply is_dict_preserved.
  rewrite run_bind. simpl. fold BP h2. rewrite Hl1.
  rewrite run_bind, (run_subscript_field h2 data "vpn" all_v)
    by by eapply field_preserved.
  rewrite run_bind, (run_items_dict h2 all_v VL)
    by by eapply is_dict_preserved.
  rewrite run_bind. simpl. fold VP h3. rewrite Hl2.
  rewrite run_bind, (run_keys _ _ _ Hb).
  rewrite run_bind.
  pose proof (join_loop_spec entry_of Hro h BP VP BP.*1 [] h3 Hinv
                (λ n Hn, Hn)) as Hloop.
  destruct ((for_each _ _ : M ()) h3) as [h' [err|[]]]; simpl; done.
Qed.

Section JoinOn.

Context (pfx : string) (entry_of : value → value → M dict).
Hypothesis entry_ro : ∀ b v, read_only (entry_of b v).
Context (h : heap) (data all_b all_v : value) (BL VL : dict).
Hypothesis Hfb : field h data "baseline" all_b.
Hypothesis Hdb : is_dict h all_b BL.
Hypothesis Hfv : field h data "vpn" all_v.
Hypothesis Hdv : is_dict h all_v VL.

Lemma join_on_entries h' res name b v :
  join_on pfx entry_of data h = (h', inr res) →
  startswith name pfx = true →
  dict_get BL name = Some b → dict_get VL name = Some v →
  ∃ e items hmid,
    field h' res name (VRef e) ∧ h' !! e = Some items ∧
    preserved h hmid ∧ entry_of b v hmid = (hmid, inr items).
Proof.
  intros Hrun Hp Hgb Hgv.
  pose proof (join_on_spec pfx entry_of h data all_b all_v BL VL
                entry_ro Hfb Hdb Hfv Hdv) as Hspec.
  rewrite Hrun in Hspec.
  destruct Hspec as (-> & _ & _ & _ & R & HR & _ & Hent).
  destruct (Hent name b v) as (e & its & hmid & HgR & He & _ & Hpm & Hm).
  - apply dict_mem_true, dict_mem_get.
    rewrite dict_get_select_prefix, Hp, Hgb. by eexists.
  - by rewrite dict_get_select_prefix, Hp.
  - by rewrite dict_get_select_prefix, Hp.
  - exists e, its, hmid. split_and!; try done. by exists (List.length h), R.
Qed.

Lemma join_on_keys h' res name :
  join_on pfx entry_of data h = (h', inr res) →
  (∃ e, field h' res name e) ↔
  startswith name pfx = true ∧
  is_Some (dict_get BL name) ∧ is_Some (dict_get VL name).
Proof.
  intros Hrun.
  pose proof (join_on_spec pfx entry_of h data all_b all_v BL VL
                entry_ro Hfb Hdb Hfv Hdv) as Hspec.
  rewrite Hrun in Hspec.
  destruct Hspec as (-> & _ & _ & _ & R & HR & Hkeys & _).
  transitivity (dict_mem R name = true).
  - rewrite dict_mem_get. split.
    + intros (e & l & d & [= <-] & Hl & Hk). rewrite HR in Hl.
      injection Hl as <-. by eexists.
    + intros [e He]. exists e, (List.length h), R. done.
  - rewrite Hkeys, <- dict_mem_true, !dict_mem_get,
      !dict_get_select_prefix.
    destruct (startswith name pfx); [naive_solver|].
    split; [by intros [[? ?] _] | by intros [? _]].
Qed.

Lemma join_on_error h' err :
  join_on pfx entry_of data h = (h', inl err) →
  ∃ name b v hmid,
    startswith name pfx = true ∧
    dict_get BL name = Some b ∧ dict_get VL name = Some v ∧
    preserved h hmid ∧ entry_of b v hmid = (hmid, inl err).
Proof.
  intros Hrun.
  pose proof (join_on_spec pfx entry_of h data all_b all_v BL VL
                entry_ro Hfb Hdb Hfv Hdv) as Hspec.
  rewrite Hrun in Hspec.
  destruct Hspec as (name & b & v & hmid & Hgb & Hgv & Hp & Hm).
  rewrite dict_get_select_prefix in Hgb, Hgv.
  destruct (startswith name pfx) eqn:Hs; [|done].
  by exists name, b, v, hmid.
Qed.

End JoinOn.

(** ** The entry of one pair *)

Ltac run_field H :=
  rewrite run_bind, (run_subscript_field _ _ _ _ H); cbv beta.

Lemma run_ret {A} (a : A) h : (mret a : M A) h = (h, inr a).
Proof. done. Qed.

Lemma run_raise {A} e h : (raise e : M A) h = (h, inl e).
Proof. done. Qed.

Lemma bind_inr_eq {A B} (m : M A) (f : A → M B) h h' r :
  (m ≫= f) h = (h', inr r) → ∃ a h1, m h = (h1, inr a) ∧ f a h1 = (h', inr r).
Proof.
  rewrite run_bind. destruct (m h) as [h1 [e|a]]; simpl; [done|]. eauto.
Qed.

Lemma latency_entry_fields hc hc' b v x y items :
  field hc b "avg_ping_ms" (VNum x) →
  field hc v "avg_ping_ms" (VNum y) →
  latency_entry b v hc = (hc', inr items) →
  (x =? 0)%float = false ∧
  dict_get items "baseline_avg" = Some (VNum x) ∧
  dict_get items "vpn_avg" = Some (VNum y) ∧
  dict_get items "overhead_ms" = Some (VNum (y - x)) ∧
  dict_get items "overhead_percent" = Some (VNum ((y - x) / x * 100)).
Proof.
  intros Hb Hv. unfold latency_entry.
  run_field Hv. run_field Hb. rewrite run_bind. simpl py_sub.
  rewrite run_ret.
  cbv beta iota. run_field Hb. rewrite run_bind. simpl py_truediv.
  destruct (x =? 0)%float; [by rewrite run_raise|].
  rewrite run_ret.
  cbv beta iota zeta. run_field Hb. run_field Hv. intros H.
  repeat (apply bind_inr_eq in H as (? & ? & _ & H)).
  by injection H as _ <-.
Qed.

Lemma latency_entry_outcome hc b v x y :
  latency_record hc b x → latency_record hc v y →
  ∃ items,
    latency_entry b v hc =
    (hc, if (x =? 0)%float then inl ZeroDivisionError else inr items).
Proof.
  intros (Hb & [b1 Hb1] & [b2 Hb2] & [b3 Hb3])
         (Hv & [v1 Hv1] & [v2 Hv2] & [v3 Hv3]).
  unfold latency_entry.
  run_field Hv. run_field Hb. rewrite run_bind. simpl py_sub.
  rewrite run_ret.
  cbv beta iota. run_field Hb. rewrite run_bind. simpl py_truediv.
  destruct (x =? 0)%float; [rewrite run_raise; by exists []|].
  rewrite run_ret.
  cbv beta iota zeta. run_field Hb. run_field Hv.
  run_field Hb1. run_field Hb2. run_field Hv1. run_field Hv2.
  run_field Hb3. run_field Hv3. by eexists.
Qed.

Lemma bandwidth_entry_fields hc hc' b v x y items :
  field hc b "bandwidth_mbps" (VNum x) →
  field hc v "bandwidth_mbps" (VNum y) →
  bandwidth_entry b v hc = (hc', inr items) →
  (x =? 0)%float = false ∧
  dict_get items "baseline_mbps" = Some (VNum x) ∧
  dict_get items "vpn_mbps" = Some (VNum y) ∧
  dict_get items "bandwidth_ratio" = Some (VNum (y / x)) ∧
  dict_get items "bandwidth_loss_percent" = Some (VNum ((1 - y / x) * 100)) ∧
  ∀ l B, b = VRef l → hc !! l = Some B →
    dict_get items "direction"
    = Some (default (VStr "unknown") (dict_get B "direction")).
Proof.
  intros Hb Hv. unfold bandwidth_entry.
  run_field Hv. run_field Hb. rewrite run_bind. simpl py_truediv.
  destruct (x =? 0)%float; [by rewrite run_raise|].
  rewrite run_ret.
  cbv beta iota zeta. run_field Hb. run_field Hv.
  destruct Hb as (l & B & -> & Hl & HB).
  rewrite run_bind, (run_get_default _ _ _ _ _ Hl). cbv beta iota.
  intros [= _ <-]. split_and!; try done.
  intros l' B' [= <-] Hl'. by assert (B' = B) as -> by congruence.
Qed.

Lemma bandwidth_entry_outcome hc b v x y :
  bandwidth_record hc b x → bandwidth_record hc v y →
  ∃ items,
    bandwidth_entry b v hc =
    (hc, if (x =? 0)%float then inl ZeroDivisionError else inr items).
Proof.
  intros Hb Hv. unfold bandwidth_entry.
  run_field Hv. run_field Hb. rewrite run_bind. simpl py_truediv.
  destruct (x =? 0)%float; [rewrite run_raise; by exists []|].
  rewrite run_ret.
  cbv beta iota zeta. run_field Hb. run_field Hv.
  destruct Hb as (l & B & -> & Hl & HB).
  rewrite run_bind, (run_get_default _ _ _ _ _ Hl). by eexists.
Qed.

Lemma latency_record_preserved h hc o x :
  preserved h hc → latency_record h o x → latency_record hc o x.
Proof.
  intros Hp (H1 & [? H2] & [? H3] & [? H4]).
  split_and!; eauto using field_preserved.
Qed.

Lemma bind_ro_inr {A B} (m : M A) (f : A → M B) h h' r :
  read_only m →
  (m ≫= f) h = (h', inr r) → ∃ a, m h = (h, inr a) ∧ f a h = (h', inr r).
Proof.
  intros Hro H. apply bind_inr_eq in H as (a & h1 & Hm & Hf).
  pose proof (Hro h) as Hh. rewrite Hm in Hh. simpl in Hh. subst h1. eauto.
Qed.

Lemma bandwidth_entry_direction hc hc' b v B items :
  is_dict hc b B →
  bandwidth_entry b v hc = (hc', inr items) →
  dict_get items "direction"
  = Some (default (VStr "unknown") (dict_get B "direction")).
Proof.
  intros (l & -> & Hl) H. unfold bandwidth_entry in H.
  do 5 (apply bind_ro_inr in H as (? & _ & H); [|by auto with store]).
  rewrite run_bind, (run_get_default _ _ _ _ _ Hl) in H.
  by injection H as _ <-.
Qed.

(** ** The report *)

Lemma runW_bind {A B} (m : W A) (f : A → W B) h :
  (m ≫= f) h =
  match m h with
  | (out, inr a) => let '(out', r) := f a h in (out ++ out', r)
  | (out, inl e) => (out, inl e)
  end.
Proof. done. Qed.

Lemma run_reading {A} (m : M A) h h' r :
  m h = (h', r) → reading m h = ([], r).
Proof. unfold reading. by intros ->. Qed.

Lemma run_truthy_dict h o d :
  is_dict h o d →
  truthy o h = (h, inr (match d with [] => false | _ => true end)).
Proof.
  intros (l & -> & Hl). unfold truthy. by rewrite run_bind, (run_load _ _ _ Hl).
Qed.

Lemma runW_write {B} ps (f : () → W B) h :
  (f_write ps ≫= f) h = (ps :: (f () h).1, (f () h).2).
Proof. rewrite runW_bind. simpl. by destruct (f () h). Qed.

Lemma runW_read {A B} (m : M A) (f : A → W B) h h' a :
  m h = (h', inr a) → (reading m ≫= f) h = f a h.
Proof.
  intros Hm. rewrite runW_bind, (run_reading _ _ _ _ Hm). by destruct (f a h).
Qed.

Ltac report_step :=
  first [ rewrite runW_write
        | erewrite runW_read by (first [ by apply run_truthy_dict
                                       | by apply run_items_dict
                                       | eassumption ]) ];
  cbv beta iota.

Lemma latency_section_empty h o :
  is_dict h o [] →
  latency_section o h =
  ([ [Lit ("LATENCY ANALYSIS" +:+ nl)]; dashes;
     [Lit ("No latency data available" +:+ nl)] ], inr ()).
Proof. intros Hd. unfold latency_section. by do 3 report_step. Qed.

Lemma bandwidth_section_empty h o :
  is_dict h o [] →
  bandwidth_section o h =
  ([ [Lit (nl +:+ nl +:+ "BANDWIDTH ANALYSIS" +:+ nl)]; dashes;
     [Lit ("No bandwidth data available" +:+ nl)] ], inr ()).
Proof. intros Hd. unfold bandwidth_section. by do 3 report_step. Qed.

Lemma run_mapM_column h L k xs :
  column h L k xs →
  mapM (λ kv : string * value, subscript kv.2 k) L h = (h, inr (VNum <$> xs)).
Proof.
  induction 1 as [|kv x L xs Hx _ IH]; [done|].
  change (mapM ?f (kv :: L)) with (y ← f kv; r ← mapM f L; mret (y :: r)).
  rewrite run_bind, (run_subscript_field _ _ _ _ Hx). cbv beta iota.
  by rewrite run_bind, IH.
Qed.

Lemma mapM_as_float xs : mapM as_float (VNum <$> xs) = Some xs.
Proof. apply mapM_Some. induction xs; constructor; done. Qed.

Section ReportFacts.

Variable np_mean : list float → float.

Lemma run_mean_of h o L k xs :
  is_dict h o L → column h L k xs →
  mean_of np_mean k o h = (h, inr (np_mean xs)).
Proof.
  intros Hd Hc. unfold mean_of.
  rewrite run_bind, (run_items_dict _ _ _ Hd). cbv beta iota.
  rewrite run_bind, (run_mapM_column _ _ _ _ Hc). cbv beta iota.
  by rewrite mapM_as_float.
Qed.

Lemma run_both_truthy h lat bw L B :
  is_dict h lat L → is_dict h bw B →
  (has_latency ← truthy lat;
   if has_latency : bool then truthy bw else mret false) h
  = (h, inr (match L, B with [], _ | _, [] => false | _, _ => true end)).
Proof.
  intros HL HB. rewrite run_bind, (run_truthy_dict _ _ _ HL).
  destruct L; [done|]. cbv beta iota. rewrite (run_truthy_dict _ _ _ HB).
  by destruct B.
Qed.

Lemma overall_section_rated h lat bw L B xs ys :
  is_dict h lat L → is_dict h bw B → L ≠ [] → B ≠ [] →
  column h L "overhead_percent" xs → column h B "bandwidth_ratio" ys →
  overall_section np_mean lat bw h =
  (overall_heading ++
   [ [Lit "Average Latency Overhead: "; Fixed 1 (np_mean xs);
      Lit ("%" +:+ nl)];
     [Lit "Average Bandwidth Efficiency: ";
      Fixed 1 (np_mean ys * 100)%float; Lit ("%" +:+ nl)];
     [Lit "Overall Rating: ";
      Lit (overall_rating (np_mean xs) (np_mean ys)); Lit nl] ], inr ()).
Proof.
  intros HL HB HLn HBn Hxs Hys. unfold overall_section. do 2 report_step.
  erewrite runW_read by by eapply run_both_truthy.
  destruct L; [done|]. destruct B; [done|]. cbv beta iota.
  erewrite runW_read by by eapply run_mean_of.
  erewrite runW_read by by eapply run_mean_of.
  by do 2 report_step.
Qed.

Lemma overall_section_insufficient h lat bw L B :
  is_dict h lat L → is_dict h bw B → L = [] ∨ B = [] →
  overall_section np_mean lat bw h = (insufficient, inr ()).
Proof.
  intros HL HB Hempty. unfold overall_section. do 2 report_step.
  erewrite runW_read by by eapply run_both_truthy.
  by destruct Hempty as [-> | ->]; [|destruct L].
Qed.

End ReportFacts.

(** ** A run without data *)

Lemma dict_no_key (R : dict) : (∀ name, dict_mem R name = false) → R = [].
Proof.
  destruct R as [|[k v] R]; [done|]. intros H. specialize (H k).
  unfold dict_mem in H. simpl in H. by rewrite String.eqb_refl in H.
Qed.

Lemma join_on_empty pfx entry_of h data all_b all_v VL :
  (∀ b v, read_only (entry_of b v)) →
  field h data "baseline" all_b → is_dict h all_b [] →
  field h data "vpn" all_v → is_dict h all_v VL →
  ∃ h' res, join_on pfx entry_of data h = (h', inr res) ∧
            is_dict h' res [] ∧ preserved h h'.
Proof.
  intros Hro Hfb Hdb Hfv Hdv.
  pose proof (join_on_spec pfx entry_of h data all_b all_v [] VL
                Hro Hfb Hdb Hfv Hdv) as Hspec.
  destruct (join_on pfx entry_of data h) as [h' [err|res]].
  - by destruct Hspec as (name & b & v & hmid & Hgb & _).
  - destruct Hspec as (-> & Hp & _ & _ & R & HR & Hkeys & _).
    exists h', (VRef (List.length h)). split_and!; [done| |done].
    exists (List.length h). split; [done|]. rewrite HR. f_equal.
    apply dict_no_key. intros name. apply not_true_iff_false.
    rewrite Hkeys. by intros [?%elem_of_nil _].
Qed.

(** ** Runs that return *)

Lemma analyze_latency_returns h data all_b all_v BL VL :
  field h data "baseline" all_b → is_dict h all_b BL →
  field h data "vpn" all_v → is_dict h all_v VL →
  (∀ name b v, matched "ping_" BL VL name b v →
     ∃ x y, latency_record h b x ∧ latency_record h v y ∧
            (x =? 0)%float = false) →
  ∃ h' res, analyze_latency data h = (h', inr res).
Proof.
  intros Hfb Hdb Hfv Hdv Hall. rewrite analyze_latency_join.
  destruct (join_on "ping_" latency_entry data h) as [h' [err|res]] eqn:Hrun;
    [|by eauto].
  edestruct join_on_error as (name & b & v & hmid & Hs & Hgb & Hgv & Hp & Hm);
    [apply read_only_latency_entry| | | | |exact Hrun|]; try done.
  destruct (Hall name b v) as (x & y & Hb & Hv & Hnz); [done|].
  edestruct (latency_entry_outcome hmid b v x y) as [its Hout];
    [by eapply latency_record_preserved..|].
  rewrite Hnz in Hout. congruence.
Qed.

Lemma analyze_bandwidth_returns h data all_b all_v BL VL :
  field h data "baseline" all_b → is_dict h all_b BL →
  field h data "vpn" all_v → is_dict h all_v VL →
  (∀ name b v, matched "iperf_" BL VL name b v →
     ∃ x y, bandwidth_record h b x ∧ bandwidth_record h v y ∧
            (x =? 0)%float = false) →
  ∃ h' res, analyze_bandwidth data h = (h', inr res).
Proof.
  intros Hfb Hdb Hfv Hdv Hall. rewrite analyze_bandwidth_join.
  destruct (join_on "iperf_" bandwidth_entry data h)
    as [h' [err|res]] eqn:Hrun; [|by eauto].
  edestruct join_on_error as (name & b & v & hmid & Hs & Hgb & Hgv & Hp & Hm);
    [apply read_only_bandwidth_entry| | | | |exact Hrun|]; try done.
  destruct (Hall name b v) as (x & y & Hb & Hv & Hnz); [done|].
  edestruct (bandwidth_entry_outcome hmid b v x y) as [its Hout];
    [by eapply field_preserved..|].
  rewrite Hnz in Hout. congruence.
Qed.

(** * The claims *)

Ltac sample_field := by (eexists _, _; split_and!; reflexivity).
Ltac sample_dict := by (eexists; split; reflexivity).

(** Case analysis on the name of a matched pair, the baseline mapping being
    a literal. *)
Ltac sample_names H :=
  let Hs := fresh "Hs" in
  let Hb := fresh "Hb" in
  let Hv := fresh "Hv" in
  destruct H as (Hs & Hb & Hv);
  cbn [dict_get] in Hb;
  repeat match type of Hb with
    | context [String.eqb ?k ?n] =>
        destruct (String.eqb_spec k n) as [<-|?]
    end;
  try discriminate Hb; injection Hb as <-;
  vm_compute in Hs; try discriminate Hs;
  vm_compute in Hv; try discriminate Hv; injection Hv as <-.

Ltac sample_record :=
  repeat split; first [sample_field | eexists; sample_field | reflexivity].

(** ** Derived metrics *)

(** C1: for every matched latency pair with a baseline average above 0,
    the entry [analyze_latency] returns under the name has
    [overhead_ms = vpn.avg - baseline.avg] and
    [overhead_percent = overhead_ms / baseline.avg * 100].  And the call
    does return a mapping when every matched pair is a pair of latency
    records whose baseline average is above 0. *)
Theorem analyze_latency_overhead h data all_b all_v BL VL
    (Hfb : field h data "baseline" all_b) (Hdb : is_dict h all_b BL)
    (Hfv : field h data "vpn" all_v) (Hdv : is_dict h all_v VL) :
  (∀ h' res name b v x y,
     analyze_latency data h = (h', inr res) →
     matched "ping_" BL VL name b v →
     field h b "avg_ping_ms" (VNum x) →
     field h v "avg_ping_ms" (VNum y) →
     (0 <? x)%float = true →
     ∃ e, field h' res name e ∧
          field h' e "overhead_ms" (VNum (y - x)) ∧
          field h' e "overhead_percent" (VNum ((y - x) / x * 100))) ∧
  ((∀ name b v, matched "ping_" BL VL name b v →
      ∃ x y, latency_record h b x ∧ latency_record h v y ∧
             (0 <? x)%float = true) →
   ∃ h' res, analyze_latency data h = (h', inr res)).
Proof.
  rewrite analyze_latency_join. split.
  - intros h' res name b v x y Hrun (Hs & Hgb & Hgv) Hx Hy _.
    edestruct join_on_entries as (e & its & hmid & Hres & He & Hp & Hm);
      [apply read_only_latency_entry| | | | |exact Hrun|..]; try done.
    eapply latency_entry_fields in Hm as (_ & _ & _ & Hms & Hpc);
      [|by eapply field_preserved..].
    exists (VRef e). split_and!; [done|by exists e, its..].
  - intros Hall. rewrite <- analyze_latency_join.
    eapply (analyze_latency_returns h data all_b all_v BL VL); try done.
    intros name b v Hm. destruct (Hall name b v Hm) as (x & y & ? & ? & Hpos).
    exists x, y. split_and!; try done. by apply ltb_true_eqb_false.
Qed.

Lemma analyze_latency_overhead_witness :
  ∃ h' res e,
    analyze_latency (VRef 0) Sample.h0 = (h', inr res) ∧
    field h' res "ping_gateway" e ∧
    field h' e "overhead_ms" (VNum (22 - 20)) ∧
    field h' e "overhead_percent" (VNum ((22 - 20) / 20 * 100)).
Proof.
  destruct (analyze_latency_overhead Sample.h0 (VRef 0) (VRef 1) (VRef 2)
              Sample.baseline Sample.vpn) as [Hpart Htot];
    [sample_field | sample_dict | sample_field | sample_dict |].
  destruct Htot as (h' & res & Hrun).
  { intros name b v Hm. unfold Sample.baseline in Hm. sample_names Hm.
    exists 20%float, 22%float. sample_record. }
  exists h', res.
  destruct (Hpart h' res "ping_gateway" (VRef 3) (VRef 6) 20%float 22%float)
    as (e & He); [done | by repeat split | sample_field..| reflexivity |].
  by exists e.
Defined.

(** C2: for every matched bandwidth pair with a baseline throughput above
    0, the entry [analyze_bandwidth] returns under the name has
    [bandwidth_ratio = vpn.mbps / baseline.mbps] and
    [bandwidth_loss_percent = (1 - bandwidth_ratio) * 100].  And the call
    does return a mapping when every matched pair is a pair of bandwidth
    records whose baseline throughput is above 0. *)
Theorem analyze_bandwidth_ratio h data all_b all_v BL VL
    (Hfb : field h data "baseline" all_b) (Hdb : is_dict h all_b BL)
    (Hfv : field h data "vpn" all_v) (Hdv : is_dict h all_v VL) :
  (∀ h' res name b v x y,
     analyze_bandwidth data h = (h', inr res) →
     matched "iperf_" BL VL name b v →
     field h b "bandwidth_mbps" (VNum x) →
     field h v "bandwidth_mbps" (VNum y) →
     (0 <? x)%float = true →
     ∃ e, field h' res name e ∧
          field h' e "bandwidth_ratio" (VNum (y / x)) ∧
          field h' e "bandwidth_loss_percent" (VNum ((1 - y / x) * 100))) ∧
  ((∀ name b v, matched "iperf_" BL VL name b v →
      ∃ x y, bandwidth_record h b x ∧ bandwidth_record h v y ∧
             (0 <? x)%float = true) →
   ∃ h' res, analyze_bandwidth data h = (h', inr res)).
Proof.
  rewrite analyze_bandwidth_join. split.
  - intros h' res name b v x y Hrun (Hs & Hgb & Hgv) Hx Hy _.
    edestruct join_on_entries as (e & its & hmid & Hres & He & Hp & Hm);
      [apply read_only_bandwidth_entry| | | | |exact Hrun|..]; try done.
    eapply bandwidth_entry_fields in Hm as (_ & _ & _ & Hra & Hlo & _);
      [|by eapply field_preserved..].
    exists (VRef e). split_and!; [done|by exists e, its..].
  - intros Hall. rewrite <- analyze_bandwidth_join.
    eapply (analyze_bandwidth_returns h data all_b all_v BL VL); try done.
    intros name b v Hm. destruct (Hall name b v Hm) as (x & y & ? & ? & Hpos).
    exists x, y. split_and!; try done. by apply ltb_true_eqb_false.
Qed.

Lemma analyze_bandwidth_ratio_witness :
  ∃ h' res e,
    analyze_bandwidth (VRef 0) Sample.h0 = (h', inr res) ∧
    field h' res "iperf_upload" e ∧
    field h' e "bandwidth_ratio" (VNum (450 / 500)) ∧
    field h' e "bandwidth_loss_percent" (VNum ((1 - 450 / 500) * 100)).
Proof.
  destruct (analyze_bandwidth_ratio Sample.h0 (VRef 0) (VRef 1) (VRef 2)
              Sample.baseline Sample.vpn) as [Hpart Htot];
    [sample_field | sample_dict | sample_field | sample_dict |].
  destruct Htot as (h' & res & Hrun).
  { intros name b v Hm. unfold Sample.baseline in Hm. sample_names Hm.
    exists 500%float, 450%float. sample_record. }
  exists h', res.
  destruct (Hpart h' res "iperf_upload" (VRef 4) (VRef 5) 500%float 450%float)
    as (e & He); [done | by repeat split | sample_field..| reflexivity |].
  by exists e.
Defined.

(** ** The join on test names *)

(** C3: the comparisons are an inner join on the test name.  A mapping
    returned by [analyze_latency] has an entry under a name exactly when
    the name starts with [ping_] and both the baseline and the VPN mapping
    hold it; likewise [analyze_bandwidth] with [iperf_].  A name held on
    one side only raises nothing: an exception that ends a run was raised
    on the two records of a name held on both sides, and the run returns a
    mapping when the records of every such name are complete, with a
    baseline that is not zero. *)
Theorem analyses_inner_join h data all_b all_v BL VL
    (Hfb : field h data "baseline" all_b) (Hdb : is_dict h all_b BL)
    (Hfv : field h data "vpn" all_v) (Hdv : is_dict h all_v VL) :
  ((∀ h' res, analyze_latency data h = (h', inr res) →
      inner_join "ping_" BL VL h' res) ∧
   (∀ h' err, analyze_latency data h = (h', inl err) →
      ∃ name b v hmid, matched "ping_" BL VL name b v ∧
        preserved h hmid ∧ latency_entry b v hmid = (hmid, inl err)) ∧
   ((∀ name b v, matched "ping_" BL VL name b v →
       ∃ x y, latency_record h b x ∧ latency_record h v y ∧
              (x =? 0)%float = false) →
    ∃ h' res, analyze_latency data h = (h', inr res))) ∧
  ((∀ h' res, analyze_bandwidth data h = (h', inr res) →
      inner_join "iperf_" BL VL h' res) ∧
   (∀ h' err, analyze_bandwidth data h = (h', inl err) →
      ∃ name b v hmid, matched "iperf_" BL VL name b v ∧
        preserved h hmid ∧ bandwidth_entry b v hmid = (hmid, inl err)) ∧
   ((∀ name b v, matched "iperf_" BL VL name b v →
       ∃ x y, bandwidth_record h b x ∧ bandwidth_record h v y ∧
              (x =? 0)%float = false) →
    ∃ h' res, analyze_bandwidth data h = (h', inr res))).
Proof.
  split; split_and!.
  - intros h' res Hrun name. rewrite analyze_latency_join in Hrun.
    eapply join_on_keys; eauto using read_only_latency_entry.
  - intros h' err Hrun. rewrite analyze_latency_join in Hrun.
    edestruct join_on_error as (name & b & v & hmid & ? & ? & ? & ? & ?);
      [apply read_only_latency_entry| | | | |exact Hrun|]; try done.
    by exists name, b, v, hmid.
  - by apply (analyze_latency_returns h data all_b all_v BL VL).
  - intros h' res Hrun name. rewrite analyze_bandwidth_join in Hrun.
    eapply join_on_keys; eauto using read_only_bandwidth_entry.
  - intros h' err Hrun. rewrite analyze_bandwidth_join in Hrun.
    edestruct join_on_error as (name & b & v & hmid & ? & ? & ? & ? & ?);
      [apply read_only_bandwidth_entry| | | | |exact Hrun|]; try done.
    by exists name, b, v, hmid.
  - by apply (analyze_bandwidth_returns h data all_b all_v BL VL).
Qed.

Lemma analyses_inner_join_witness :
  ∃ h' res,
    analyze_latency (VRef 0) Sample.h0 = (h', inr res) ∧
    (∃ e, field h' res "ping_gateway" e) ∧
    ¬ (∃ e, field h' res "ping_only_base" e) ∧
    ¬ (∃ e, field h' res "ping_only_vpn" e) ∧
    ¬ (∃ e, field h' res "iperf_upload" e).
Proof.
  destruct (analyses_inner_join Sample.h0 (VRef 0) (VRef 1) (VRef 2)
              Sample.baseline Sample.vpn) as ((Hkeys & _ & Hret) & _);
    [sample_field | sample_dict | sample_field | sample_dict |].
  destruct Hret as (h' & res & Hrun).
  { intros name b v Hm. unfold Sample.baseline in Hm. sample_names Hm.
    exists 20%float, 22%float. sample_record. }
  exists h', res. split; [done|]. specialize (Hkeys h' res Hrun).
  split_and!.
  - apply Hkeys. by repeat split.
  - intros (_ & _ & [? Hv])%Hkeys. discriminate Hv.
  - intros (_ & [? Hb] & _)%Hkeys. discriminate Hb.
  - intros (Hs & _)%Hkeys. discriminate Hs.
Defined.
(** ** Ratings *)

Lemma rating_of_percent_bounds (x : float) :
  ((x <? 10)%float = true → rating_of_percent x = "EXCELLENT") ∧
  ((10 <=? x)%float = true → (x <? 25)%float = true →
   rating_of_percent x = "GOOD") ∧
  ((25 <=? x)%float = true → rating_of_percent x = "NEEDS IMPROVEMENT").
Proof.
  unfold rating_of_percent. split_and!.
  - by intros ->.
  - intros H10%leb_true_ltb_false H25. by rewrite H10, H25.
  - intros H25. rewrite (leb_25_ltb_10 _ H25).
    by rewrite (leb_true_ltb_false _ _ H25).
Qed.

Lemma rating_of_ratio_bounds (x : float) :
  ((0.8 <? x)%float = true → rating_of_ratio x = "EXCELLENT") ∧
  ((0.6 <? x)%float = true → (x <=? 0.8)%float = true →
   rating_of_ratio x = "GOOD") ∧
  ((x <=? 0.6)%float = true → rating_of_ratio x = "NEEDS IMPROVEMENT").
Proof.
  unfold rating_of_ratio. split_and!.
  - by intros ->.
  - intros H06 H08%leb_true_ltb_false. by rewrite H08, H06.
  - intros H06. rewrite (leb_06_ltb_08 _ H06).
    by rewrite (leb_true_ltb_false _ _ H06).
Qed.

(** C6: with a latency comparison and a bandwidth comparison at hand, the
    overall rating is EXCELLENT when the mean overhead percent is below 10
    and the mean ratio above 0.8; failing that, GOOD when the mean overhead
    percent is below 25 and the mean ratio above 0.6; failing that, NEEDS
    IMPROVEMENT.  When either mapping of comparisons is empty, the report
    gives no rating and says that data is insufficient. *)
Theorem overall_assessment (np_mean : list float → float) h lat bw L B :
  is_dict h lat L → is_dict h bw B →
  (∀ xs ys, L ≠ [] → B ≠ [] →
     column h L "overhead_percent" xs → column h B "bandwidth_ratio" ys →
     ∃ rating,
       overall_section np_mean lat bw h =
       (overall_heading ++
        [ [Lit "Average Latency Overhead: "; Fixed 1 (np_mean xs);
           Lit ("%" +:+ nl)];
          [Lit "Average Bandwidth Efficiency: ";
           Fixed 1 (np_mean ys * 100)%float; Lit ("%" +:+ nl)];
          [Lit "Overall Rating: "; Lit rating; Lit nl] ], inr ()) ∧
       (((np_mean xs <? 10)%float = true ∧ (0.8 <? np_mean ys)%float = true →
         rating = "EXCELLENT") ∧
        (¬ ((np_mean xs <? 10)%float = true ∧
            (0.8 <? np_mean ys)%float = true) →
         (np_mean xs <? 25)%float = true ∧ (0.6 <? np_mean ys)%float = true →
         rating = "GOOD") ∧
        (¬ ((np_mean xs <? 10)%float = true ∧
            (0.8 <? np_mean ys)%float = true) →
         ¬ ((np_mean xs <? 25)%float = true ∧
            (0.6 <? np_mean ys)%float = true) →
         rating = "NEEDS IMPROVEMENT"))) ∧
  (L = [] ∨ B = [] → overall_section np_mean lat bw h = (insufficient, inr ())).
Proof.
  intros HL HB. split; [|by apply overall_section_insufficient].
  intros xs ys HLn HBn Hxs Hys.
  exists (overall_rating (np_mean xs) (np_mean ys)).
  split; [by eapply overall_section_rated|].
  unfold overall_rating.
  destruct (np_mean xs <? 10)%float, (0.8 <? np_mean ys)%float,
    (np_mean xs <? 25)%float, (0.6 <? np_mean ys)%float; simpl;
    split_and!; intros; try done; naive_solver.
Qed.

Lemma overall_assessment_witness :
  overall_section Sample.seq_mean (VRef 7) (VRef 11) Sample.h_done =
  (overall_heading ++
   [ [Lit "Average Latency Overhead: "; Fixed 1 10; Lit ("%" +:+ nl)];
     [Lit "Average Bandwidth Efficiency: "; Fixed 1 (450 / 500 * 100);
      Lit ("%" +:+ nl)];
     [Lit "Overall Rating: "; Lit "GOOD"; Lit nl] ], inr ()) ∧
  overall_section Sample.seq_mean (VRef 0) (VRef 1) Sample.h_empty =
  (insufficient, inr ()).
Proof.
  split.
  - destruct (overall_assessment Sample.seq_mean Sample.h_done
                (VRef 7) (VRef 11)
                [("ping_gateway", VRef 10)] [("iperf_upload", VRef 14)])
      as [Hrated _]; [sample_dict..|].
    destruct (Hrated [((22 - 20) / 20 * 100)%float] [(450 / 500)%float])
      as (rating & -> & _ & Hgood & _);
      [done | done | by repeat constructor; sample_field..|].
    rewrite Hgood; [reflexivity| |]; vm_compute; intuition discriminate.
  - apply (overall_assessment Sample.seq_mean Sample.h_empty
             (VRef 0) (VRef 1) Sample.data []); [sample_dict..|by right].
Defined.

(** The overall ratings the spec lists. *)
Example overall_rating_examples :
  overall_rating 5 0.85 = "EXCELLENT" ∧
  overall_rating 15 0.7 = "GOOD" ∧
  overall_rating 30 0.5 = "NEEDS IMPROVEMENT".
Proof. by vm_compute. Qed.

(** ** A baseline of zero *)

(** C7, as the code has it: nothing guards the two divisions.  When the
    matched pairs are latency records and one of them has a baseline
    average equal to 0, [analyze_latency] ends with [ZeroDivisionError]
    and returns no mapping, the input being left as it was; likewise
    [analyze_bandwidth] when a matched pair has a baseline throughput
    equal to 0. *)
Theorem zero_baseline_raises h data all_b all_v BL VL
    (Hfb : field h data "baseline" all_b) (Hdb : is_dict h all_b BL)
    (Hfv : field h data "vpn" all_v) (Hdv : is_dict h all_v VL) :
  ((∀ name b v, matched "ping_" BL VL name b v →
      ∃ x y, latency_record h b x ∧ latency_record h v y) →
   (∃ name b v x, matched "ping_" BL VL name b v ∧
      field h b "avg_ping_ms" (VNum x) ∧ (x =? 0)%float = true) →
   ∃ h', analyze_latency data h = (h', inl ZeroDivisionError) ∧
         preserved h h') ∧
  ((∀ name b v, matched "iperf_" BL VL name b v →
      ∃ x y, bandwidth_record h b x ∧ bandwidth_record h v y) →
   (∃ name b v x, matched "iperf_" BL VL name b v ∧
      field h b "bandwidth_mbps" (VNum x) ∧ (x =? 0)%float = true) →
   ∃ h', analyze_bandwidth data h = (h', inl ZeroDivisionError) ∧
         preserved h h').
Proof.
  rewrite analyze_latency_join, analyze_bandwidth_join. split.
  - intros Hall (name & b & v & x & (Hs & Hgb & Hgv) & Hx & Hz).
    pose proof (join_on_frame "ping_" latency_entry data h
                  read_only_latency_entry) as (Hpres & _).
    destruct (join_on "ping_" latency_entry data h)
      as [h' [err|res]] eqn:Hrun; simpl in Hpres.
    + exists h'. split; [|done]. f_equal. f_equal.
      edestruct join_on_error
        as (name' & b' & v' & hmid & Hs' & Hgb' & Hgv' & Hp & Hm);
        [apply read_only_latency_entry| | | | |exact Hrun|]; try done.
      destruct (Hall name' b' v') as (x' & y' & Hb' & Hv'); [done|].
      edestruct (latency_entry_outcome hmid b' v' x' y') as [its Hout];
        [by eapply latency_record_preserved..|].
      rewrite Hm in Hout. destruct (x' =? 0)%float; congruence.
    + edestruct join_on_entries as (e & its & hmid & Hres & He & Hp & Hm);
        [apply read_only_latency_entry| | | | |exact Hrun|..]; try done.
      destruct (Hall name b v) as (x' & y' & Hb' & Hv'); [done|].
      pose proof (field_inj _ _ _ _ _ Hx (proj1 Hb')) as [= ->].
      eapply latency_entry_fields in Hm as (Hnz & _);
        [|by eapply field_preserved|eapply field_preserved, Hv'; done].
      congruence.
  - intros Hall (name & b & v & x & (Hs & Hgb & Hgv) & Hx & Hz).
    pose proof (join_on_frame "iperf_" bandwidth_entry data h
                  read_only_bandwidth_entry) as (Hpres & _).
    destruct (join_on "iperf_" bandwidth_entry data h)
      as [h' [err|res]] eqn:Hrun; simpl in Hpres.
    + exists h'. split; [|done]. f_equal. f_equal.
      edestruct join_on_error
        as (name' & b' & v' & hmid & Hs' & Hgb' & Hgv' & Hp & Hm);
        [apply read_only_bandwidth_entry| | | | |exact Hrun|]; try done.
      destruct (Hall name' b' v') as (x' & y' & Hb' & Hv'); [done|].
      edestruct (bandwidth_entry_outcome hmid b' v' x' y') as [its Hout];
        [by eapply field_preserved..|].
      rewrite Hm in Hout. destruct (x' =? 0)%float; congruence.
    + edestruct join_on_entries as (e & its & hmid & Hres & He & Hp & Hm);
        [apply read_only_bandwidth_entry| | | | |exact Hrun|..]; try done.
      destruct (Hall name b v) as (x' & y' & Hb' & Hv'); [done|].
      pose proof (field_inj _ _ _ _ _ Hx Hb') as [= ->].
      eapply bandwidth_entry_fields in Hm as (Hnz & _);
        [|by eapply field_preserved|eapply field_preserved, Hv'; done].
      congruence.
Qed.

Lemma zero_baseline_raises_witness :
  (∃ h', analyze_latency (VRef 0) Sample.h_zero = (h', inl ZeroDivisionError) ∧
         preserved Sample.h_zero h') ∧
  (∃ h', analyze_bandwidth (VRef 0) Sample.h_zero
         = (h', inl ZeroDivisionError) ∧
         preserved Sample.h_zero h').
Proof.
  destruct (zero_baseline_raises Sample.h_zero (VRef 0) (VRef 1) (VRef 2)
              Sample.baseline_zero Sample.vpn_zero) as [Hlat Hbw];
    [sample_field | sample_dict | sample_field | sample_dict |].
  split.
  - apply Hlat.
    + intros name b v Hm. unfold Sample.baseline_zero in Hm.
      sample_names Hm.
      exists 0%float, 5%float. sample_record.
    + exists "ping_dead", (VRef 3), (VRef 4), 0%float. sample_record.
  - apply Hbw.
    + intros name b v Hm. unfold Sample.baseline_zero in Hm.
      sample_names Hm.
      exists 0%float, 90%float. sample_record.
    + exists "iperf_dead", (VRef 5), (VRef 6), 0%float. sample_record.
Defined.

(** Against C7 as the spec words it: on a matched pair with a baseline of 0
    either analysis ends with an uncaught [ZeroDivisionError]. *)
Lemma zero_baseline_unguarded :
  matched "ping_" Sample.baseline_zero Sample.vpn_zero "ping_dead"
    (VRef 3) (VRef 4) ∧
  field Sample.h_zero (VRef 3) "avg_ping_ms" (VNum 0) ∧
  (analyze_latency (VRef 0) Sample.h_zero).2 = inl ZeroDivisionError ∧
  matched "iperf_" Sample.baseline_zero Sample.vpn_zero "iperf_dead"
    (VRef 5) (VRef 6) ∧
  field Sample.h_zero (VRef 5) "bandwidth_mbps" (VNum 0) ∧
  (analyze_bandwidth (VRef 0) Sample.h_zero).2 = inl ZeroDivisionError.
Proof.
  split_and!; first [sample_field | by repeat split | by vm_compute].
Qed.

(** ** A run without data *)

(** C8: when both input mappings are empty, [analyze_latency] and
    [analyze_bandwidth] each return an empty mapping, raising nothing, and
    the report written from the two says "No latency data available", "No
    bandwidth data available" and "Insufficient data for overall
    assessment", raising nothing either. *)
Theorem empty_run (np_mean : list float → float) h data all_b all_v :
  field h data "baseline" all_b → is_dict h all_b [] →
  field h data "vpn" all_v → is_dict h all_v [] →
  ∃ h1 latency_data h2 bandwidth_data,
    analyze_latency data h = (h1, inr latency_data) ∧
    is_dict h1 latency_data [] ∧
    analyze_bandwidth data h1 = (h2, inr bandwidth_data) ∧
    is_dict h2 bandwidth_data [] ∧
    is_dict h2 latency_data [] ∧
    generate_summary_report np_mean latency_data bandwidth_data h2
    = (report_without_data, inr ()).
Proof.
  intros Hfb Hdb Hfv Hdv.
  destruct (join_on_empty "ping_" latency_entry h data all_b all_v []
              read_only_latency_entry Hfb Hdb Hfv Hdv)
    as (h1 & lat & Hlat & Hl1 & Hp1).
  destruct (join_on_empty "iperf_" bandwidth_entry h1 data all_b all_v []
              read_only_bandwidth_entry)
    as (h2 & bw & Hbw & Hb2 & Hp2);
    [ by eapply field_preserved | by eapply is_dict_preserved
    | by eapply field_preserved | by eapply is_dict_preserved |].
  pose proof (is_dict_preserved _ _ _ _ Hp2 Hl1) as Hl2.
  exists h1, lat, h2, bw. split_and!; try done.
  unfold generate_summary_report. do 3 report_step.
  rewrite runW_bind, (latency_section_empty _ _ Hl2). cbv beta iota.
  rewrite runW_bind, (bandwidth_section_empty _ _ Hb2). cbv beta iota.
  by rewrite (overall_section_insufficient np_mean h2 lat bw [] [] Hl2 Hb2)
    by by left.
Qed.

Lemma empty_run_witness :
  ∃ h1 latency_data h2 bandwidth_data,
    analyze_latency (VRef 0) Sample.h_empty = (h1, inr latency_data) ∧
    is_dict h1 latency_data [] ∧
    analyze_bandwidth (VRef 0) h1 = (h2, inr bandwidth_data) ∧
    is_dict h2 bandwidth_data [] ∧
    is_dict h2 latency_data [] ∧
    generate_summary_report Sample.seq_mean latency_data bandwidth_data h2
    = (report_without_data, inr ()).
Proof.
  apply (empty_run Sample.seq_mean Sample.h_empty (VRef 0) (VRef 1) (VRef 2));
    [sample_field | sample_dict | sample_field | sample_dict].
Defined.

(** ** The direction of a bandwidth test *)

(** C9: for every matched bandwidth pair, the [direction] of the entry is
    the [direction] of the baseline record when that record has one, and
    ["unknown"] when it has none; the VPN record is not consulted. *)
Theorem analyze_bandwidth_direction h data all_b all_v BL VL
    (Hfb : field h data "baseline" all_b) (Hdb : is_dict h all_b BL)
    (Hfv : field h data "vpn" all_v) (Hdv : is_dict h all_v VL)
    h' res name b v B :
  analyze_bandwidth data h = (h', inr res) →
  matched "iperf_" BL VL name b v →
  is_dict h b B →
  ∃ e, field h' res name e ∧
    (∀ dir, dict_get B "direction" = Some dir → field h' e "direction" dir) ∧
    (dict_get B "direction" = None →
     field h' e "direction" (VStr "unknown")).
Proof.
  rewrite analyze_bandwidth_join. intros Hrun (Hs & Hgb & Hgv) HB.
  edestruct join_on_entries as (e & its & hmid & Hres & He & Hp & Hm);
    [apply read_only_bandwidth_entry| | | | |exact Hrun|..]; try done.
  eapply bandwidth_entry_direction in Hm; [|by eapply is_dict_preserved].
  exists (VRef e). split_and!; [done|..].
  - intros dir Hdir. rewrite Hdir in Hm. by exists e, its.
  - intros Hdir. rewrite Hdir in Hm. by exists e, its.
Qed.

Lemma analyze_bandwidth_direction_witness :
  ∃ h' res e,
    analyze_bandwidth (VRef 0) Sample.h0 = (h', inr res) ∧
    field h' res "iperf_upload" e ∧
    field h' e "direction" (VStr "unknown").
Proof.
  pose proof (analyze_bandwidth_direction Sample.h0 (VRef 0) (VRef 1) (VRef 2)
                Sample.baseline Sample.vpn
                ltac:(sample_field) ltac:(sample_dict)
                ltac:(sample_field) ltac:(sample_dict)) as Hdir.
  destruct (analyze_bandwidth (VRef 0) Sample.h0) as [h' [err|res]] eqn:Hrun;
    [vm_compute in Hrun; discriminate Hrun|].
  exists h', res.
  edestruct (Hdir h' res "iperf_upload" (VRef 4) (VRef 5))
    as (e & He & _ & Hnone); [done | by repeat split | sample_dict |].
  exists e. split_and!; [done | exact He | by apply Hnone].
Defined.

(** ** Inputs are left alone *)

(** C10: [analyze_latency] and [analyze_bandwidth] do not mutate their
    input.  Whatever [data] is and however the run ends (a mapping or an
    exception), every object that was in the store before the call is in it
    afterwards, at the same place and with the same items; and a mapping that
    is returned is an object the store did not hold before. *)
Theorem analyses_keep_input (data : value) (h : heap) :
  (preserved h (analyze_latency data h).1 ∧
   ∀ res, (analyze_latency data h).2 = inr res →
     ∃ l, res = VRef l ∧ h !! l = None ∧
          is_Some ((analyze_latency data h).1 !! l)) ∧
  (preserved h (analyze_bandwidth data h).1 ∧
   ∀ res, (analyze_bandwidth data h).2 = inr res →
     ∃ l, res = VRef l ∧ h !! l = None ∧
          is_Some ((analyze_bandwidth data h).1 !! l)).
Proof.
  assert (∀ pfx entry_of, (∀ b v, read_only (entry_of b v)) →
    preserved h (join_on pfx entry_of data h).1 ∧
    ∀ res, (join_on pfx entry_of data h).2 = inr res →
      ∃ l, res = VRef l ∧ h !! l = None ∧
           is_Some ((join_on pfx entry_of data h).1 !! l)) as Hjoin.
  { intros pfx entry_of Hro.
    destruct (join_on_frame pfx entry_of data h Hro) as (Hp & Hlt & Hres).
    split; [done|]. intros res Hr. exists (List.length h).
    split_and!; [by apply Hres | by apply lookup_ge_None|].
    by apply lookup_lt_is_Some. }
  rewrite analyze_latency_join, analyze_bandwidth_join.
  split; apply Hjoin.
  - apply read_only_latency_entry.
  - apply read_only_bandwidth_entry.
Qed.

(** ** The sample run, end to end *)

(** Baseline 20 ms against 22 ms under the VPN is an overhead of 10 percent,
    rated GOOD; 450 of 500 Mbps is a ratio of 0.9, rated EXCELLENT. *)
Example sample_report :
  generate_summary_report Sample.seq_mean (VRef 7) (VRef 11) Sample.h_done =
  ([ [Lit ("WireGuard VPN Performance Analysis Report" +:+ nl)];
     [Lit (str_repeat "=" 50 +:+ nl)];
     [Lit "Generated: "; Now "%Y-%m-%d %H:%M:%S"; Lit (nl +:+ nl)];
     [Lit ("LATENCY ANALYSIS" +:+ nl)]; dashes;
     [Lit nl; Display "ping_" "ping_gateway"; Lit (":" +:+ nl)];
     [Lit "  Baseline Average: "; Fixed 2 20; Lit ("ms" +:+ nl)];
     [Lit "  VPN Average: "; Fixed 2 22; Lit ("ms" +:+ nl)];
     [Lit "  Overhead: +"; Fixed 2 2; Lit "ms (+"; Fixed 1 10;
      Lit ("%)" +:+ nl)];
     [Lit "  Rating: "; Lit "GOOD"; Lit nl];
     [Lit (nl +:+ nl +:+ "BANDWIDTH ANALYSIS" +:+ nl)]; dashes;
     [Lit nl; Display "iperf_" "iperf_upload"; Lit (":" +:+ nl)];
     [Lit "  Baseline: "; Fixed 2 500; Lit (" Mbps" +:+ nl)];
     [Lit "  VPN: "; Fixed 2 450; Lit (" Mbps" +:+ nl)];
     [Lit "  Efficiency: "; Fixed 1 (450 / 500 * 100); Lit ("%" +:+ nl)];
     [Lit "  Rating: "; Lit "EXCELLENT"; Lit nl] ] ++
   overall_heading ++
   [ [Lit "Average Latency Overhead: "; Fixed 1 10; Lit ("%" +:+ nl)];
     [Lit "Average Bandwidth Efficiency: "; Fixed 1 (450 / 500 * 100);
      Lit ("%" +:+ nl)];
     [Lit "Overall Rating: "; Lit "GOOD"; Lit nl] ], inr ()).
Proof. by vm_compute. Qed.

(** * Further properties *)

(** ** Test names *)

Lemma prefix_app_long p x y :
  String.length p ≤ String.length x →
  String.prefix p (x +:+ y) = String.prefix p x.
Proof.
  revert x. induction p as [|c p IH]; intros [|d x] Hl; simpl in *;
    try done; try lia.
  - by destruct y.
  - destruct (Ascii.ascii_dec c d); [|done]. apply IH. lia.
Qed.

Lemma string_length_app (a b : string) :
  String.length (a +:+ b) = String.length a + String.length b.
Proof. induction a; simpl; [done|]. by rewrite IHa. Qed.

Lemma string_app_assoc (a b c : string) : (a +:+ b) +:+ c = a +:+ (b +:+ c).
Proof.
  induction a as [|x a IH]; [done|].
  change (String x ((a +:+ b) +:+ c) = String x (a +:+ (b +:+ c))).
  by rewrite IH.
Qed.

Lemma string_app_nil_r (a : string) : a +:+ EmptyString = a.
Proof.
  induction a as [|x a IH]; [done|].
  change (String x (a +:+ EmptyString) = String x a). by rewrite IH.
Qed.

Lemma prefix_app_self p s : String.prefix p (p +:+ s) = true.
Proof.
  induction p as [|c p IH]; simpl; [by destruct s|].
  by destruct (Ascii.ascii_dec c c).
Qed.

(** An occurrence at the head is skipped whole. *)
Lemma str_remove_skip old n a s :
  String.length a = n →
  str_remove_from old n (a +:+ s) = str_remove_from old 0 s.
Proof.
  revert n. induction a as [|c a IH]; intros n Hn; simpl in *; subst; [done|].
  by apply IH.
Qed.

Lemma str_remove_head old s :
  old ≠ EmptyString →
  str_remove_from old 0 (old +:+ s) = str_remove_from old 0 s.
Proof.
  destruct old as [|c old]; [done|]. intros _.
  change (String c old +:+ s) with (String c (old +:+ s)).
  cbn [str_remove_from].
  change (String c (old +:+ s)) with (String c old +:+ s).
  rewrite prefix_app_self. apply str_remove_skip. simpl. lia.
Qed.

Lemma str_remove_early old a s :
  old ≠ EmptyString → early_free old a = true →
  str_remove_from old 0 (a +:+ old +:+ s) = a +:+ str_remove_from old 0 s.
Proof.
  intros Hold. induction a as [|c a IH]; intros Hfree.
  - by apply (str_remove_head old s).
  - cbn [early_free] in Hfree. apply andb_true_iff in Hfree as [Hhere Hrest].
    apply negb_true_iff in Hhere.
    change (String.prefix old (String c a +:+ old) = false) in Hhere.
    change (String c a +:+ old +:+ s) with (String c (a +:+ old +:+ s)).
    cbn [str_remove_from].
    change (String c (a +:+ old +:+ s)) with (String c a +:+ old +:+ s).
    rewrite <- string_app_assoc, prefix_app_long, Hhere.
    + change (String c a +:+ ?x) with (String c (a +:+ x)).
      f_equal. by apply IH.
    + rewrite string_length_app. simpl. lia.
Qed.

(** X1: the test name of a file is its stem with the tag [_<test_type>]
    removed.  A stem [<name>_<test_type>] gives [<name>] back when the tag
    does not occur earlier in the stem; and the tag is removed wherever it
    stands, not only at the end, so that two different stems can give one
    test name. *)
Theorem test_name_of_tagged (name tag : string) :
  early_free ("_" +:+ tag) name = true →
  test_name_of (name +:+ "_" +:+ tag) tag = name ∧
  ∀ rest, test_name_of (name +:+ ("_" +:+ tag) +:+ rest) tag
          = name +:+ test_name_of rest tag.
Proof.
  intros Hfree.
  assert (∀ rest, test_name_of (name +:+ ("_" +:+ tag) +:+ rest) tag
                  = name +:+ test_name_of rest tag) as Hall.
  { intros rest. unfold test_name_of. by apply str_remove_early. }
  split; [|done]. specialize (Hall EmptyString).
  rewrite string_app_nil_r in Hall. rewrite Hall.
  unfold test_name_of. simpl. apply string_app_nil_r.
Qed.

Lemma test_name_of_tagged_witness :
  test_name_of "ping_gateway_latest" "latest" = "ping_gateway" ∧
  test_name_of "ping_latest_gateway_latest" "latest" = "ping_gateway".
Proof.
  split.
  - apply (test_name_of_tagged "ping_gateway" "latest"). reflexivity.
  - destruct (test_name_of_tagged "ping" "latest") as [_ Hall]; [reflexivity|].
    apply (Hall "_gateway_latest").
Defined.

(** ** Ratings and colours *)

Lemma run_latency_rating h data x :
  field h data "overhead_percent" (VNum x) →
  latency_rating data h = (h, inr (rating_of_percent x)).
Proof.
  intros Hx. unfold latency_rating, rating_of_percent.
  run_field Hx. rewrite run_bind. simpl py_lt.
  rewrite run_ret. cbv beta iota. destruct (x <? 10)%float; [done|].
  run_field Hx. rewrite run_bind. simpl py_lt. rewrite run_ret.
  cbv beta iota. by destruct (x <? 25)%float.
Qed.

Lemma run_bandwidth_rating h data x :
  field h data "bandwidth_ratio" (VNum x) →
  bandwidth_rating data h = (h, inr (rating_of_ratio x)).
Proof.
  intros Hx. unfold bandwidth_rating, rating_of_ratio.
  run_field Hx. rewrite run_bind. simpl py_gt.
  rewrite run_ret. cbv beta iota. destruct (0.8 <? x)%float; [done|].
  run_field Hx. rewrite run_bind. simpl py_gt. rewrite run_ret.
  cbv beta iota. by destruct (0.6 <? x)%float.
Qed.

Lemma run_latency_colour h m :
  latency_colour (VNum m) h = (h, inr (colour_of_ms m)).
Proof.
  unfold latency_colour, colour_of_ms. rewrite run_bind. simpl py_lt.
  rewrite run_ret. cbv beta iota. destruct (m <? 10)%float; [done|].
  rewrite run_bind. simpl py_lt. rewrite run_ret. cbv beta iota.
  by destruct (m <? 25)%float.
Qed.

Lemma run_bandwidth_colour h p :
  bandwidth_colour (VNum p) h = (h, inr (colour_of_percent p)).
Proof.
  unfold bandwidth_colour, colour_of_percent. rewrite run_bind. simpl py_gt.
  rewrite run_ret. cbv beta iota. destruct (80 <? p)%float; [done|].
  rewrite run_bind. simpl py_gt. rewrite run_ret. cbv beta iota.
  by destruct (60 <? p)%float.
Qed.

Lemma is_nan_spec x : PrimFloat.is_nan x = true → Prim2SF x = S754_nan.
Proof. unfold Prim2SF. by intros ->. Qed.

Lemma ltb_nan x y :
  PrimFloat.is_nan x = true → (x <? y)%float = false ∧ (y <? x)%float = false.
Proof.
  intros Hx%is_nan_spec. rewrite !FloatAxioms.ltb_spec, Hx. unfold SFltb.
  split; [done|]. by destruct (Prim2SF y).
Qed.

(** ** Every item of a returned mapping *)

Lemma for_each_inv {A} (I : list A → heap → Prop) (E : pyerr → Prop)
    (body : A → M ()) (xs : list A) :
  (∀ pre x post hc, xs = pre ++ x :: post → I pre hc →
     match body x hc with
     | (h', inr _) => I (pre ++ [x]) h'
     | (_, inl e) => E e
     end) →
  ∀ hc, I [] hc →
    match for_each xs body hc with
    | (h', inr _) => I xs h'
    | (_, inl e) => E e
    end.
Proof.
  intros Hstep.
  assert (∀ post pre hc, xs = pre ++ post → I pre hc →
    match for_each post body hc with
    | (h', inr _) => I (pre ++ post) h'
    | (_, inl e) => E e
    end) as Hgen.
  { induction post as [|x post IH]; intros pre hc Hxs HI; simpl.
    - by rewrite app_nil_r.
    - rewrite run_bind. pose proof (Hstep pre x post hc Hxs HI) as Hx.
      destruct (body x hc) as [h1 [e|[]]]; [done|].
      rewrite (cons_middle x pre post), app_assoc. apply IH; [|done].
      by rewrite <- app_assoc. }
  intros hc HI. by apply (Hgen xs []).
Qed.

Lemma join_step_run entry_of r hc R BP VP name b :
  (∀ b v, read_only (entry_of b v)) →
  hc !! r = Some R → hc !! S r = Some BP → hc !! S (S r) = Some VP →
  dict_get BP name = Some b →
  join_step entry_of r (S r) (S (S r)) name hc =
  match dict_get VP name with
  | None => (hc, inr ())
  | Some v =>
      match (entry_of b v hc).2 with
      | inl e => (hc, inl e)
      | inr items =>
          (<[r := dict_set R name (VRef (List.length hc))]> (hc ++ [items]),
           inr ())
      end
  end.
Proof.
  intros Hro HR Hb Hv Hgb. unfold join_step.
  rewrite run_bind, (run_contains _ _ _ _ Hv). unfold dict_mem.
  destruct (dict_get VP name) as [v|] eqn:Hgv; [|done].
  rewrite run_bind, (run_subscript _ _ _ _ Hb), Hgb.
  rewrite run_bind, (run_subscript _ _ _ _ Hv), Hgv.
  rewrite run_bind. pose proof (Hro b v hc) as Hh.
  destruct (entry_of b v hc) as [h1 [err|items]]; simpl in Hh; subst h1;
    [done|].
  rewrite run_bind. simpl.
  rewrite (run_setitem _ _ R); [done|]. by apply lookup_app_l_Some.
Qed.

Lemma Forall_dict_set (P : string * value → Prop) d k v :
  Forall P d → P (k, v) → Forall P (dict_set d k v).
Proof.
  intros Hd Hv. induction Hd as [|[k0 v0] d H0 Hd IH]; simpl.
  - by constructor.
  - destruct (String.eqb k0 k); constructor; done.
Qed.

Lemma dict_set_fresh d k v : k ∉ d.*1 → dict_set d k v = d ++ [(k, v)].
Proof.
  induction d as [|[k0 v0] d IH]; simpl; [done|].
  rewrite not_elem_of_cons. intros [Hne Hd].
  destruct (String.eqb_spec k0 k) as [->|_]; [done|]. by rewrite IH.
Qed.

Lemma entry_made_later entry_of r hc hc' kv :
  entry_made entry_of r hc kv →
  (∀ e items, r < e → hc !! e = Some items → hc' !! e = Some items) →
  entry_made entry_of r hc' kv.
Proof.
  intros (e & its & b & v & hmid & Hkv & Hlt & He & Hrun) Hhc.
  exists e, its, b, v, hmid. eauto.
Qed.

Section JoinAll.

Context (entry_of : value → value → M dict).
Hypothesis entry_ro : ∀ b v, read_only (entry_of b v).
Context (h : heap) (BP VP : dict).

Local Abbreviation r := (List.length h).

Lemma join_all_step pre name post hc :
  BP.*1 = pre ++ name :: post →
  join_inv entry_of h BP VP pre hc ∧ join_all entry_of h BP VP pre hc →
  match join_step entry_of r (S r) (S (S r)) name hc with
  | (h', inr _) =>
      join_inv entry_of h BP VP (pre ++ [name]) h' ∧
      join_all entry_of h BP VP (pre ++ [name]) h'
  | (_, inl e) => True
  end.
Proof.
  intros Hnames [Hinv (R & HR & Hall & Hord)].
  pose proof (join_inv_length _ _ _ _ _ _ Hinv) as Hlen.
  pose proof Hinv as (Hp & Hb & Hv & _).
  assert (name ∈ BP.*1) as Hin.
  { rewrite Hnames. apply elem_of_app. right. by left. }
  apply dict_mem_true, dict_mem_get in Hin as [b Hgb].
  rewrite (join_step_run entry_of r hc R BP VP name b) by done.
  destruct (dict_get VP name) as [v|] eqn:Hgv.
  - pose proof (entry_ro b v hc) as Hh.
    destruct (entry_of b v hc) as [h1 [err|items]] eqn:Hrun; simpl in *;
      [done|]. subst h1.
    destruct (join_step_add entry_of h BP VP pre hc name b v items
                Hinv Hgb Hgv Hrun) as (R' & HR' & Hinv').
    assert (R' = R) as -> by congruence. split; [done|].
    exists (dict_set R name (VRef (List.length hc))). split_and!.
    + apply list_lookup_insert_eq. rewrite length_app. lia.
    + apply Forall_dict_set.
      * eapply Forall_impl; [exact Hall|]. intros kv Hkv.
        eapply entry_made_later; [exact Hkv|]. intros e its Hlt He.
        rewrite list_lookup_insert_ne by lia. by apply lookup_app_l_Some.
      * exists (List.length hc), items, b, v, hc. split_and!; try done; [lia|].
        rewrite list_lookup_insert_ne by lia. by apply list_lookup_middle.
    + intros Hnd. specialize (Hord Hnd).
      assert (name ∉ pre) as Hfresh.
      { rewrite Hnames in Hnd. apply NoDup_app in Hnd as (_ & Hd & _).
        intros Hn. apply (Hd _ Hn). by left. }
      rewrite dict_set_fresh.
      * rewrite fmap_app, filter_app, Hord. f_equal.
        rewrite filter_cons_True; [done|]. simpl. unfold dict_mem.
        by rewrite Hgv.
      * rewrite Hord. intros [_ Hn]%list_elem_of_filter. done.
  - split.
    + apply join_step_skip; [done|]. unfold dict_mem. by rewrite Hgv.
    + exists R. split_and!; try done. intros Hnd.
      rewrite filter_app, (Hord Hnd), filter_cons_False, filter_nil, app_nil_r;
        [done|].
      simpl. unfold dict_mem. by rewrite Hgv.
Qed.

End JoinAll.

Lemma join_on_all pfx entry_of h data all_b all_v BL VL h' res :
  (∀ b v, read_only (entry_of b v)) →
  field h data "baseline" all_b → is_dict h all_b BL →
  field h data "vpn" all_v → is_dict h all_v VL →
  join_on pfx entry_of data h = (h', inr res) →
  res = VRef (List.length h) ∧ preserved h h' ∧
  join_all entry_of h (select_prefix pfx BL) (select_prefix pfx VL)
    (select_prefix pfx BL).*1 h'.
Proof.
  intros Hro Hfb Hdb Hfv Hdv.
  set (BP := select_prefix pfx BL). set (VP := select_prefix pfx VL).
  set (h1 := h ++ [[]]). set (h2 := h1 ++ [BP]). set (h3 := h2 ++ [VP]).
  assert (preserved h h1) as Hp1 by apply preserved_alloc, preserved_refl.
  assert (preserved h h2) as Hp2 by by apply preserved_alloc.
  assert (preserved h h3) as Hp3 by by apply preserved_alloc.
  assert (List.length h1 = S (List.length h)) as Hl1 by apply length_snoc.
  assert (List.length h2 = S (S (List.length h))) as Hl2
    by (unfold h2; by rewrite length_snoc, Hl1).
  assert (h3 !! S (List.length h) = Some BP) as Hb.
  { apply lookup_app_l_Some, list_lookup_middle. done. }
  assert (h3 !! S (S (List.length h)) = Some VP) as Hv.
  { apply list_lookup_middle. done. }
  assert (h3 !! List.length h = Some []) as H0.
  { do 2 apply lookup_app_l_Some. by apply list_lookup_middle. }
  assert (join_inv entry_of h BP VP [] h3) as Hinv.
  { split_and!; try done. exists []. split_and!; [done| |].
    - intros n. split; [done|]. by intros [?%elem_of_nil _].
    - by intros n b v ?%elem_of_nil. }
  assert (join_all entry_of h BP VP [] h3) as Hall.
  { exists []. split_and!; [done|constructor|done]. }
  unfold join_on. rewrite run_bind. simpl. fold h1. unfold join_rest.
  rewrite run_bind, (run_subscript_field h1 data "baseline" all_b)
    by by eapply field_preserved.
  rewrite run_bind, (run_items_dict h1 all_b BL)
    by by eapply is_dict_preserved.
  rewrite run_bind. simpl. fold BP h2. rewrite Hl1.
  rewrite run_bind, (run_subscript_field h2 data "vpn" all_v)
    by by eapply field_preserved.
  rewrite run_bind, (run_items_dict h2 all_v VL)
    by by eapply is_dict_preserved.
  rewrite run_bind. simpl. fold VP h3. rewrite Hl2.
  rewrite run_bind, (run_keys _ _ _ Hb).
  rewrite run_bind.
  pose proof (for_each_inv
    (λ pre hc, join_inv entry_of h BP VP pre hc ∧
               join_all entry_of h BP VP pre hc)
    (λ _, True)
    (join_step entry_of (List.length h) (S (List.length h))
       (S (S (List.length h))))
    BP.*1
    (λ pre x post hc Hxs HI,
       join_all_step entry_of Hro h BP VP pre x post hc Hxs HI)
    h3 (conj Hinv Hall)) as Hloop.
  destruct ((for_each _ _ : M ()) h3) as [hf [err|[]]]; simpl; [done|].
  intros [= <- <-]. destruct Hloop as [(Hp & _) Hj]. done.
Qed.

(** ** The comparisons as tables of numbers *)

Ltac invert_read H a Ha :=
  apply bind_ro_inr in H as (a & Ha & H); [|by auto with store].

Lemma subscript_det hc o k a a' :
  subscript o k hc = (hc, inr a) → subscript o k hc = (hc, inr a') → a = a'.
Proof. congruence. Qed.

Lemma latency_entry_numeric hc hc' b v items :
  latency_entry b v hc = (hc', inr items) →
  ∃ x y rest,
    (x =? 0)%float = false ∧
    items = [ ("baseline_avg", VNum x); ("vpn_avg", VNum y);
              ("overhead_ms", VNum (y - x));
              ("overhead_percent", VNum ((y - x) / x * 100)) ] ++ rest.
Proof.
  intros H. unfold latency_entry in H.
  invert_read H a Ha. invert_read H b0 Hb. invert_read H ms Hms.
  invert_read H b1 Hb1. invert_read H q Hq.
  invert_read H b2 Hb2. invert_read H a2 Ha2.
  do 6 (apply bind_ro_inr in H as (? & _ & H); [|by auto with store]).
  injection H as _ <-.
  assert (b1 = b0) as -> by congruence.
  assert (b2 = b0) as -> by congruence.
  assert (a2 = a) as -> by congruence.
  destruct a as [fy| |], b0 as [fx| |]; try done.
  simpl in Hms. injection Hms as <-.
  simpl in Hq. destruct (fx =? 0)%float eqn:Hnz; [done|]. injection Hq as <-.
  by eexists fx, fy, _.
Qed.

Lemma bandwidth_entry_numeric hc hc' b v items :
  bandwidth_entry b v hc = (hc', inr items) →
  ∃ x y rest,
    (x =? 0)%float = false ∧
    items = [ ("baseline_mbps", VNum x); ("vpn_mbps", VNum y);
              ("bandwidth_ratio", VNum (y / x)) ] ++ rest.
Proof.
  intros H. unfold bandwidth_entry in H.
  invert_read H a Ha. invert_read H b0 Hb. invert_read H q Hq.
  invert_read H b2 Hb2. invert_read H a2 Ha2.
  apply bind_ro_inr in H as (? & _ & H); [|by auto with store].
  injection H as _ <-.
  assert (b2 = b0) as -> by congruence.
  assert (a2 = a) as -> by congruence.
  destruct a as [fy| |], b0 as [fx| |]; try done.
  simpl in Hq. destruct (fx =? 0)%float eqn:Hnz; [done|]. injection Hq as <-.
  by eexists fx, fy, _.
Qed.

Lemma Forall_exists_Forall2 {A B} (P : A → B → Prop) (l : list A) :
  Forall (λ x, ∃ y, P x y) l → ∃ k, Forall2 P l k.
Proof.
  induction 1 as [|x l [y Hy] _ [k Hk]]; [by exists []|].
  exists (y :: k). by constructor.
Qed.

Lemma latency_rows_made r hc L :
  Forall (entry_made latency_entry r hc) L →
  ∃ rows, Forall2 (latency_row hc) L rows.
Proof.
  intros HL. apply Forall_exists_Forall2.
  eapply Forall_impl; [exact HL|].
  intros kv (e & its & b & v & hmid & Hkv & _ & He & Hrun).
  apply latency_entry_numeric in Hrun as (x & y & rest & _ & ->).
  exists (LRow x y (y - x) ((y - x) / x * 100)).
  split_and!; rewrite Hkv; by eexists e, _.
Qed.

Lemma bandwidth_rows_made r hc L :
  Forall (entry_made bandwidth_entry r hc) L →
  ∃ rows, Forall2 (bandwidth_row hc) L rows.
Proof.
  intros HL. apply Forall_exists_Forall2.
  eapply Forall_impl; [exact HL|].
  intros kv (e & its & b & v & hmid & Hkv & _ & He & Hrun).
  apply bandwidth_entry_numeric in Hrun as (x & y & rest & _ & ->).
  exists (BRow x y (y / x)).
  split_and!; rewrite Hkv; by eexists e, _.
Qed.

Lemma latency_rows_preserved h hc L rows :
  preserved h hc → Forall2 (latency_row h) L rows →
  Forall2 (latency_row hc) L rows.
Proof.
  intros Hp HF. eapply Forall2_impl; [exact HF|].
  intros kv r (H1 & H2 & H3 & H4).
  split_and!; by eapply field_preserved.
Qed.

Lemma bandwidth_rows_preserved h hc L rows :
  preserved h hc → Forall2 (bandwidth_row h) L rows →
  Forall2 (bandwidth_row hc) L rows.
Proof.
  intros Hp HF. eapply Forall2_impl; [exact HF|].
  intros kv r (H1 & H2 & H3).
  split_and!; by eapply field_preserved.
Qed.

(** ** The report over tables *)

Lemma runW_for_each {A B} (P : A → B → Prop) (body : A → W ())
    (block : A → B → list (list piece)) h xs ys :
  (∀ x y, P x y → body x h = (block x y, inr ())) →
  Forall2 P xs ys →
  for_each xs body h = (concat (zip_with block xs ys), inr ()).
Proof.
  intros Hbody. induction 1 as [|x y xs ys Hxy _ IH]; [done|].
  simpl. rewrite runW_bind, (Hbody _ _ Hxy), IH. done.
Qed.

Lemma run_fixed_field h o k n x :
  field h o k (VNum x) →
  (subscript o k ≫= fmt_fixed n) h = (h, inr (Fixed n x)).
Proof. intros Hx. by run_field Hx. Qed.

Lemma latency_block_run h kv r :
  latency_row h kv r →
  (let '(test_name, data) := kv in
   f_write [Lit nl; Display "ping_" test_name; Lit (":" +:+ nl)];;
   baseline_avg ← reading (subscript data "baseline_avg" ≫= fmt_fixed 2);
   f_write [Lit "  Baseline Average: "; baseline_avg; Lit ("ms" +:+ nl)];;
   vpn_avg ← reading (subscript data "vpn_avg" ≫= fmt_fixed 2);
   f_write [Lit "  VPN Average: "; vpn_avg; Lit ("ms" +:+ nl)];;
   overhead_ms ← reading (subscript data "overhead_ms" ≫= fmt_fixed 2);
   overhead_percent ←
     reading (subscript data "overhead_percent" ≫= fmt_fixed 1);
   f_write [Lit "  Overhead: +"; overhead_ms; Lit "ms (+";
            overhead_percent; Lit ("%)" +:+ nl)];;
   rating ← reading (latency_rating data);
   f_write [Lit "  Rating: "; Lit rating; Lit nl]) h
  = (latency_block kv r, inr ()).
Proof.
  destruct kv as [name data]. intros (H1 & H2 & H3 & H4). simpl in *.
  report_step.
  erewrite runW_read by by apply run_fixed_field. report_step.
  erewrite runW_read by by apply run_fixed_field. report_step.
  erewrite runW_read by by apply run_fixed_field.
  erewrite runW_read by by apply run_fixed_field. report_step.
  erewrite runW_read by by apply run_latency_rating. done.
Qed.

Lemma run_efficiency h o x :
  field h o "bandwidth_ratio" (VNum x) →
  (r ← subscript o "bandwidth_ratio"; r100 ← py_mul100 r; fmt_fixed 1 r100) h
  = (h, inr (Fixed 1 (x * 100)%float)).
Proof. intros Hx. by run_field Hx. Qed.

Lemma bandwidth_block_run h kv r :
  bandwidth_row h kv r →
  (let '(test_name, data) := kv in
   f_write [Lit nl; Display "iperf_" test_name; Lit (":" +:+ nl)];;
   baseline_mbps ← reading (subscript data "baseline_mbps" ≫= fmt_fixed 2);
   f_write [Lit "  Baseline: "; baseline_mbps; Lit (" Mbps" +:+ nl)];;
   vpn_mbps ← reading (subscript data "vpn_mbps" ≫= fmt_fixed 2);
   f_write [Lit "  VPN: "; vpn_mbps; Lit (" Mbps" +:+ nl)];;
   efficiency ←
     reading (r ← subscript data "bandwidth_ratio";
              r100 ← py_mul100 r;
              fmt_fixed 1 r100);
   f_write [Lit "  Efficiency: "; efficiency; Lit ("%" +:+ nl)];;
   rating ← reading (bandwidth_rating data);
   f_write [Lit "  Rating: "; Lit rating; Lit nl]) h
  = (bandwidth_block kv r, inr ()).
Proof.
  destruct kv as [name data]. intros (H1 & H2 & H3). simpl in *.
  report_step.
  erewrite runW_read by by apply run_fixed_field. report_step.
  erewrite runW_read by by apply run_fixed_field. report_step.
  erewrite runW_read by by apply run_efficiency. report_step.
  erewrite runW_read by by apply run_bandwidth_rating. done.
Qed.

Lemma latency_section_rows h lat L rows :
  is_dict h lat L → Forall2 (latency_row h) L rows →
  latency_section lat h = (latency_part L rows, inr ()).
Proof.
  intros Hd Hrows. unfold latency_section, latency_part. do 3 report_step.
  destruct L as [|kv L]; [done|]. report_step.
  erewrite (runW_for_each (latency_row h)); [done| |exact Hrows].
  intros x y Hxy. by apply latency_block_run.
Qed.

Lemma bandwidth_section_rows h bw B rows :
  is_dict h bw B → Forall2 (bandwidth_row h) B rows →
  bandwidth_section bw h = (bandwidth_part B rows, inr ()).
Proof.
  intros Hd Hrows. unfold bandwidth_section, bandwidth_part. do 3 report_step.
  destruct B as [|kv B]; [done|]. report_step.
  erewrite (runW_for_each (bandwidth_row h)); [done| |exact Hrows].
  intros x y Hxy. by apply bandwidth_block_run.
Qed.

Lemma latency_rows_column h L rows :
  Forall2 (latency_row h) L rows →
  column h L "overhead_percent" (overhead_percent_of <$> rows).
Proof.
  unfold column. induction 1 as [|kv r L rows (_ & _ & _ & H4) _ IH];
    by constructor.
Qed.

Lemma bandwidth_rows_column h B rows :
  Forall2 (bandwidth_row h) B rows →
  column h B "bandwidth_ratio" (ratio_of <$> rows).
Proof.
  unfold column. induction 1 as [|kv r B rows (_ & _ & H3) _ IH];
    by constructor.
Qed.

Section ReportRows.

Variable np_mean : list float → float.

Lemma overall_section_rows h lat bw L B lrows brows :
  is_dict h lat L → is_dict h bw B →
  Forall2 (latency_row h) L lrows → Forall2 (bandwidth_row h) B brows →
  overall_section np_mean lat bw h
  = (overall_part np_mean L B lrows brows, inr ()).
Proof.
  intros HL HB Hl Hb. unfold overall_part.
  destruct L as [|kv L].
  { apply (overall_section_insufficient np_mean h lat bw [] B); auto. }
  destruct B as [|kv' B].
  { apply (overall_section_insufficient np_mean h lat bw (kv :: L) []); auto. }
  eapply overall_section_rated; eauto using latency_rows_column,
    bandwidth_rows_column.
Qed.

Lemma generate_summary_report_rows h lat bw L B lrows brows :
  is_dict h lat L → is_dict h bw B →
  Forall2 (latency_row h) L lrows → Forall2 (bandwidth_row h) B brows →
  generate_summary_report np_mean lat bw h
  = (report_of np_mean L B lrows brows, inr ()).
Proof.
  intros HL HB Hl Hb. unfold generate_summary_report, report_of.
  do 3 report_step.
  rewrite runW_bind, (latency_section_rows _ _ _ _ HL Hl).
  rewrite runW_bind, (bandwidth_section_rows _ _ _ _ HB Hb).
  rewrite (overall_section_rows _ _ _ _ _ _ _ HL HB Hl Hb).
  done.
Qed.

End ReportRows.

(** ** The ratings the report writes *)

Lemma lookup_concat_blocks {A} (n : nat) (blocks : list (list A)) i j :
  Forall (λ b, List.length b = n) blocks → j < n →
  concat blocks !! (n * i + j) = blocks !! i ≫= (λ b, b !! j).
Proof.
  intros HF Hj. revert i. induction HF as [|b bs Hb _ IH]; intros i.
  - done.
  - destruct i as [|i].
    + rewrite Nat.mul_0_r. simpl. apply lookup_app_l. lia.
    + replace (n * S i + j) with (List.length b + (n * i + j)) by lia.
      simpl concat. rewrite lookup_app_r by lia.
      replace (List.length b + (n * i + j) - List.length b)
        with (n * i + j) by lia.
      apply IH.
Qed.

Lemma lookup_after_two {A} (a b : A) (rest : list A) k :
  ([a; b] ++ rest) !! S (S k) = rest !! k.
Proof. done. Qed.

Lemma latency_section_lines h lat L rows i kv r :
  is_dict h lat L → Forall2 (latency_row h) L rows →
  L !! i = Some kv → rows !! i = Some r →
  (latency_section lat h).1 !! (2 + 5 * i)
  = Some [Lit nl; Display "ping_" kv.1; Lit (":" +:+ nl)] ∧
  (latency_section lat h).1 !! (6 + 5 * i)
  = Some (rating_line (rating_of_percent (overhead_percent_of r))).
Proof.
  intros HL Hrows Hi Hr. rewrite (latency_section_rows _ _ _ _ HL Hrows).
  cbn [fst]. unfold latency_part. destruct L as [|kv0 L]; [done|].
  assert (Forall (λ b : list (list piece), List.length b = 5)
            (zip_with latency_block (kv0 :: L) rows)) as Hlen.
  { apply Forall_lookup. intros k b Hb.
    apply lookup_zip_with_Some in Hb as (x & y & -> & _). done. }
  assert (zip_with latency_block (kv0 :: L) rows !! i
          = Some (latency_block kv r)) as Hblock.
  { by rewrite lookup_zip_with, Hi, Hr. }
  replace (2 + 5 * i) with (S (S (5 * i + 0))) by lia.
  replace (6 + 5 * i) with (S (S (5 * i + 4))) by lia.
  rewrite !lookup_after_two. split.
  - rewrite (lookup_concat_blocks 5 _ i 0 Hlen) by lia. by rewrite Hblock.
  - rewrite (lookup_concat_blocks 5 _ i 4 Hlen) by lia. by rewrite Hblock.
Qed.

Lemma bandwidth_section_lines h bw B rows i kv r :
  is_dict h bw B → Forall2 (bandwidth_row h) B rows →
  B !! i = Some kv → rows !! i = Some r →
  (bandwidth_section bw h).1 !! (2 + 5 * i)
  = Some [Lit nl; Display "iperf_" kv.1; Lit (":" +:+ nl)] ∧
  (bandwidth_section bw h).1 !! (6 + 5 * i)
  = Some (rating_line (rating_of_ratio (ratio_of r))).
Proof.
  intros HB Hrows Hi Hr. rewrite (bandwidth_section_rows _ _ _ _ HB Hrows).
  cbn [fst]. unfold bandwidth_part. destruct B as [|kv0 B]; [done|].
  assert (Forall (λ b : list (list piece), List.length b = 5)
            (zip_with bandwidth_block (kv0 :: B) rows)) as Hlen.
  { apply Forall_lookup. intros k b Hb.
    apply lookup_zip_with_Some in Hb as (x & y & -> & _). done. }
  assert (zip_with bandwidth_block (kv0 :: B) rows !! i
          = Some (bandwidth_block kv r)) as Hblock.
  { by rewrite lookup_zip_with, Hi, Hr. }
  replace (2 + 5 * i) with (S (S (5 * i + 0))) by lia.
  replace (6 + 5 * i) with (S (S (5 * i + 4))) by lia.
  rewrite !lookup_after_two. split.
  - rewrite (lookup_concat_blocks 5 _ i 0 Hlen) by lia. by rewrite Hblock.
  - rewrite (lookup_concat_blocks 5 _ i 4 Hlen) by lia. by rewrite Hblock.
Qed.

(** C4: the latency rating the report assigns is decided by
    [overhead_percent] alone, with strict upper bounds.  For a mapping of
    latency comparisons, [latency_section] (lines 248-266 of
    [generate_summary_report]) raises nothing, and for the comparison at
    place [i] of the mapping it writes, as line [2 + 5 * i], the heading
    with the name of the test and, as line [6 + 5 * i], the line
    [Rating: r] where [r] is EXCELLENT when the percentage is below 10,
    GOOD when it is at least 10 and below 25, and NEEDS IMPROVEMENT when it
    is at least 25. *)
Theorem latency_section_rating h lat L rows
    (HL : is_dict h lat L) (Hrows : Forall2 (latency_row h) L rows) :
  (latency_section lat h).2 = inr () ∧
  ∀ i kv r, L !! i = Some kv → rows !! i = Some r →
    ∃ rating,
      (latency_section lat h).1 !! (2 + 5 * i)
      = Some [Lit nl; Display "ping_" kv.1; Lit (":" +:+ nl)] ∧
      (latency_section lat h).1 !! (6 + 5 * i) = Some (rating_line rating) ∧
      ((overhead_percent_of r <? 10)%float = true →
       rating = "EXCELLENT") ∧
      ((10 <=? overhead_percent_of r)%float = true →
       (overhead_percent_of r <? 25)%float = true → rating = "GOOD") ∧
      ((25 <=? overhead_percent_of r)%float = true →
       rating = "NEEDS IMPROVEMENT").
Proof.
  split; [by rewrite (latency_section_rows _ _ _ _ HL Hrows)|].
  intros i kv r Hi Hr.
  destruct (latency_section_lines h lat L rows i kv r HL Hrows Hi Hr)
    as [Hname Hline].
  exists (rating_of_percent (overhead_percent_of r)).
  split; [done|]. split; [done|]. apply rating_of_percent_bounds.
Qed.

(** The boundary values of the spec, as four comparisons of one report. *)
Lemma latency_section_rating_witness :
  (latency_section (VRef 0) Ratings.latency_store).2 = inr () ∧
  (latency_section (VRef 0) Ratings.latency_store).1 !! 6
  = Some (rating_line "EXCELLENT") ∧
  (latency_section (VRef 0) Ratings.latency_store).1 !! 11
  = Some (rating_line "GOOD") ∧
  (latency_section (VRef 0) Ratings.latency_store).1 !! 16
  = Some (rating_line "GOOD") ∧
  (latency_section (VRef 0) Ratings.latency_store).1 !! 21
  = Some (rating_line "NEEDS IMPROVEMENT").
Proof.
  destruct (latency_section_rating Ratings.latency_store (VRef 0)
              Ratings.latency_names Ratings.latency_rows)
    as [Hok Hlines].
  { sample_dict. }
  { repeat (constructor; [repeat split; sample_field|]). constructor. }
  split; [exact Hok|]. split_and!.
  - destruct (Hlines 0 _ _ eq_refl eq_refl) as (r & _ & Hl & Hb & _).
    rewrite (Hb eq_refl) in Hl. exact Hl.
  - destruct (Hlines 1 _ _ eq_refl eq_refl) as (r & _ & Hl & _ & Hb & _).
    rewrite (Hb eq_refl eq_refl) in Hl. exact Hl.
  - destruct (Hlines 2 _ _ eq_refl eq_refl) as (r & _ & Hl & _ & Hb & _).
    rewrite (Hb eq_refl eq_refl) in Hl. exact Hl.
  - destruct (Hlines 3 _ _ eq_refl eq_refl) as (r & _ & Hl & _ & _ & Hb).
    rewrite (Hb eq_refl) in Hl. exact Hl.
Defined.

(** C5: the bandwidth rating the report assigns is decided by
    [bandwidth_ratio] alone, with strict lower bounds.  For a mapping of
    bandwidth comparisons, [bandwidth_section] (lines 268-287 of
    [generate_summary_report]) raises nothing, and for the comparison at
    place [i] of the mapping it writes, as line [2 + 5 * i], the heading
    with the name of the test and, as line [6 + 5 * i], the line
    [Rating: r] where [r] is EXCELLENT when the ratio is above 0.8, GOOD
    when it is above 0.6 and at most 0.8, and NEEDS IMPROVEMENT when it is
    at most 0.6. *)
Theorem bandwidth_section_rating h bw B rows
    (HB : is_dict h bw B) (Hrows : Forall2 (bandwidth_row h) B rows) :
  (bandwidth_section bw h).2 = inr () ∧
  ∀ i kv r, B !! i = Some kv → rows !! i = Some r →
    ∃ rating,
      (bandwidth_section bw h).1 !! (2 + 5 * i)
      = Some [Lit nl; Display "iperf_" kv.1; Lit (":" +:+ nl)] ∧
      (bandwidth_section bw h).1 !! (6 + 5 * i) = Some (rating_line rating) ∧
      ((0.8 <? ratio_of r)%float = true → rating = "EXCELLENT") ∧
      ((0.6 <? ratio_of r)%float = true →
       (ratio_of r <=? 0.8)%float = true → rating = "GOOD") ∧
      ((ratio_of r <=? 0.6)%float = true → rating = "NEEDS IMPROVEMENT").
Proof.
  split; [by rewrite (bandwidth_section_rows _ _ _ _ HB Hrows)|].
  intros i kv r Hi Hr.
  destruct (bandwidth_section_lines h bw B rows i kv r HB Hrows Hi Hr)
    as [Hname Hline].
  exists (rating_of_ratio (ratio_of r)).
  split; [done|]. split; [done|]. apply rating_of_ratio_bounds.
Qed.

Lemma bandwidth_section_rating_witness :
  (bandwidth_section (VRef 0) Ratings.bandwidth_store).2 = inr () ∧
  (bandwidth_section (VRef 0) Ratings.bandwidth_store).1 !! 6
  = Some (rating_line "GOOD") ∧
  (bandwidth_section (VRef 0) Ratings.bandwidth_store).1 !! 11
  = Some (rating_line "EXCELLENT") ∧
  (bandwidth_section (VRef 0) Ratings.bandwidth_store).1 !! 16
  = Some (rating_line "NEEDS IMPROVEMENT") ∧
  (bandwidth_section (VRef 0) Ratings.bandwidth_store).1 !! 21
  = Some (rating_line "GOOD").
Proof.
  destruct (bandwidth_section_rating Ratings.bandwidth_store (VRef 0)
              Ratings.bandwidth_names Ratings.bandwidth_rows)
    as [Hok Hlines].
  { sample_dict. }
  { repeat (constructor; [repeat split; sample_field|]). constructor. }
  split; [exact Hok|]. split_and!.
  - destruct (Hlines 0 _ _ eq_refl eq_refl) as (r & _ & Hl & _ & Hb & _).
    rewrite (Hb eq_refl eq_refl) in Hl. exact Hl.
  - destruct (Hlines 1 _ _ eq_refl eq_refl) as (r & _ & Hl & Hb & _).
    rewrite (Hb eq_refl) in Hl. exact Hl.
  - destruct (Hlines 2 _ _ eq_refl eq_refl) as (r & _ & Hl & _ & _ & Hb).
    rewrite (Hb eq_refl) in Hl. exact Hl.
  - destruct (Hlines 3 _ _ eq_refl eq_refl) as (r & _ & Hl & _ & Hb & _).
    rewrite (Hb eq_refl eq_refl) in Hl. exact Hl.
Defined.

Section NaN.

Variable np_mean : list float → float.

(** X2: the report rates a NaN NEEDS IMPROVEMENT, wherever it rates.  For
    mappings of comparisons, [latency_section] writes
    [Rating: NEEDS IMPROVEMENT] for every comparison whose
    [overhead_percent] is NaN, [bandwidth_section] writes it for every
    comparison whose [bandwidth_ratio] is NaN, and, both mappings having a
    comparison, [overall_section] ends with
    [Overall Rating: NEEDS IMPROVEMENT] as soon as one of the two means is
    NaN: a comparison with NaN is false, so every rating falls through to
    its last branch. *)
Theorem nan_needs_improvement h lat bw L B lrows brows
    (HL : is_dict h lat L) (HB : is_dict h bw B)
    (Hl : Forall2 (latency_row h) L lrows)
    (Hb : Forall2 (bandwidth_row h) B brows) :
  (∀ i kv r, L !! i = Some kv → lrows !! i = Some r →
     PrimFloat.is_nan (overhead_percent_of r) = true →
     (latency_section lat h).1 !! (6 + 5 * i)
     = Some (rating_line "NEEDS IMPROVEMENT")) ∧
  (∀ i kv r, B !! i = Some kv → brows !! i = Some r →
     PrimFloat.is_nan (ratio_of r) = true →
     (bandwidth_section bw h).1 !! (6 + 5 * i)
     = Some (rating_line "NEEDS IMPROVEMENT")) ∧
  (L ≠ [] → B ≠ [] →
   PrimFloat.is_nan (np_mean (overhead_percent_of <$> lrows)) = true ∨
   PrimFloat.is_nan (np_mean (ratio_of <$> brows)) = true →
   (overall_section np_mean lat bw h).2 = inr () ∧
   last (overall_section np_mean lat bw h).1
   = Some [Lit "Overall Rating: "; Lit "NEEDS IMPROVEMENT"; Lit nl]).
Proof.
  split_and!.
  - intros i kv r Hi Hr Hnan.
    destruct (latency_section_lines h lat L lrows i kv r HL Hl Hi Hr)
      as [_ ->].
    unfold rating_of_percent. by rewrite !(proj1 (ltb_nan _ _ Hnan)).
  - intros i kv r Hi Hr Hnan.
    destruct (bandwidth_section_lines h bw B brows i kv r HB Hb Hi Hr)
      as [_ ->].
    unfold rating_of_ratio. by rewrite !(proj2 (ltb_nan _ _ Hnan)).
  - intros HLn HBn Hnan.
    rewrite (overall_section_rated np_mean h lat bw L B
               (overhead_percent_of <$> lrows) (ratio_of <$> brows)
               HL HB HLn HBn (latency_rows_column _ _ _ Hl)
               (bandwidth_rows_column _ _ _ Hb)).
    split; [done|]. cbn [fst]. unfold overall_heading.
    cbn [app last]. do 3 f_equal. unfold overall_rating.
    destruct Hnan as [Hnan|Hnan].
    + by rewrite !(proj1 (ltb_nan _ _ Hnan)).
    + rewrite !(proj2 (ltb_nan _ _ Hnan)). by rewrite !andb_false_r.
Qed.

End NaN.

(** What the analyses make of infinite measurements, in the report. *)
Lemma nan_needs_improvement_witness :
  (latency_section (VRef 0) Ratings.nan_store).1 !! 6
  = Some (rating_line "NEEDS IMPROVEMENT") ∧
  (bandwidth_section (VRef 1) Ratings.nan_store).1 !! 6
  = Some (rating_line "NEEDS IMPROVEMENT") ∧
  last (overall_section Listing.mean2 (VRef 0) (VRef 1) Ratings.nan_store).1
  = Some [Lit "Overall Rating: "; Lit "NEEDS IMPROVEMENT"; Lit nl].
Proof.
  destruct (nan_needs_improvement Listing.mean2 Ratings.nan_store
              (VRef 0) (VRef 1) [("ping_far", VRef 2)] [("iperf_far", VRef 3)]
              [LRow infinity infinity nan nan] [BRow infinity infinity nan])
    as (Hlat & Hbw & Hall).
  { sample_dict. }
  { sample_dict. }
  { repeat (constructor; [repeat split; sample_field|]). constructor. }
  { repeat (constructor; [repeat split; sample_field|]). constructor. }
  split_and!.
  - apply (Hlat 0 _ _ eq_refl eq_refl). reflexivity.
  - apply (Hbw 0 _ _ eq_refl eq_refl). reflexivity.
  - apply Hall; [discriminate|discriminate|]. left. reflexivity.
Defined.

(** ** The returned mapping as a whole *)

Lemma select_prefix_keys pfx d :
  (select_prefix pfx d).*1 = filter (λ n, startswith n pfx = true) d.*1.
Proof.
  unfold select_prefix. induction d as [|[k v] d IH]; [done|].
  rewrite fmap_cons, !filter_cons. cbn [fst].
  destruct (decide (startswith k pfx = true)); [|done].
  by rewrite fmap_cons, IH.
Qed.

Lemma dict_mem_select_prefix pfx d n :
  startswith n pfx = true → dict_mem (select_prefix pfx d) n = dict_mem d n.
Proof.
  intros Hp. unfold dict_mem. by rewrite dict_get_select_prefix, Hp.
Qed.

Lemma matched_names_select pfx BL VL :
  filter (λ n, dict_mem (select_prefix pfx VL) n = true)
    (select_prefix pfx BL).*1 = matched_names pfx BL VL.
Proof.
  rewrite select_prefix_keys. unfold matched_names.
  induction BL.*1 as [|n ns IH]; [done|].
  rewrite (filter_cons (λ n, startswith n pfx = true)).
  rewrite (filter_cons (λ n, startswith n pfx = true ∧ _)).
  destruct (decide (startswith n pfx = true)) as [Hp|Hp].
  - rewrite filter_cons, (dict_mem_select_prefix _ _ _ Hp).
    destruct (decide (dict_mem VL n = true)) as [Hm|Hm].
    + rewrite decide_True by done. by rewrite IH.
    + rewrite decide_False by by intros [_ ?]. done.
  - rewrite decide_False by by intros [? _]. done.
Qed.

Lemma NoDup_select_prefix pfx d : NoDup d.*1 → NoDup (select_prefix pfx d).*1.
Proof. rewrite select_prefix_keys. apply NoDup_filter. Qed.

Lemma join_on_table pfx entry_of h data all_b all_v BL VL h' res :
  (∀ b v, read_only (entry_of b v)) →
  field h data "baseline" all_b → is_dict h all_b BL →
  field h data "vpn" all_v → is_dict h all_v VL →
  join_on pfx entry_of data h = (h', inr res) →
  ∃ R, res = VRef (List.length h) ∧ preserved h h' ∧ is_dict h' res R ∧
       Forall (entry_made entry_of (List.length h) h') R ∧
       (NoDup BL.*1 → R.*1 = matched_names pfx BL VL).
Proof.
  intros Hro Hfb Hdb Hfv Hdv Hrun.
  destruct (join_on_all pfx entry_of h data all_b all_v BL VL h' res
              Hro Hfb Hdb Hfv Hdv Hrun) as (-> & Hp & R & HR & Hall & Hkeys).
  exists R. split_and!; try done.
  - by exists (List.length h).
  - intros Hnd. rewrite <- matched_names_select.
    by apply Hkeys, NoDup_select_prefix.
Qed.

Lemma analyze_latency_table h data all_b all_v BL VL h' res :
  field h data "baseline" all_b → is_dict h all_b BL →
  field h data "vpn" all_v → is_dict h all_v VL →
  analyze_latency data h = (h', inr res) →
  ∃ L rows, res = VRef (List.length h) ∧ preserved h h' ∧
    is_dict h' res L ∧ Forall2 (latency_row h') L rows ∧
    (NoDup BL.*1 → L.*1 = matched_names "ping_" BL VL).
Proof.
  intros Hfb Hdb Hfv Hdv Hrun. rewrite analyze_latency_join in Hrun.
  destruct (join_on_table "ping_" latency_entry h data all_b all_v BL VL h'
              res read_only_latency_entry Hfb Hdb Hfv Hdv Hrun)
    as (L & -> & Hp & HL & Hall & Hkeys).
  destruct (latency_rows_made _ _ _ Hall) as [rows Hrows].
  by exists L, rows.
Qed.

Lemma analyze_bandwidth_table h data all_b all_v BL VL h' res :
  field h data "baseline" all_b → is_dict h all_b BL →
  field h data "vpn" all_v → is_dict h all_v VL →
  analyze_bandwidth data h = (h', inr res) →
  ∃ B rows, res = VRef (List.length h) ∧ preserved h h' ∧
    is_dict h' res B ∧ Forall2 (bandwidth_row h') B rows ∧
    (NoDup BL.*1 → B.*1 = matched_names "iperf_" BL VL).
Proof.
  intros Hfb Hdb Hfv Hdv Hrun. rewrite analyze_bandwidth_join in Hrun.
  destruct (join_on_table "iperf_" bandwidth_entry h data all_b all_v BL VL h'
              res read_only_bandwidth_entry Hfb Hdb Hfv Hdv Hrun)
    as (B & -> & Hp & HB & Hall & Hkeys).
  destruct (bandwidth_rows_made _ _ _ Hall) as [rows Hrows].
  by exists B, rows.
Qed.

(** ** Acting on the world *)

Lemma runIO_bind {A B} (m : IO A) (f : A → IO B) h :
  (m ≫= f) h =
  match m h with
  | (h', evs, inr a) => let '(h'', evs', r) := f a h' in (h'', evs ++ evs', r)
  | (h', evs, inl e) => (h', evs, inl e)
  end.
Proof. done. Qed.

Lemma run_act {A B} (m : M A) (f : A → IO B) h h' a :
  m h = (h', inr a) → (act m ≫= f) h = f a h'.
Proof.
  intros Hm. rewrite runIO_bind. unfold act. rewrite Hm.
  by destruct (f a h') as [[??]?].
Qed.

Lemma run_act_raise {A B} (m : M A) (f : A → IO B) h h' e :
  m h = (h', inl e) → (act m ≫= f) h = (h', [], inl e).
Proof. intros Hm. rewrite runIO_bind. unfold act. by rewrite Hm. Qed.

Lemma run_act_last {A} (m : M A) h h' r :
  m h = (h', r) → act m h = (h', [], r).
Proof. unfold act. by intros ->. Qed.

Lemma run_emit {B} (e : event) (f : () → IO B) h :
  (emit e ≫= f) h = ((f () h).1.1, e :: (f () h).1.2, (f () h).2).
Proof. rewrite runIO_bind. simpl. by destruct (f () h) as [[??]?]. Qed.

Lemma run_mapM_Forall2 {A B} (f : A → M B) h xs ys :
  Forall2 (λ x y, f x h = (h, inr y)) xs ys → mapM f xs h = (h, inr ys).
Proof.
  induction 1 as [|x y xs ys Hxy _ IH]; [done|].
  change (mapM f (x :: xs)) with (y ← f x; r ← mapM f xs; mret (y :: r)).
  rewrite run_bind, Hxy. cbv beta iota. by rewrite run_bind, IH.
Qed.

(** ** The charts over tables *)

Lemma latency_chart_rows h L rows :
  Forall2 (latency_row h) L rows →
  mapM (λ '(test_name, data),
     baseline_avg ← subscript data "baseline_avg";
     vpn_avg ← subscript data "vpn_avg";
     overhead ← subscript data "overhead_ms";
     mret (Display "ping_" test_name, baseline_avg, vpn_avg, overhead)) L h
  = (h, inr (zip_with (λ kv r, (Display "ping_" kv.1,
                                VNum (baseline_avg_of r),
                                VNum (vpn_avg_of r),
                                VNum (overhead_ms_of r))) L rows)).
Proof.
  intros Hrows. apply run_mapM_Forall2.
  induction Hrows as [|[name data] r L rows (H1 & H2 & H3 & _) _ IH];
    constructor; [|done].
  simpl in *. run_field H1. run_field H2. by run_field H3.
Qed.

Lemma bandwidth_chart_rows h B rows :
  Forall2 (bandwidth_row h) B rows →
  mapM (λ '(test_name, data),
     baseline_mbps ← subscript data "baseline_mbps";
     vpn_mbps ← subscript data "vpn_mbps";
     ratio ← subscript data "bandwidth_ratio";
     percent ← py_mul100 ratio;
     mret (Display "iperf_" test_name, baseline_mbps, vpn_mbps, percent)) B h
  = (h, inr (zip_with (λ kv r, (Display "iperf_" kv.1,
                                VNum (baseline_mbps_of r),
                                VNum (vpn_mbps_of r),
                                VNum (ratio_of r * 100)%float)) B rows)).
Proof.
  intros Hrows. apply run_mapM_Forall2.
  induction Hrows as [|[name data] r B rows (H1 & H2 & H3) _ IH];
    constructor; [|done].
  simpl in *. run_field H1. run_field H2. by run_field H3.
Qed.

Lemma run_colours (colour : value → M string) (pure : float → string) h xs :
  (∀ x, colour (VNum x) h = (h, inr (pure x))) →
  mapM colour (VNum <$> xs) h = (h, inr (pure <$> xs)).
Proof.
  intros Hc. apply run_mapM_Forall2.
  induction xs; constructor; by auto.
Qed.

Lemma zip_rows_columns {R} (lbl : string → piece) (f1 f2 f3 : R → float)
    (L : dict) (rows : list R) :
  List.length L = List.length rows →
  let table := zip_with (λ (kv : string * value) r,
                 (lbl kv.1, VNum (f1 r), VNum (f2 r), VNum (f3 r))) L rows in
  table.*1.*1.*1 = lbl <$> L.*1 ∧
  table.*1.*1.*2 = (λ r, VNum (f1 r)) <$> rows ∧
  table.*1.*2 = (λ r, VNum (f2 r)) <$> rows ∧
  table.*2 = VNum <$> (f3 <$> rows).
Proof.
  revert rows. induction L as [|kv L IH]; intros [|r rows] Hlen; try done.
  injection Hlen as Hlen. destruct (IH rows Hlen) as (E1 & E2 & E3 & E4).
  cbv zeta in *. cbn [zip_with]. rewrite !fmap_cons. cbn [fst snd].
  by rewrite E1, E2, E3, E4.
Qed.

Lemma generate_latency_chart_rows h lat L rows :
  is_dict h lat L → Forall2 (latency_row h) L rows →
  generate_latency_chart lat h =
  (h, match L with
      | [] => [Said [Lit "No latency data available for charting"]]
      | _ => [Drew (stamped "latency_analysis_" ".png")
                (latency_chart_of L rows);
              SaidSaved "Latency chart saved"
                (stamped "latency_analysis_" ".png")]
      end, inr ()).
Proof.
  intros Hd Hrows. unfold generate_latency_chart.
  rewrite (run_act _ _ _ _ _ (run_truthy_dict _ _ _ Hd)).
  destruct L as [|kv L]; [done|].
  rewrite (run_act _ _ _ _ _ (run_items_dict _ _ _ Hd)).
  rewrite (run_act _ _ _ _ _ (latency_chart_rows _ _ _ Hrows)).
  destruct (zip_rows_columns (Display "ping_") baseline_avg_of vpn_avg_of
              overhead_ms_of (kv :: L) rows (Forall2_length _ _ _ Hrows))
    as (E1 & E2 & E3 & E4).
  cbv zeta. rewrite E1, E2, E3, E4.
  rewrite (run_act _ _ _ _ _
             (run_colours latency_colour colour_of_ms h _
                (λ x, run_latency_colour h x))).
  unfold latency_chart_of. by rewrite <- !list_fmap_compose.
Qed.

Lemma generate_bandwidth_chart_rows h bw B rows :
  is_dict h bw B → Forall2 (bandwidth_row h) B rows →
  generate_bandwidth_chart bw h =
  (h, match B with
      | [] => [Said [Lit "No bandwidth data available for charting"]]
      | _ => [Drew (stamped "bandwidth_analysis_" ".png")
                (bandwidth_chart_of B rows);
              SaidSaved "Bandwidth chart saved"
                (stamped "bandwidth_analysis_" ".png")]
      end, inr ()).
Proof.
  intros Hd Hrows. unfold generate_bandwidth_chart.
  rewrite (run_act _ _ _ _ _ (run_truthy_dict _ _ _ Hd)).
  destruct B as [|kv B]; [done|].
  rewrite (run_act _ _ _ _ _ (run_items_dict _ _ _ Hd)).
  rewrite (run_act _ _ _ _ _ (bandwidth_chart_rows _ _ _ Hrows)).
  destruct (zip_rows_columns (Display "iperf_") baseline_mbps_of vpn_mbps_of
              (λ r, ratio_of r * 100)%float (kv :: B) rows
              (Forall2_length _ _ _ Hrows))
    as (E1 & E2 & E3 & E4).
  cbv zeta. rewrite E1, E2, E3, E4.
  rewrite (run_act _ _ _ _ _
             (run_colours bandwidth_colour colour_of_percent h _
                (λ x, run_bandwidth_colour h x))).
  unfold bandwidth_chart_of. by rewrite <- !list_fmap_compose.
Qed.

(** ** The loader *)

Lemma for_each_events {A} (I : list A → heap → list event → Prop)
    (body : A → IO ()) (xs : list A) :
  (∀ pre x post hc evs, xs = pre ++ x :: post → I pre hc evs →
     ∃ h' evs', body x hc = (h', evs', inr ()) ∧
                I (pre ++ [x]) h' (evs ++ evs')) →
  ∀ hc, I [] hc [] →
    ∃ h' evs, for_each xs body hc = (h', evs, inr ()) ∧ I xs h' evs.
Proof.
  intros Hstep.
  assert (∀ post pre hc evs0, xs = pre ++ post → I pre hc evs0 →
    ∃ h' evs, for_each post body hc = (h', evs, inr ()) ∧
              I (pre ++ post) h' (evs0 ++ evs)) as Hgen.
  { induction post as [|x post IH]; intros pre hc evs0 Hxs HI.
    - exists hc, []. by rewrite !app_nil_r.
    - destruct (Hstep pre x post hc evs0 Hxs HI) as (h1 & evs1 & Hx & HI1).
      destruct (IH (pre ++ [x]) h1 (evs0 ++ evs1)) as (h2 & evs2 & Hr & HI2);
        [by rewrite <- app_assoc|done|].
      exists h2, (evs1 ++ evs2). split.
      + simpl. rewrite runIO_bind, Hx, Hr. done.
      + rewrite (cons_middle x pre post), !app_assoc. done. }
  intros hc HI. destruct (Hgen xs [] hc [] eq_refl HI) as (h' & evs & ? & ?).
  by exists h', evs.
Qed.

Lemma warnings_snoc pre stem f :
  warnings (pre ++ [(stem, f)]) =
  warnings pre ++ match f with Broken why => [Warned stem why] | _ => [] end.
Proof. unfold warnings. rewrite omap_app. simpl. by destruct f. Qed.

Lemma decoded_snoc tt pre stem f :
  decoded tt (pre ++ [(stem, f)]) =
  match f with
  | Json j => put (decoded tt pre) (test_name_of stem tt) j
  | _ => decoded tt pre
  end.
Proof. unfold decoded. by rewrite foldl_app. Qed.

Lemma Forall2_put (P : string * value → string * json → Prop) M J k v j :
  (∀ kv nj, P kv nj → kv.1 = nj.1) →
  Forall2 P M J → P (k, v) (k, j) →
  Forall2 P (dict_set M k v) (put J k j).
Proof.
  intros Hkey HF Hnew. induction HF as [|[k1 v1] [k2 j2] M J H1 HF IH].
  - by constructor.
  - simpl. pose proof (Hkey _ _ H1) as Hk. simpl in Hk. subst k2.
    destruct (String.eqb k1 k); by constructor.
Qed.

Lemma item_new_later n hc hc' kv nj :
  (∀ l, n ≤ l → l < List.length hc → hc' !! l = hc !! l) →
  item_new n hc kv nj → item_new n hc' kv nj.
Proof.
  intros Hfr [Hk Hv]. split; [done|]. destruct nj.2 as [x|s|fs]; try done.
  destruct Hv as (l & Hl & Hn & Hobj). exists l. split_and!; try done.
  rewrite Hfr; [done|done|]. by eapply lookup_lt_Some.
Qed.

Lemma item_new_holds n hc kv nj :
  item_new n hc kv nj → kv.1 = nj.1 ∧ holds hc kv.2 nj.2.
Proof.
  intros [Hk Hv]. split; [done|]. unfold holds.
  destruct nj.2 as [x|s|fs]; try done.
  destruct Hv as (l & Hl & _ & Hobj). by exists l.
Qed.

Lemma load_side_run d side tt dir m items0 h0 :
  h0 !! d = Some items0 → dict_get items0 side = Some (VRef m) →
  m ≠ d → h0 !! m = Some [] →
  ∃ h' M,
    load_side (VRef d) side tt dir h0
      = (h', warnings (entries_of dir), inr ()) ∧
    List.length h0 ≤ List.length h' ∧
    (∀ l, l < List.length h0 → l ≠ m → h' !! l = h0 !! l) ∧
    h' !! m = Some M ∧
    Forall2 (item_new (List.length h0) h') M (decoded tt (entries_of dir)).
Proof.
  intros Hd Hside Hmd Hm.
  destruct dir as [files|]; simpl.
  2: { exists h0, []. by split_and!. }
  set (n := List.length h0).
  pose proof (for_each_events
    (λ pre hc evs, evs = warnings pre ∧ n ≤ List.length hc ∧
       (∀ l, l < n → l ≠ m → hc !! l = h0 !! l) ∧
       ∃ M, hc !! m = Some M ∧ Forall2 (item_new n hc) M (decoded tt pre))
    (λ '(stem, f),
        let test_name := test_name_of stem tt in
        match f with
        | Blank => mret ()
        | Json j =>
            loaded ← act (json_value j);
            mapping ← act (subscript (VRef d) side);
            act (setitem_of mapping test_name loaded)
        | Broken why => emit (Warned stem why)
        end) files) as Hloop.
  destruct (Hloop) with (hc := h0) as (h' & evs & Hrun & -> & Hlen & Hfr & M & HM & Hitems).
  - clear Hloop. intros pre [stem f] post hc evs _ (-> & Hlen & Hfr & M & HM & HF).
    assert (m < n) as Hmn by by eapply lookup_lt_Some.
    assert (d < n) as Hdn by by eapply lookup_lt_Some.
    rewrite warnings_snoc, decoded_snoc.
    destruct f as [|j|why].
    + exists hc, []. split; [done|]. rewrite app_nil_r. split_and!; try done.
      by exists M.
    + assert (∃ hc1 v, json_value j hc = (hc1, inr v) ∧
                List.length hc ≤ List.length hc1 ∧
                (∀ l, l < List.length hc → hc1 !! l = hc !! l) ∧
                item_new n hc1 (test_name_of stem tt, v)
                  (test_name_of stem tt, j)) as (hc1 & v & Hj & Hlen1 & Hfr1 & Hnew).
      { destruct j as [x|s|fs]; simpl.
        - exists hc, (VNum x). by split_and!.
        - exists hc, (VStr s). by split_and!.
        - exists (hc ++ [json_object fs]), (VRef (List.length hc)).
          split_and!; try done.
          + rewrite length_app. lia.
          + intros l Hl. by rewrite lookup_app_l.
          + split; [done|]. simpl. exists (List.length hc).
            split_and!; [done|done|]. by apply list_lookup_middle. }
      assert (hc1 !! d = Some items0) as Hd1.
      { rewrite Hfr1 by lia. rewrite Hfr; done. }
      assert (hc1 !! m = Some M) as Hm1.
      { rewrite Hfr1; [done|]. lia. }
      exists (<[m := dict_set M (test_name_of stem tt) v]> hc1), [].
      split.
      * rewrite (run_act _ _ _ _ _ Hj).
        rewrite (run_act _ _ hc1 hc1 (VRef m)).
        2: { by rewrite (run_subscript _ _ _ _ Hd1), Hside. }
        apply run_act_last. simpl. by apply run_setitem.
      * rewrite app_nil_r. split_and!; [done| | |].
        -- rewrite length_insert. lia.
        -- intros l Hl Hne. rewrite list_lookup_insert_ne by done.
           rewrite Hfr1 by lia. by apply Hfr.
        -- exists (dict_set M (test_name_of stem tt) v). split.
           ++ apply list_lookup_insert_eq. by eapply lookup_lt_Some.
           ++ apply Forall2_put; [by intros ?? [? _]| |].
              ** eapply Forall2_impl; [exact HF|]. intros kv nj.
                 apply item_new_later. intros l Hnl Hl.
                 rewrite list_lookup_insert_ne by lia. by apply Hfr1.
              ** eapply item_new_later; [|exact Hnew]. intros l Hnl Hl.
                 rewrite list_lookup_insert_ne by lia. done.
    + exists hc, [Warned stem why]. split; [done|]. split_and!; try done.
      by exists M.
  - split_and!; try done. exists []. split; [done|constructor].
  - exists h', M. done.
Qed.

Lemma load_test_data_run tt bdir vdir h :
  ∃ h' BL VL,
    load_test_data tt bdir vdir h =
      (h', warnings (entries_of bdir) ++ warnings (entries_of vdir),
       inr (VRef (S (S (List.length h))))) ∧
    preserved h h' ∧
    h' !! S (S (List.length h)) =
      Some [("baseline", VRef (List.length h));
            ("vpn", VRef (S (List.length h)))] ∧
    h' !! List.length h = Some BL ∧ h' !! S (List.length h) = Some VL ∧
    loaded_as h' BL (decoded tt (entries_of bdir)) ∧
    loaded_as h' VL (decoded tt (entries_of vdir)).
Proof.
  set (b := List.length h). set (v := S b). set (d := S v).
  set (top := [("baseline", VRef b); ("vpn", VRef v)]).
  set (h3 := (h ++ [[]]) ++ [[]] ++ [top]).
  assert (List.length h3 = S d) as Hl3.
  { unfold h3. rewrite !length_app. simpl. unfold d, v, b. lia. }
  assert (h3 !! b = Some []) as Hb.
  { unfold h3. apply lookup_app_l_Some, list_lookup_middle. done. }
  assert (h3 !! v = Some []) as Hv.
  { unfold h3. rewrite lookup_app_r; rewrite length_snoc; [|unfold v, b; lia].
    by replace (v - S (List.length h)) with 0 by (unfold v, b; lia). }
  assert (h3 !! d = Some top) as Hd.
  { unfold h3. rewrite lookup_app_r; rewrite length_snoc; [|unfold d, v, b; lia].
    by replace (d - S (List.length h)) with 1 by (unfold d, v, b; lia). }
  destruct (load_side_run d "baseline" tt bdir b top h3 Hd eq_refl)
    as (h4 & BL & Hrun1 & Hlen4 & Hfr4 & HBL & Hitems1);
    [unfold d, v; lia|done|].
  assert (h4 !! d = Some top) as Hd4.
  { rewrite Hfr4; [done|lia|unfold d, v; lia]. }
  assert (h4 !! v = Some []) as Hv4.
  { rewrite Hfr4; [done|unfold d in Hl3; lia|unfold v; lia]. }
  destruct (load_side_run d "vpn" tt vdir v top h4 Hd4 eq_refl)
    as (h5 & VL & Hrun2 & Hlen5 & Hfr5 & HVL & Hitems2);
    [unfold d; lia|done|].
  exists h5, BL, VL. split_and!.
  - unfold load_test_data.
    rewrite (run_act _ _ h (h ++ [[]]) b) by done.
    rewrite (run_act _ _ (h ++ [[]]) ((h ++ [[]]) ++ [[]]) v).
    2: { unfold new_dict. by rewrite length_snoc. }
    rewrite (run_act _ _ ((h ++ [[]]) ++ [[]]) h3 d).
    2: { unfold new_dict, h3. rewrite !length_snoc.
         by rewrite (app_assoc _ [[]] [top]). }
    rewrite runIO_bind, Hrun1, runIO_bind, Hrun2. simpl.
    by rewrite app_nil_r.
  - intros l o Hl. assert (l < b) as Hlb by by eapply lookup_lt_Some.
    rewrite Hfr5 by (unfold v; lia). rewrite Hfr4 by lia.
    unfold h3. rewrite <- app_assoc. by apply lookup_app_l_Some.
  - rewrite Hfr5; [done|lia|unfold d; lia].
  - rewrite Hfr5; [done| |unfold v; lia].
    by eapply lookup_lt_Some.
  - done.
  - eapply Forall2_impl; [exact Hitems1|]. intros kv nj Hi.
    eapply item_new_holds, item_new_later; [|exact Hi].
    intros l Hnl Hl. apply Hfr5; [done|]. unfold d in Hl3. lia.
  - eapply Forall2_impl; [exact Hitems2|]. intros kv nj.
    apply item_new_holds.
Qed.

Lemma put_keys J k j :
  (put J k j).*1 = if decide (k ∈ J.*1) then J.*1 else J.*1 ++ [k].
Proof.
  induction J as [|[k1 j1] J IH]; [done|]. simpl.
  destruct (String.eqb_spec k1 k) as [->|Hne].
  - rewrite decide_True by left. done.
  - rewrite fmap_cons, IH. simpl. destruct (decide (k ∈ J.*1)).
    + rewrite decide_True by by right. done.
    + rewrite decide_False; [done|]. by intros [?|?]%elem_of_cons.
Qed.

Lemma NoDup_put J k j : NoDup J.*1 → NoDup (put J k j).*1.
Proof.
  intros Hnd. rewrite put_keys. destruct (decide (k ∈ J.*1)); [done|].
  apply NoDup_app. split_and!; [done| |apply NoDup_singleton].
  intros x Hx ->%list_elem_of_singleton. done.
Qed.

Lemma NoDup_decoded tt files : NoDup (decoded tt files).*1.
Proof.
  induction files as [|[stem f] files IH] using rev_ind; [constructor|].
  rewrite decoded_snoc. destruct f; try done. by apply NoDup_put.
Qed.

Lemma loaded_as_keys h M J : loaded_as h M J → M.*1 = J.*1.
Proof. induction 1 as [|kv nj M J [Hk _] _ IH]; [done|]. by rewrite !fmap_cons, Hk, IH. Qed.

Lemma load_step_silent (m1 : M value) (m2 : value → M value)
    (m3 : value → value → M ()) hc :
  ((loaded ← act m1; mapping ← act (m2 loaded); act (m3 mapping loaded)) hc).1.2
  = [].
Proof.
  rewrite runIO_bind. unfold act at 1. destruct (m1 hc) as [h1 [e|a]]; [done|].
  rewrite runIO_bind. unfold act at 1. destruct (m2 a h1) as [h2 [e|b]]; [done|].
  unfold act. by destruct (m3 b a h2) as [h3 r].
Qed.

Lemma bind_silent {A B} (m : IO A) (f g : A → IO B) hc :
  (m hc).1.2 = [] →
  (∀ a h, f a h = ((g a h).1.1, [], (g a h).2)) →
  (m ≫= f) hc = (((m ≫= g) hc).1.1, [], ((m ≫= g) hc).2).
Proof.
  intros Hm Hfg. rewrite !runIO_bind.
  destruct (m hc) as [[h1 evs] [e|a]]; simpl in Hm; subst evs; [done|].
  rewrite Hfg. by destruct (g a h1) as [[??]?].
Qed.

Lemma load_side_decodable data side tt files hc :
  load_side data side tt (Some (decodable files)) hc =
  ((load_side data side tt (Some files) hc).1.1, [],
   (load_side data side tt (Some files) hc).2).
Proof.
  revert hc. induction files as [|[stem f] files IH]; intros hc; [done|].
  unfold decodable. rewrite filter_cons. fold (decodable files).
  cbn [load_side] in *. destruct f as [|j|why]; simpl is_json; cbn [snd].
  - rewrite decide_False by done. rewrite IH. cbn [for_each].
    rewrite runIO_bind. simpl.
    by destruct ((for_each files _ : IO ()) hc) as [[??]?].
  - rewrite decide_True by done. cbn [for_each].
    apply bind_silent; [|intros; apply IH].
    apply (load_step_silent (json_value j) (λ _, subscript data side)
      (λ mapping loaded, setitem_of mapping (test_name_of stem tt) loaded)).
  - rewrite decide_False by done. rewrite IH. cbn [for_each].
    rewrite run_emit. done.
Qed.

(** ** The run *)

Section RunFacts.

Variable np_mean : list float → float.

Lemma run_loading {B} tt bdir vdir (f : value → IO B) h h1 evs data :
  load_test_data tt bdir vdir h = (h1, evs, inr data) →
  (emit (Said [Lit "Loading test data..."]);;
   data ← load_test_data tt bdir vdir; f data) h =
  ((f data h1).1.1, Said [Lit "Loading test data..."] :: evs ++ (f data h1).1.2,
   (f data h1).2).
Proof.
  intros Hload. rewrite run_emit, runIO_bind, Hload.
  by destruct (f data h1) as [[??]?].
Qed.

Lemma run_charts lat bw h L B lrows brows :
  is_dict h lat L → is_dict h bw B →
  Forall2 (latency_row h) L lrows → Forall2 (bandwidth_row h) B brows →
  (has_latency ← act (truthy lat);
   (if has_latency : bool then generate_latency_chart lat else mret ());;
   has_bandwidth ← act (truthy bw);
   (if has_bandwidth : bool then generate_bandwidth_chart bw else mret ())) h
  = (h, chart_events L lrows B brows, inr ()).
Proof.
  intros HL HB Hl Hb. unfold chart_events.
  rewrite (run_act _ _ _ _ _ (run_truthy_dict _ _ _ HL)).
  rewrite runIO_bind.
  assert ((if match L with [] => false | _ => true end
           then generate_latency_chart lat else mret ()) h
          = (h, match L with
                | [] => []
                | _ => [Drew (stamped "latency_analysis_" ".png")
                          (latency_chart_of L lrows);
                        SaidSaved "Latency chart saved"
                          (stamped "latency_analysis_" ".png")]
                end, inr ())) as ->.
  { destruct L; [done|].
    by rewrite (generate_latency_chart_rows h lat _ lrows HL Hl). }
  rewrite (run_act _ _ _ _ _ (run_truthy_dict _ _ _ HB)).
  assert ((if match B with [] => false | _ => true end
           then generate_bandwidth_chart bw else mret ()) h
          = (h, match B with
                | [] => []
                | _ => [Drew (stamped "bandwidth_analysis_" ".png")
                          (bandwidth_chart_of B brows);
                        SaidSaved "Bandwidth chart saved"
                          (stamped "bandwidth_analysis_" ".png")]
                end, inr ())) as ->.
  { destruct B; [done|].
    by rewrite (generate_bandwidth_chart_rows h bw _ brows HB Hb). }
  done.
Qed.

Lemma write_report_rows h lat bw L B lrows brows :
  is_dict h lat L → is_dict h bw B →
  Forall2 (latency_row h) L lrows → Forall2 (bandwidth_row h) B brows →
  write_report np_mean lat bw h =
  (h, [Wrote (stamped "comprehensive_report_" ".txt")
         (report_of np_mean L B lrows brows);
       SaidSaved "Comprehensive report saved"
         (stamped "comprehensive_report_" ".txt")], inr ()).
Proof.
  intros HL HB Hl Hb. unfold write_report.
  by rewrite (generate_summary_report_rows np_mean h lat bw L B lrows brows).
Qed.

Lemma run_analysis_run tt charts bdir vdir h h1 evs data h2 lat h3 bw
    L B lrows brows :
  load_test_data tt bdir vdir h = (h1, evs, inr data) →
  analyze_latency data h1 = (h2, inr lat) →
  analyze_bandwidth data h2 = (h3, inr bw) →
  is_dict h3 lat L → is_dict h3 bw B →
  Forall2 (latency_row h3) L lrows → Forall2 (bandwidth_row h3) B brows →
  run_analysis np_mean tt charts bdir vdir h =
  (h3 ++ [[("latency", lat); ("bandwidth", bw)]],
   run_events np_mean charts evs L B lrows brows,
   inr (VRef (List.length h3))).
Proof.
  intros Hload Hlat Hbw HL HB Hl Hb. unfold run_analysis, run_events.
  rewrite (run_loading _ _ _ _ _ _ _ _ Hload).
  rewrite run_emit, (run_act _ _ _ _ _ Hlat).
  rewrite run_emit, (run_act _ _ _ _ _ Hbw).
  rewrite runIO_bind.
  assert ((if charts
           then emit (Said [Lit "Generating charts..."]);;
                has_latency ← act (truthy lat);
                (if has_latency : bool then generate_latency_chart lat
                 else mret ());;
                has_bandwidth ← act (truthy bw);
                (if has_bandwidth : bool then generate_bandwidth_chart bw
                 else mret ())
           else mret ()) h3
          = (h3, if charts
                 then Said [Lit "Generating charts..."]
                        :: chart_events L lrows B brows
                 else [], inr ())) as ->.
  { destruct charts; [|done].
    by rewrite run_emit, (run_charts lat bw h3 L B lrows brows). }
  rewrite run_emit, runIO_bind.
  rewrite (write_report_rows h3 lat bw L B lrows brows) by done.
  rewrite run_emit. unfold act, new_dict. done.
Qed.

Lemma run_analysis_latency_raises tt charts bdir vdir h h1 evs data h2 e :
  load_test_data tt bdir vdir h = (h1, evs, inr data) →
  analyze_latency data h1 = (h2, inl e) →
  run_analysis np_mean tt charts bdir vdir h =
  (h2, [Said [Lit "Loading test data..."]] ++ evs ++
       [Said [Lit "Analyzing latency performance..."]], inl e).
Proof.
  intros Hload Hlat. unfold run_analysis.
  rewrite (run_loading _ _ _ _ _ _ _ _ Hload).
  by rewrite run_emit, (run_act_raise _ _ _ _ _ Hlat).
Qed.

Lemma run_analysis_bandwidth_raises tt charts bdir vdir h h1 evs data h2 lat
    h3 e :
  load_test_data tt bdir vdir h = (h1, evs, inr data) →
  analyze_latency data h1 = (h2, inr lat) →
  analyze_bandwidth data h2 = (h3, inl e) →
  run_analysis np_mean tt charts bdir vdir h =
  (h3, [Said [Lit "Loading test data..."]] ++ evs ++
       [Said [Lit "Analyzing latency performance..."];
        Said [Lit "Analyzing bandwidth performance..."]], inl e).
Proof.
  intros Hload Hlat Hbw. unfold run_analysis.
  rewrite (run_loading _ _ _ _ _ _ _ _ Hload).
  rewrite run_emit, (run_act _ _ _ _ _ Hlat).
  by rewrite run_emit, (run_act_raise _ _ _ _ _ Hbw).
Qed.

Lemma run_py_len h o d :
  is_dict h o d → py_len o h = (h, inr (List.length d)).
Proof. intros (l & -> & Hl). unfold py_len. by rewrite run_bind, (run_load _ _ _ Hl). Qed.

Lemma main_run tt no_charts bdir vdir h h4 evs res lat bw L B :
  run_analysis np_mean tt (negb no_charts) bdir vdir h = (h4, evs, inr res) →
  field h4 res "latency" lat → field h4 res "bandwidth" bw →
  is_dict h4 lat L → is_dict h4 bw B →
  main np_mean tt no_charts bdir vdir h = (h4, evs ++ counts L B, inr ()).
Proof.
  intros Hrun Hfl Hfb HL HB. unfold main, counts.
  rewrite runIO_bind, Hrun.
  rewrite (run_act _ _ _ _ _ (run_subscript_field _ _ _ _ Hfl)).
  rewrite (run_act _ _ _ _ _ (run_truthy_dict _ _ _ HL)).
  rewrite runIO_bind.
  assert ((if match L with [] => false | _ => true end
           then latency' ← act (subscript res "latency");
                n ← act (py_len latency');
                emit (Counted "Latency Analysis" n)
           else mret ()) h4
          = (h4, match L with
                 | [] => []
                 | _ => [Counted "Latency Analysis" (List.length L)]
                 end, inr ())) as ->.
  { destruct L; [done|].
    rewrite (run_act _ _ _ _ _ (run_subscript_field _ _ _ _ Hfl)).
    by rewrite (run_act _ _ _ _ _ (run_py_len _ _ _ HL)). }
  rewrite (run_act _ _ _ _ _ (run_subscript_field _ _ _ _ Hfb)).
  rewrite (run_act _ _ _ _ _ (run_truthy_dict _ _ _ HB)).
  assert ((if match B with [] => false | _ => true end
           then bandwidth' ← act (subscript res "bandwidth");
                n ← act (py_len bandwidth');
                emit (Counted "Bandwidth Analysis" n)
           else mret ()) h4
          = (h4, match B with
                 | [] => []
                 | _ => [Counted "Bandwidth Analysis" (List.length B)]
                 end, inr ())) as ->.
  { destruct B; [done|].
    rewrite (run_act _ _ _ _ _ (run_subscript_field _ _ _ _ Hfb)).
    by rewrite (run_act _ _ _ _ _ (run_py_len _ _ _ HB)). }
  done.
Qed.

End RunFacts.

(** ** What an entry takes over *)

Lemma copied_preserved table h hc b v items :
  preserved h hc → copied table hc b v items → copied table h b v items.
Proof.
  intros Hp HF. unfold copied in *. eapply Forall_impl; [exact HF|].
  intros c Hc x Hx. apply Hc. by eapply field_preserved.
Qed.

Lemma subscript_field_eq hc o k a x :
  subscript o k hc = (hc, inr a) → field hc o k x → a = x.
Proof. intros Ha Hx. rewrite (run_subscript_field _ _ _ _ Hx) in Ha. congruence. Qed.

Lemma latency_entry_copied hc hc' b v items :
  latency_entry b v hc = (hc', inr items) →
  items.*1 = [ "baseline_avg"; "vpn_avg"; "overhead_ms"; "overhead_percent";
               "baseline_min"; "baseline_max"; "vpn_min"; "vpn_max";
               "baseline_loss"; "vpn_loss" ] ∧
  copied latency_copies hc b v items.
Proof.
  intros H. unfold latency_entry in H.
  invert_read H a Ha. invert_read H b0 Hb. invert_read H ms Hms.
  invert_read H b1 Hb1. invert_read H q Hq.
  invert_read H b2 Hb2. invert_read H a2 Ha2.
  invert_read H c1 Hc1. invert_read H c2 Hc2. invert_read H c3 Hc3.
  invert_read H c4 Hc4. invert_read H c5 Hc5. invert_read H c6 Hc6.
  injection H as _ <-. split; [done|].
  unfold copied, latency_copies.
  repeat (constructor; [intros x Hx; cbn [fst snd] in *;
    simpl; f_equal; by eapply subscript_field_eq|]).
  constructor.
Qed.

Lemma bandwidth_entry_copied hc hc' b v items :
  bandwidth_entry b v hc = (hc', inr items) →
  items.*1 = [ "baseline_mbps"; "vpn_mbps"; "bandwidth_ratio";
               "bandwidth_loss_percent"; "direction" ] ∧
  copied bandwidth_copies hc b v items.
Proof.
  intros H. unfold bandwidth_entry in H.
  invert_read H a Ha. invert_read H b0 Hb. invert_read H q Hq.
  invert_read H b2 Hb2. invert_read H a2 Ha2. invert_read H dir Hdir.
  injection H as _ <-. split; [done|].
  unfold copied, bandwidth_copies.
  repeat (constructor; [intros x Hx; cbn [fst snd] in *;
    simpl; f_equal; by eapply subscript_field_eq|]).
  constructor.
Qed.

(** ** From the loader to the tables *)

Lemma loaded_shape tt bdir vdir h h1 evs data :
  load_test_data tt bdir vdir h = (h1, evs, inr data) →
  ∃ all_b all_v BL VL,
    evs = warnings (entries_of bdir) ++ warnings (entries_of vdir) ∧
    data = VRef (S (S (List.length h))) ∧ preserved h h1 ∧
    field h1 data "baseline" all_b ∧ is_dict h1 all_b BL ∧
    field h1 data "vpn" all_v ∧ is_dict h1 all_v VL ∧
    loaded_as h1 BL (decoded tt (entries_of bdir)) ∧
    loaded_as h1 VL (decoded tt (entries_of vdir)) ∧
    NoDup BL.*1 ∧ NoDup VL.*1.
Proof.
  intros Hload.
  destruct (load_test_data_run tt bdir vdir h)
    as (h' & BL & VL & Hrun & Hp & Hd & Hb & Hv & HBL & HVL).
  rewrite Hload in Hrun. injection Hrun as -> -> ->.
  exists (VRef (List.length h)), (VRef (S (List.length h))), BL, VL.
  split_and!; try done.
  - by eexists _, _.
  - by eexists.
  - by eexists _, _.
  - by eexists.
  - rewrite (loaded_as_keys _ _ _ HBL). apply NoDup_decoded.
  - rewrite (loaded_as_keys _ _ _ HVL). apply NoDup_decoded.
Qed.

Lemma analyses_tables h data all_b all_v BL VL h1 lat h2 bw :
  field h data "baseline" all_b → is_dict h all_b BL →
  field h data "vpn" all_v → is_dict h all_v VL →
  analyze_latency data h = (h1, inr lat) →
  analyze_bandwidth data h1 = (h2, inr bw) →
  ∃ L B lrows brows,
    is_dict h2 lat L ∧ is_dict h2 bw B ∧
    Forall2 (latency_row h2) L lrows ∧ Forall2 (bandwidth_row h2) B brows ∧
    preserved h h2 ∧
    (NoDup BL.*1 → L.*1 = matched_names "ping_" BL VL ∧
                   B.*1 = matched_names "iperf_" BL VL).
Proof.
  intros Hfb Hdb Hfv Hdv Hlat Hbw.
  destruct (analyze_latency_table h data all_b all_v BL VL h1 lat
              Hfb Hdb Hfv Hdv Hlat) as (L & lrows & _ & Hp1 & HL & Hl & HkL).
  destruct (analyze_bandwidth_table h1 data all_b all_v BL VL h2 bw)
    as (B & brows & _ & Hp2 & HB & Hb & HkB);
    [by eapply field_preserved|by eapply is_dict_preserved
    |by eapply field_preserved|by eapply is_dict_preserved|done|].
  exists L, B, lrows, brows. split_and!; try done.
  - by eapply is_dict_preserved.
  - by eapply latency_rows_preserved.
  - by eapply preserved_trans.
  - intros Hnd. by rewrite HkL, HkB.
Qed.

Lemma common_names_nil pfx bs vs :
  (∀ name, ¬ (name ∈ bs ∧ name ∈ vs)) → common_names pfx bs vs = [].
Proof.
  intros Hno. unfold common_names. induction bs as [|n ns IH]; [done|].
  rewrite filter_cons, decide_False.
  - apply IH. intros name [Hn Hv]. apply (Hno name). split; [by right|done].
  - intros [_ Hv]. apply (Hno n). split; [by left|done].
Qed.

(** * The pipeline, from the files to the report *)

(** ** The order of the comparisons *)

(** X3: the comparisons come in the order of the baseline mapping.  A
    mapping returned by [analyze_latency] has for keys the names of the
    baseline mapping that start with [ping_] and that the VPN mapping holds
    too, in the order the baseline mapping has them, whatever their order
    under the VPN; likewise [analyze_bandwidth] with [iperf_].  The
    baseline mapping binds a name once, as a Python dict does. *)
Theorem analyses_follow_baseline_order h data all_b all_v BL VL
    (Hfb : field h data "baseline" all_b) (Hdb : is_dict h all_b BL)
    (Hfv : field h data "vpn" all_v) (Hdv : is_dict h all_v VL)
    (Hnd : NoDup BL.*1) :
  (∀ h' res, analyze_latency data h = (h', inr res) →
     ∃ L, is_dict h' res L ∧ L.*1 = matched_names "ping_" BL VL) ∧
  (∀ h' res, analyze_bandwidth data h = (h', inr res) →
     ∃ B, is_dict h' res B ∧ B.*1 = matched_names "iperf_" BL VL).
Proof.
  split; intros h' res Hrun.
  - destruct (analyze_latency_table h data all_b all_v BL VL h' res
                Hfb Hdb Hfv Hdv Hrun) as (L & _ & _ & _ & HL & _ & Hk).
    exists L. auto.
  - destruct (analyze_bandwidth_table h data all_b all_v BL VL h' res
                Hfb Hdb Hfv Hdv Hrun) as (B & _ & _ & _ & HB & _ & Hk).
    exists B. auto.
Qed.

Lemma analyses_follow_baseline_order_witness :
  ∃ L B,
    is_dict (analyze_latency (VRef 2) Listing.h_loaded).1 (VRef 10) L ∧
    L.*1 = ["ping_gateway"; "ping_dns"] ∧
    is_dict (analyze_bandwidth (VRef 2) Listing.h_loaded).1 (VRef 10) B ∧
    B.*1 = ["iperf_upload"].
Proof.
  destruct (analyses_follow_baseline_order Listing.h_loaded (VRef 2)
    (VRef 0) (VRef 1)
    [("ping_gateway", VRef 3); ("ping_dns", VRef 4); ("iperf_upload", VRef 5)]
    [("ping_dns", VRef 6); ("iperf_upload", VRef 7);
     ("ping_gateway", VRef 8); ("ping_broken", VRef 9)])
    as [Hlat Hbw]; [sample_field|sample_dict|sample_field|sample_dict| |].
  { apply (bool_decide_unpack _). by vm_compute. }
  destruct (analyze_latency (VRef 2) Listing.h_loaded) as [h1 [e|lat]] eqn:E1;
    [vm_compute in E1; discriminate|].
  destruct (analyze_bandwidth (VRef 2) Listing.h_loaded) as [h2 [e|bw]]
    eqn:E2; [vm_compute in E2; discriminate|].
  destruct (Hlat h1 lat eq_refl) as (L & HL & HkL).
  destruct (Hbw h2 bw eq_refl) as (B & HB & HkB).
  assert (lat = VRef 10) as -> by (vm_compute in E1; congruence).
  assert (bw = VRef 10) as -> by (vm_compute in E2; congruence).
  exists L, B. split_and!; [done| |done|].
  - rewrite HkL. by vm_compute.
  - rewrite HkB. by vm_compute.
Defined.

(** ** What the entries take over from the records *)

(** X4: an entry keeps the measurements as the records have them.  The
    entry [analyze_latency] returns for a matched pair has the ten keys
    below, in this order, and under [baseline_avg], [vpn_avg], the two
    minima, the two maxima and the two losses it holds what the record of
    that side holds under [avg_ping_ms], [min_ping_ms], [max_ping_ms] and
    [packet_loss_percent], whatever kind of value that is.  The entry of
    [analyze_bandwidth] has five keys and holds the two throughputs as the
    records have them. *)
Theorem entries_copy_records h data all_b all_v BL VL name b v
    (Hfb : field h data "baseline" all_b) (Hdb : is_dict h all_b BL)
    (Hfv : field h data "vpn" all_v) (Hdv : is_dict h all_v VL) :
  (∀ h' res, analyze_latency data h = (h', inr res) →
     matched "ping_" BL VL name b v →
     ∃ e items, field h' res name (VRef e) ∧ h' !! e = Some items ∧
       items.*1 = [ "baseline_avg"; "vpn_avg"; "overhead_ms";
                    "overhead_percent"; "baseline_min"; "baseline_max";
                    "vpn_min"; "vpn_max"; "baseline_loss"; "vpn_loss" ] ∧
       copied latency_copies h b v items) ∧
  (∀ h' res, analyze_bandwidth data h = (h', inr res) →
     matched "iperf_" BL VL name b v →
     ∃ e items, field h' res name (VRef e) ∧ h' !! e = Some items ∧
       items.*1 = [ "baseline_mbps"; "vpn_mbps"; "bandwidth_ratio";
                    "bandwidth_loss_percent"; "direction" ] ∧
       copied bandwidth_copies h b v items).
Proof.
  split; intros h' res Hrun (Hs & Hgb & Hgv).
  - rewrite analyze_latency_join in Hrun.
    destruct (join_on_entries "ping_" latency_entry read_only_latency_entry
                h data all_b all_v BL VL Hfb Hdb Hfv Hdv h' res name b v
                Hrun Hs Hgb Hgv) as (e & items & hmid & He & Hi & Hp & Hm).
    destruct (latency_entry_copied _ _ _ _ _ Hm) as [Hkeys Hcopy].
    exists e, items. split_and!; try done. by eapply copied_preserved.
  - rewrite analyze_bandwidth_join in Hrun.
    destruct (join_on_entries "iperf_" bandwidth_entry
                read_only_bandwidth_entry
                h data all_b all_v BL VL Hfb Hdb Hfv Hdv h' res name b v
                Hrun Hs Hgb Hgv) as (e & items & hmid & He & Hi & Hp & Hm).
    destruct (bandwidth_entry_copied _ _ _ _ _ Hm) as [Hkeys Hcopy].
    exists e, items. split_and!; try done. by eapply copied_preserved.
Qed.

Lemma entries_copy_records_witness :
  ∃ items,
    (analyze_latency (VRef 2) Listing.h_loaded).1 !! 13 = Some items ∧
    dict_get items "baseline_max" = Some (VNum 3) ∧
    dict_get items "vpn_max" = Some (VNum 9).
Proof.
  destruct (entries_copy_records Listing.h_loaded (VRef 2) (VRef 0) (VRef 1)
    [("ping_gateway", VRef 3); ("ping_dns", VRef 4); ("iperf_upload", VRef 5)]
    [("ping_dns", VRef 6); ("iperf_upload", VRef 7);
     ("ping_gateway", VRef 8); ("ping_broken", VRef 9)]
    "ping_gateway" (VRef 3) (VRef 8))
    as [Hlat _]; [sample_field|sample_dict|sample_field|sample_dict|].
  destruct (analyze_latency (VRef 2) Listing.h_loaded) as [h1 [e|lat]] eqn:E1;
    [vm_compute in E1; discriminate|].
  destruct (Hlat h1 lat eq_refl) as (e & items & He & Hi & _ & Hcopy);
    [by repeat split|].
  assert (e = 13) as ->.
  { destruct He as (l & d & -> & Hl & Hk). vm_compute in E1.
    injection E1 as <- <-. vm_compute in Hl. injection Hl as <-.
    vm_compute in Hk. congruence. }
  exists items. split; [done|].
  unfold copied, latency_copies in Hcopy.
  rewrite !Forall_cons in Hcopy.
  destruct Hcopy as (_ & _ & _ & Hmax & _ & Hvmax & _).
  split; [apply Hmax|apply Hvmax]; sample_field.
Defined.

(** ** The report and the charts on what the analyses return *)

(** X5: on records whose numbers are floats, the report never fails on
    what the analyses returned.  When [analyze_latency] and then
    [analyze_bandwidth] have returned their mappings, every entry holds the
    floats the report reads, and [generate_summary_report] writes, without
    raising, the heading, one block of five lines for each comparison in
    the order of the mappings (or the line that says there is none), and
    the overall assessment.  (A Python integer too large for a float, which
    the formats of the report reject, is not a value of this model.) *)
Theorem report_follows_analyses (np_mean : list float → float)
    h data all_b all_v BL VL h1 lat h2 bw
    (Hfb : field h data "baseline" all_b) (Hdb : is_dict h all_b BL)
    (Hfv : field h data "vpn" all_v) (Hdv : is_dict h all_v VL)
    (Hlat : analyze_latency data h = (h1, inr lat))
    (Hbw : analyze_bandwidth data h1 = (h2, inr bw)) :
  ∃ L B lrows brows,
    is_dict h2 lat L ∧ is_dict h2 bw B ∧
    Forall2 (latency_row h2) L lrows ∧ Forall2 (bandwidth_row h2) B brows ∧
    generate_summary_report np_mean lat bw h2
    = (report_of np_mean L B lrows brows, inr ()).
Proof.
  destruct (analyses_tables h data all_b all_v BL VL h1 lat h2 bw
              Hfb Hdb Hfv Hdv Hlat Hbw)
    as (L & B & lrows & brows & HL & HB & Hl & Hb & _).
  exists L, B, lrows, brows. split_and!; try done.
  by apply generate_summary_report_rows.
Qed.

Lemma report_follows_analyses_witness :
  (generate_summary_report Listing.mean2 (VRef 10) (VRef 15)
     Listing.h_analyzed).2 = inr ().
Proof.
  destruct (analyze_latency (VRef 2) Listing.h_loaded) as [h1 [e|lat]] eqn:E1;
    [vm_compute in E1; discriminate|].
  destruct (analyze_bandwidth (VRef 2) h1) as [h2 [e|bw]] eqn:E2;
    [vm_compute in E1; injection E1 as <- <-; vm_compute in E2; discriminate|].
  destruct (report_follows_analyses Listing.mean2 Listing.h_loaded (VRef 2)
    (VRef 0) (VRef 1)
    [("ping_gateway", VRef 3); ("ping_dns", VRef 4); ("iperf_upload", VRef 5)]
    [("ping_dns", VRef 6); ("iperf_upload", VRef 7);
     ("ping_gateway", VRef 8); ("ping_broken", VRef 9)] h1 lat h2 bw)
    as (L & B & lrows & brows & _ & _ & _ & _ & Hrep);
    [sample_field|sample_dict|sample_field|sample_dict|done|done|].
  assert (h2 = Listing.h_analyzed) as <-.
  { unfold Listing.h_analyzed. rewrite E1. cbn [fst]. by rewrite E2. }
  assert (lat = VRef 10) as <- by (vm_compute in E1; congruence).
  assert (bw = VRef 15) as <-.
  { vm_compute in E1. injection E1 as <- <-. vm_compute in E2. congruence. }
  by rewrite Hrep.
Defined.

(** X6: the latency chart never fails on what [analyze_latency] returned,
    in any store that still has its objects.  For a mapping without entry
    it draws nothing and says so; otherwise it draws one figure: the labels
    and the three series follow the order of the mapping, and the bar of a
    comparison is green, orange or red by its overhead in milliseconds
    (below 10, below 25, the rest), not by the percentage the report
    rates. *)
Theorem latency_chart_follows_analysis h data all_b all_v BL VL h1 lat
    (Hfb : field h data "baseline" all_b) (Hdb : is_dict h all_b BL)
    (Hfv : field h data "vpn" all_v) (Hdv : is_dict h all_v VL)
    (Hlat : analyze_latency data h = (h1, inr lat)) :
  ∃ L rows,
    is_dict h1 lat L ∧ Forall2 (latency_row h1) L rows ∧
    ∀ hc, preserved h1 hc →
      generate_latency_chart lat hc =
      (hc, match L with
           | [] => [Said [Lit "No latency data available for charting"]]
           | _ => [Drew (stamped "latency_analysis_" ".png")
                     (latency_chart_of L rows);
                   SaidSaved "Latency chart saved"
                     (stamped "latency_analysis_" ".png")]
           end, inr ()).
Proof.
  destruct (analyze_latency_table h data all_b all_v BL VL h1 lat
              Hfb Hdb Hfv Hdv Hlat) as (L & rows & _ & _ & HL & Hl & _).
  exists L, rows. split_and!; try done. intros hc Hp.
  apply generate_latency_chart_rows; [by eapply is_dict_preserved|].
  by eapply latency_rows_preserved.
Qed.

Lemma latency_chart_follows_analysis_witness :
  (∃ L rows,
     is_dict (analyze_latency (VRef 2) Listing.h_loaded).1 (VRef 10) L ∧
     Forall2 (latency_row (analyze_latency (VRef 2) Listing.h_loaded).1)
       L rows ∧
     ∀ hc, preserved (analyze_latency (VRef 2) Listing.h_loaded).1 hc →
       generate_latency_chart (VRef 10) hc =
       (hc, match L with
            | [] => [Said [Lit "No latency data available for charting"]]
            | _ => [Drew (stamped "latency_analysis_" ".png")
                      (latency_chart_of L rows);
                    SaidSaved "Latency chart saved"
                      (stamped "latency_analysis_" ".png")]
            end, inr ())) ∧
  (generate_latency_chart (VRef 10) Listing.h_analyzed).1.2
  = [Drew (stamped "latency_analysis_" ".png")
       (Chart [Display "ping_" "ping_gateway"; Display "ping_" "ping_dns"]
          [VNum 2; VNum 20] [VNum 4; VNum 23] [VNum 2; VNum 3]
          ["green"; "green"]);
     SaidSaved "Latency chart saved" (stamped "latency_analysis_" ".png")] ∧
  (latency_rating (VRef 13) Listing.h_analyzed).2 = inr "NEEDS IMPROVEMENT".
Proof.
  split; [|split; by vm_compute].
  apply (latency_chart_follows_analysis Listing.h_loaded (VRef 2)
    (VRef 0) (VRef 1)
    [("ping_gateway", VRef 3); ("ping_dns", VRef 4); ("iperf_upload", VRef 5)]
    [("ping_dns", VRef 6); ("iperf_upload", VRef 7);
     ("ping_gateway", VRef 8); ("ping_broken", VRef 9)]);
    [sample_field|sample_dict|sample_field|sample_dict|by vm_compute].
Defined.

(** X7: the bandwidth chart never fails on what [analyze_bandwidth]
    returned, in any store that still has its objects.  The bars are the
    ratios times 100, and a bar is green, orange or red as that percentage
    is above 80, above 60, or neither. *)
Theorem bandwidth_chart_follows_analysis h data all_b all_v BL VL h1 bw
    (Hfb : field h data "baseline" all_b) (Hdb : is_dict h all_b BL)
    (Hfv : field h data "vpn" all_v) (Hdv : is_dict h all_v VL)
    (Hbw : analyze_bandwidth data h = (h1, inr bw)) :
  ∃ B rows,
    is_dict h1 bw B ∧ Forall2 (bandwidth_row h1) B rows ∧
    ∀ hc, preserved h1 hc →
      generate_bandwidth_chart bw hc =
      (hc, match B with
           | [] => [Said [Lit "No bandwidth data available for charting"]]
           | _ => [Drew (stamped "bandwidth_analysis_" ".png")
                     (bandwidth_chart_of B rows);
                   SaidSaved "Bandwidth chart saved"
                     (stamped "bandwidth_analysis_" ".png")]
           end, inr ()).
Proof.
  destruct (analyze_bandwidth_table h data all_b all_v BL VL h1 bw
              Hfb Hdb Hfv Hdv Hbw) as (B & rows & _ & _ & HB & Hb & _).
  exists B, rows. split_and!; try done. intros hc Hp.
  apply generate_bandwidth_chart_rows; [by eapply is_dict_preserved|].
  by eapply bandwidth_rows_preserved.
Qed.

Lemma bandwidth_chart_follows_analysis_witness :
  (∃ B rows,
     is_dict (analyze_bandwidth (VRef 2) Listing.h_loaded).1 (VRef 10) B ∧
     Forall2 (bandwidth_row (analyze_bandwidth (VRef 2) Listing.h_loaded).1)
       B rows ∧
     ∀ hc, preserved (analyze_bandwidth (VRef 2) Listing.h_loaded).1 hc →
       generate_bandwidth_chart (VRef 10) hc =
       (hc, match B with
            | [] => [Said [Lit "No bandwidth data available for charting"]]
            | _ => [Drew (stamped "bandwidth_analysis_" ".png")
                      (bandwidth_chart_of B rows);
                    SaidSaved "Bandwidth chart saved"
                      (stamped "bandwidth_analysis_" ".png")]
            end, inr ())) ∧
  (generate_bandwidth_chart (VRef 15) Listing.h_analyzed).1.2
  = [Drew (stamped "bandwidth_analysis_" ".png")
       (Chart [Display "iperf_" "iperf_upload"] [VNum 500] [VNum 400]
          [VNum 80] ["orange"]);
     SaidSaved "Bandwidth chart saved"
       (stamped "bandwidth_analysis_" ".png")].
Proof.
  split; [|by vm_compute].
  apply (bandwidth_chart_follows_analysis Listing.h_loaded (VRef 2)
    (VRef 0) (VRef 1)
    [("ping_gateway", VRef 3); ("ping_dns", VRef 4); ("iperf_upload", VRef 5)]
    [("ping_dns", VRef 6); ("iperf_upload", VRef 7);
     ("ping_gateway", VRef 8); ("ping_broken", VRef 9)]);
    [sample_field|sample_dict|sample_field|sample_dict|by vm_compute].
Defined.

(** ** The loader *)

(** X8: loading never raises and touches no object the store had.  From
    any store, for any pair of directories whose files are blank, decodable,
    or fail with one of the two exceptions the loader catches,
    [load_test_data] returns a new object whose [baseline] and [vpn] are two
    new, distinct mappings, neither binding a name twice; it prints one
    warning for each file that cannot be read or decoded, those of the
    baseline directory first, and nothing for a blank file or for a
    directory that does not exist. *)
Theorem load_test_data_loads tt bdir vdir h :
  ∃ h' data all_b all_v BL VL,
    load_test_data tt bdir vdir h =
      (h', warnings (entries_of bdir) ++ warnings (entries_of vdir),
       inr data) ∧
    preserved h h' ∧
    (∀ d, ¬ is_dict h data d) ∧ (∀ d, ¬ is_dict h all_b d) ∧
    (∀ d, ¬ is_dict h all_v d) ∧ all_b ≠ all_v ∧
    field h' data "baseline" all_b ∧ is_dict h' all_b BL ∧
    field h' data "vpn" all_v ∧ is_dict h' all_v VL ∧
    NoDup BL.*1 ∧ NoDup VL.*1.
Proof.
  destruct (load_test_data_run tt bdir vdir h)
    as (h' & BL & VL & Hrun & Hp & Hd & Hb & Hv & HBL & HVL).
  assert (∀ n d, List.length h ≤ n → ¬ is_dict h (VRef n) d) as Hnew.
  { intros n d Hn (l & [= <-] & Hl). apply lookup_lt_Some in Hl. lia. }
  exists h', (VRef (S (S (List.length h)))), (VRef (List.length h)),
    (VRef (S (List.length h))), BL, VL.
  split_and!; try done.
  - intros d. apply Hnew. lia.
  - intros d. by apply Hnew.
  - intros d. apply Hnew. lia.
  - intros [= Heq]. lia.
  - by eexists _, _.
  - by eexists.
  - by eexists _, _.
  - by eexists.
  - rewrite (loaded_as_keys _ _ _ HBL). apply NoDup_decoded.
  - rewrite (loaded_as_keys _ _ _ HVL). apply NoDup_decoded.
Qed.

(** X9: a file that is blank, or on which reading or decoding raises one
    of the two exceptions the loader catches ([json.JSONDecodeError],
    [FileNotFoundError]), changes nothing of what is loaded.  The loader
    leaves the store, and returns the value, it would with those files
    taken out of the two listings; a directory that does not exist loads as
    one without files.  Only the warnings tell the difference.  (A file
    that raises any other exception is not ignored: it ends the loader, and
    no listing here holds one.) *)
Theorem blank_and_broken_files_ignored tt bdir vdir h :
  load_test_data tt (Some (decodable (entries_of bdir)))
    (Some (decodable (entries_of vdir))) h =
  ((load_test_data tt bdir vdir h).1.1, [],
   (load_test_data tt bdir vdir h).2).
Proof.
  assert (∀ data side dir hc,
    load_side data side tt (Some (decodable (entries_of dir))) hc =
    ((load_side data side tt dir hc).1.1, [],
     (load_side data side tt dir hc).2)) as Hside.
  { intros data side [files|] hc; [apply load_side_decodable|done]. }
  unfold load_test_data.
  apply bind_silent; [done|]. intros b h1.
  apply bind_silent; [done|]. intros v h2.
  apply bind_silent; [done|]. intros d h3.
  rewrite !runIO_bind, Hside.
  destruct (load_side (VRef d) "baseline" tt bdir h3) as [[h4 evs] [e|[]]];
    cbn [fst snd]; [done|].
  rewrite !runIO_bind, Hside.
  destruct (load_side (VRef d) "vpn" tt vdir h4) as [[h5 evs'] [e|[]]];
    cbn [fst snd]; done.
Qed.

(** ** The run as a whole *)

Lemma matched_names_common pfx BL VL :
  matched_names pfx BL VL = common_names pfx BL.*1 VL.*1.
Proof.
  unfold matched_names, common_names. apply list_filter_iff. intros n.
  by rewrite dict_mem_true.
Qed.

Lemma pipeline_tables tt bdir vdir h h1 evs data h2 lat h3 bw :
  load_test_data tt bdir vdir h = (h1, evs, inr data) →
  analyze_latency data h1 = (h2, inr lat) →
  analyze_bandwidth data h2 = (h3, inr bw) →
  ∃ L B lrows brows,
    is_dict h3 lat L ∧ is_dict h3 bw B ∧
    Forall2 (latency_row h3) L lrows ∧ Forall2 (bandwidth_row h3) B brows ∧
    evs = warnings (entries_of bdir) ++ warnings (entries_of vdir) ∧
    L.*1 = common_names "ping_" (decoded tt (entries_of bdir)).*1
             (decoded tt (entries_of vdir)).*1 ∧
    B.*1 = common_names "iperf_" (decoded tt (entries_of bdir)).*1
             (decoded tt (entries_of vdir)).*1.
Proof.
  intros Hload Hlat Hbw.
  destruct (loaded_shape _ _ _ _ _ _ _ Hload)
    as (all_b & all_v & BL & VL & Hevs & _ & _ & Hfb & Hdb & Hfv & Hdv &
        HBL & HVL & Hnd & _).
  destruct (analyses_tables h1 data all_b all_v BL VL h2 lat h3 bw
              Hfb Hdb Hfv Hdv Hlat Hbw)
    as (L & B & lrows & brows & HL & HB & Hl & Hb & _ & Hkeys).
  destruct (Hkeys Hnd) as [HkL HkB].
  exists L, B, lrows, brows. split_and!; try done.
  - by rewrite HkL, matched_names_common, (loaded_as_keys _ _ _ HBL),
      (loaded_as_keys _ _ _ HVL).
  - by rewrite HkB, matched_names_common, (loaded_as_keys _ _ _ HBL),
      (loaded_as_keys _ _ _ HVL).
Qed.

Section RunTheorems.

Variable np_mean : list float → float.

(** X10: a run whose analyses return ends well and writes one report.
    When the loader has returned and [analyze_latency] and
    [analyze_bandwidth] return on what it loaded, [run_analysis] returns a
    new object holding the two mappings under [latency] and [bandwidth];
    the comparisons are the tests of the kind, in the order of the baseline
    listing, that the VPN listing has too; the report is written once,
    whether charts were asked for or not; a figure is drawn for a kind only
    when charts were asked for and the kind has a comparison; and, the
    numbers of the records being floats, nothing of the run's own code
    after the analyses raises. *)
Theorem run_analysis_completes tt charts bdir vdir h h1 evs data h2 lat h3 bw
    (Hload : load_test_data tt bdir vdir h = (h1, evs, inr data))
    (Hlat : analyze_latency data h1 = (h2, inr lat))
    (Hbw : analyze_bandwidth data h2 = (h3, inr bw)) :
  ∃ L B lrows brows,
    is_dict h3 lat L ∧ is_dict h3 bw B ∧
    Forall2 (latency_row h3) L lrows ∧ Forall2 (bandwidth_row h3) B brows ∧
    L.*1 = common_names "ping_" (decoded tt (entries_of bdir)).*1
             (decoded tt (entries_of vdir)).*1 ∧
    B.*1 = common_names "iperf_" (decoded tt (entries_of bdir)).*1
             (decoded tt (entries_of vdir)).*1 ∧
    run_analysis np_mean tt charts bdir vdir h =
    (h3 ++ [[("latency", lat); ("bandwidth", bw)]],
     run_events np_mean charts
       (warnings (entries_of bdir) ++ warnings (entries_of vdir))
       L B lrows brows,
     inr (VRef (List.length h3))).
Proof.
  destruct (pipeline_tables _ _ _ _ _ _ _ _ _ _ _ Hload Hlat Hbw)
    as (L & B & lrows & brows & HL & HB & Hl & Hb & Hevs & HkL & HkB).
  exists L, B, lrows, brows. split_and!; try done. rewrite <- Hevs.
  by eapply run_analysis_run.
Qed.

(** X11: a run whose analysis raises writes nothing.  When
    [analyze_latency] raises on what the loader returned, [run_analysis]
    ends with that exception having only printed its progress and the
    warnings of the loader: no figure is drawn and no report is written,
    and [analyze_bandwidth] is not called.  The same when
    [analyze_bandwidth] raises after [analyze_latency] has returned; and
    [main] ends with the exception too, printing no count. *)
Theorem run_analysis_aborts tt charts bdir vdir h h1 evs data
    (Hload : load_test_data tt bdir vdir h = (h1, evs, inr data)) :
  (∀ h2 e, analyze_latency data h1 = (h2, inl e) →
     run_analysis np_mean tt charts bdir vdir h =
       (h2, [Said [Lit "Loading test data..."]] ++ evs ++
            [Said [Lit "Analyzing latency performance..."]], inl e) ∧
     main np_mean tt (negb charts) bdir vdir h =
       (h2, [Said [Lit "Loading test data..."]] ++ evs ++
            [Said [Lit "Analyzing latency performance..."]], inl e)) ∧
  (∀ h2 lat h3 e,
     analyze_latency data h1 = (h2, inr lat) →
     analyze_bandwidth data h2 = (h3, inl e) →
     run_analysis np_mean tt charts bdir vdir h =
       (h3, [Said [Lit "Loading test data..."]] ++ evs ++
            [Said [Lit "Analyzing latency performance..."];
             Said [Lit "Analyzing bandwidth performance..."]], inl e) ∧
     main np_mean tt (negb charts) bdir vdir h =
       (h3, [Said [Lit "Loading test data..."]] ++ evs ++
            [Said [Lit "Analyzing latency performance..."];
             Said [Lit "Analyzing bandwidth performance..."]], inl e)).
Proof.
  split.
  - intros h2 e Hlat.
    pose proof (run_analysis_latency_raises np_mean tt charts bdir vdir
                  h h1 evs data h2 e Hload Hlat) as Hrun.
    split; [done|]. unfold main. rewrite negb_involutive.
    by rewrite runIO_bind, Hrun.
  - intros h2 lat h3 e Hlat Hbw.
    pose proof (run_analysis_bandwidth_raises np_mean tt charts bdir vdir
                  h h1 evs data h2 lat h3 e Hload Hlat Hbw) as Hrun.
    split; [done|]. unfold main. rewrite negb_involutive.
    by rewrite runIO_bind, Hrun.
Qed.

(** X12: [main] counts what was compared.  After a run whose analyses
    return, on records whose numbers are floats, [main] prints the number
    of latency comparisons when there is at least one, and the number of
    bandwidth comparisons likewise, after all that [run_analysis] did; it
    draws the figures unless told not to. *)
Theorem main_counts tt no_charts bdir vdir h h1 evs data h2 lat h3 bw
    (Hload : load_test_data tt bdir vdir h = (h1, evs, inr data))
    (Hlat : analyze_latency data h1 = (h2, inr lat))
    (Hbw : analyze_bandwidth data h2 = (h3, inr bw)) :
  ∃ L B lrows brows,
    is_dict h3 lat L ∧ is_dict h3 bw B ∧
    main np_mean tt no_charts bdir vdir h =
    (h3 ++ [[("latency", lat); ("bandwidth", bw)]],
     run_events np_mean (negb no_charts) evs L B lrows brows ++ counts L B,
     inr ()).
Proof.
  destruct (pipeline_tables _ _ _ _ _ _ _ _ _ _ _ Hload Hlat Hbw)
    as (L & B & lrows & brows & HL & HB & Hl & Hb & _).
  exists L, B, lrows, brows. split_and!; try done.
  apply (main_run np_mean tt no_charts bdir vdir h _ _
           (VRef (List.length h3)) lat bw L B).
  - by eapply run_analysis_run.
  - eexists _, _. split_and!; [done|by apply list_lookup_middle|done].
  - eexists _, _. split_and!; [done|by apply list_lookup_middle|done].
  - eapply is_dict_preserved; [|done]. apply preserved_alloc, preserved_refl.
  - eapply is_dict_preserved; [|done]. apply preserved_alloc, preserved_refl.
Qed.

(** X13: a run with no test measured on both sides reports that there is
    no data.  For listings of files that are blank, decodable, or fail with
    one of the two exceptions the loader catches: when no test name is
    loaded from both directories (they may be missing, empty, or hold
    nothing but blank and such failing files), [run_analysis] raises
    nothing, whatever the decoded texts are: it draws no figure even when
    asked for charts, writes the report of a run without data, and returns
    two empty mappings. *)
Theorem run_without_match tt charts bdir vdir h
    (Hno : ∀ name, ¬ (name ∈ (decoded tt (entries_of bdir)).*1 ∧
                      name ∈ (decoded tt (entries_of vdir)).*1)) :
  ∃ h' res lat bw,
    run_analysis np_mean tt charts bdir vdir h =
    (h', [Said [Lit "Loading test data..."]] ++
         warnings (entries_of bdir) ++ warnings (entries_of vdir) ++
         [Said [Lit "Analyzing latency performance..."];
          Said [Lit "Analyzing bandwidth performance..."]] ++
         (if charts then [Said [Lit "Generating charts..."]] else []) ++
         [Said [Lit "Generating summary report..."];
          Wrote (stamped "comprehensive_report_" ".txt") report_without_data;
          SaidSaved "Comprehensive report saved"
            (stamped "comprehensive_report_" ".txt");
          Said [Lit "Analysis complete!"]],
     inr res) ∧
    field h' res "latency" lat ∧ is_dict h' lat [] ∧
    field h' res "bandwidth" bw ∧ is_dict h' bw [].
Proof.
  destruct (load_test_data_run tt bdir vdir h)
    as (h1 & BL0 & VL0 & Hload & _).
  destruct (loaded_shape _ _ _ _ _ _ _ Hload)
    as (all_b & all_v & BL & VL & _ & _ & Hp & Hfb & Hdb & Hfv & Hdv &
        HBL & HVL & Hnd & _).
  assert (∀ pfx name b v, ¬ matched pfx BL VL name b v) as Hnone.
  { intros pfx name b v (_ & Hb & Hv). apply (Hno name).
    rewrite <- (loaded_as_keys _ _ _ HBL), <- (loaded_as_keys _ _ _ HVL).
    rewrite <- !dict_mem_true, !dict_mem_get. split; by eexists. }
  destruct (analyze_latency_returns h1 _ all_b all_v BL VL Hfb Hdb Hfv Hdv)
    as (h2 & lat & Hlat); [by intros name b v ?%Hnone|].
  destruct (analyze_latency_table h1 _ all_b all_v BL VL h2 lat
              Hfb Hdb Hfv Hdv Hlat) as (L0 & _ & _ & Hp2 & _).
  destruct (analyze_bandwidth_returns h2 (VRef (S (S (List.length h))))
              all_b all_v BL VL)
    as (h3 & bw & Hbw);
    [by eapply field_preserved|by eapply is_dict_preserved
    |by eapply field_preserved|by eapply is_dict_preserved
    |by intros name b v ?%Hnone|].
  destruct (pipeline_tables _ _ _ _ _ _ _ _ _ _ _ Hload Hlat Hbw)
    as (L & B & lrows & brows & HL & HB & Hl & Hb & _ & HkL & HkB).
  rewrite (common_names_nil _ _ _ Hno) in HkL.
  rewrite (common_names_nil _ _ _ Hno) in HkB.
  apply fmap_nil_inv in HkL as ->. apply fmap_nil_inv in HkB as ->.
  apply Forall2_nil_inv_l in Hl as ->. apply Forall2_nil_inv_l in Hb as ->.
  exists (h3 ++ [[("latency", lat); ("bandwidth", bw)]]),
    (VRef (List.length h3)), lat, bw.
  split_and!.
  - rewrite (run_analysis_run np_mean tt charts bdir vdir h h1 _ _ h2 lat
               h3 bw [] [] [] [] Hload Hlat Hbw HL HB); [|by constructor..].
    unfold run_events. rewrite <- (app_assoc (warnings _)).
    by destruct charts.
  - eexists _, _. split_and!; [done|by apply list_lookup_middle|done].
  - eapply is_dict_preserved; [|done]. apply preserved_alloc, preserved_refl.
  - eexists _, _. split_and!; [done|by apply list_lookup_middle|done].
  - eapply is_dict_preserved; [|done]. apply preserved_alloc, preserved_refl.
Qed.

End RunTheorems.

Lemma run_analysis_completes_witness :
  ∃ L B lrows brows,
    L.*1 = ["ping_gateway"; "ping_dns"] ∧ B.*1 = ["iperf_upload"] ∧
    run_analysis Listing.mean2 "latest" false Listing.baseline_dir
      Listing.vpn_dir [] =
    (Listing.h_analyzed ++ [[("latency", VRef 10); ("bandwidth", VRef 15)]],
     run_events Listing.mean2 false
       [Warned "ping_broken_latest" "Expecting value"] L B lrows brows,
     inr (VRef 19)).
Proof.
  destruct (run_analysis_completes Listing.mean2 "latest" false
    Listing.baseline_dir Listing.vpn_dir [] Listing.h_loaded
    [Warned "ping_broken_latest" "Expecting value"] (VRef 2)
    (analyze_latency (VRef 2) Listing.h_loaded).1 (VRef 10)
    Listing.h_analyzed (VRef 15))
    as (L & B & lrows & brows & _ & _ & _ & _ & HkL & HkB & Hrun);
    [by vm_compute..|].
  exists L, B, lrows, brows. split_and!.
  - rewrite HkL. by vm_compute.
  - rewrite HkB. by vm_compute.
  - exact Hrun.
Defined.

Lemma run_analysis_aborts_witness :
  (run_analysis Listing.mean2 "latest" true Listing.dead_dir
     Listing.vpn_dir []).2 = inl ZeroDivisionError ∧
  (run_analysis Listing.mean2 "latest" true Listing.dead_dir
     Listing.vpn_dir []).1.2
  = [Said [Lit "Loading test data..."];
     Said [Lit "Analyzing latency performance..."]].
Proof.
  destruct (run_analysis_aborts Listing.mean2 "latest" true Listing.dead_dir
    Listing.vpn_dir []
    (load_test_data "latest" Listing.dead_dir Listing.vpn_dir []).1.1
    [] (VRef 2)) as [Hlat _]; [by vm_compute|].
  destruct (Hlat
    (analyze_latency (VRef 2)
       (load_test_data "latest" Listing.dead_dir Listing.vpn_dir []).1.1).1
    ZeroDivisionError) as [Hrun _]; [by vm_compute|].
  by rewrite Hrun.
Defined.

Lemma main_counts_witness :
  ∃ L B lrows brows,
    List.length L = 2 ∧ List.length B = 1 ∧
    (main Listing.mean2 "latest" true Listing.baseline_dir Listing.vpn_dir
       []).1.2
    = run_events Listing.mean2 false
        [Warned "ping_broken_latest" "Expecting value"] L B lrows brows ++
      [Counted "Latency Analysis" 2; Counted "Bandwidth Analysis" 1].
Proof.
  destruct (main_counts Listing.mean2 "latest" true
    Listing.baseline_dir Listing.vpn_dir [] Listing.h_loaded
    [Warned "ping_broken_latest" "Expecting value"] (VRef 2)
    (analyze_latency (VRef 2) Listing.h_loaded).1 (VRef 10)
    Listing.h_analyzed (VRef 15))
    as (L & B & lrows & brows & HL & HB & Hrun); [by vm_compute..|].
  destruct HL as (l & [= <-] & HL). vm_compute in HL. injection HL as <-.
  destruct HB as (l & [= <-] & HB). vm_compute in HB. injection HB as <-.
  exists [("ping_gateway", VRef 13); ("ping_dns", VRef 14)],
    [("iperf_upload", VRef 18)], lrows, brows.
  split; [reflexivity|]. split; [reflexivity|]. rewrite Hrun. reflexivity.
Defined.

Lemma run_without_match_witness :
  ∃ h' res,
    run_analysis Listing.mean2 "latest" true Listing.baseline_dir None [] =
    (h', [Said [Lit "Loading test data..."];
          Warned "ping_broken_latest" "Expecting value";
          Said [Lit "Analyzing latency performance..."];
          Said [Lit "Analyzing bandwidth performance..."];
          Said [Lit "Generating charts..."];
          Said [Lit "Generating summary report..."];
          Wrote (stamped "comprehensive_report_" ".txt") report_without_data;
          SaidSaved "Comprehensive report saved"
            (stamped "comprehensive_report_" ".txt");
          Said [Lit "Analysis complete!"]], inr res).
Proof.
  destruct (run_without_match Listing.mean2 "latest" true
    Listing.baseline_dir None []) as (h' & res & lat & bw & Hrun & _).
  { intros name [_ Hv]. by apply elem_of_nil in Hv. }
  exists h', res. by rewrite Hrun.
Defined.

(** ** What the loaded mappings hold *)

Lemma json_get_put J k j k' :
  json_get (put J k j) k' = if String.eqb k k' then Some j else json_get J k'.
Proof.
  induction J as [|[k0 j0] J IH]; simpl.
  - done.
  - destruct (String.eqb_spec k0 k) as [->|Hne]; simpl.
    + by destruct (String.eqb k k').
    + rewrite IH. destruct (String.eqb_spec k0 k') as [->|?]; [|done].
      destruct (String.eqb_spec k k') as [->|?]; done.
Qed.

Lemma decoded_get tt files name :
  json_get (decoded tt files) name = last_text tt name files.
Proof.
  induction files as [|[stem f] files IH] using rev_ind; [done|].
  rewrite decoded_snoc. unfold last_text. rewrite foldl_app.
  fold (last_text tt name files). simpl.
  destruct f as [|j|why]; try done. by rewrite json_get_put, IH.
Qed.

Lemma loaded_as_get h M J name :
  loaded_as h M J →
  match json_get J name with
  | Some j => ∃ v, dict_get M name = Some v ∧ holds h v j
  | None => dict_get M name = None
  end.
Proof.
  induction 1 as [|[k v] [k' j] M J [Hk Hv] _ IH]; [done|].
  simpl in *. subst k'. destruct (String.eqb k name); [by exists v|done].
Qed.

(** X14: what the loader leaves under a test name.  In each of the two
    mappings [load_test_data] returns, a name is bound exactly when some
    decodable file of the directory has it for test name, and it is bound
    to the decoded text of the last such file of the listing; the names
    stand in the order of their first files. *)
Theorem load_test_data_contents tt bdir vdir h :
  ∃ h' data all_b all_v BL VL,
    load_test_data tt bdir vdir h =
      (h', warnings (entries_of bdir) ++ warnings (entries_of vdir),
       inr data) ∧
    field h' data "baseline" all_b ∧ is_dict h' all_b BL ∧
    field h' data "vpn" all_v ∧ is_dict h' all_v VL ∧
    loaded_as h' BL (decoded tt (entries_of bdir)) ∧
    loaded_as h' VL (decoded tt (entries_of vdir)) ∧
    ∀ name,
      match last_text tt name (entries_of bdir) with
      | Some j => ∃ v, dict_get BL name = Some v ∧ holds h' v j
      | None => dict_get BL name = None
      end ∧
      match last_text tt name (entries_of vdir) with
      | Some j => ∃ v, dict_get VL name = Some v ∧ holds h' v j
      | None => dict_get VL name = None
      end.
Proof.
  destruct (load_test_data_run tt bdir vdir h)
    as (h' & BL0 & VL0 & Hrun & _).
  destruct (loaded_shape _ _ _ _ _ _ _ Hrun)
    as (all_b & all_v & BL & VL & _ & _ & _ & Hfb & Hdb & Hfv & Hdv &
        HBL & HVL & _).
  exists h', (VRef (S (S (List.length h)))), all_b, all_v, BL, VL.
  split_and!; try done. intros name. rewrite <- !decoded_get.
  split; by apply loaded_as_get.
Qed.

(** ** Runs on well-formed files *)






Section WellFormed.

Variable np_mean : list float → float.


End WellFormed.


(** ** The numbers of a returned mapping *)

Lemma field_at h e items k v :
  h !! e = Some items → field h (VRef e) k v → dict_get items k = Some v.
Proof. intros He (l & d & [= <-] & Hl & Hk). congruence. Qed.

Lemma latency_rows_derived r h hc L rows :
  preserved h hc →
  Forall (entry_made latency_entry r h) L →
  Forall2 (latency_row hc) L rows → Forall latency_row_derived rows.
Proof.
  intros Hp Hall Hrows. induction Hrows as [|kv row L rows Hrow _ IH].
  { constructor. }
  apply Forall_cons in Hall as [Hkv Hall]. constructor; [|by apply IH].
  destruct Hkv as (e & items & b & v & hmid & Hkv & _ & He & Hrun).
  apply latency_entry_numeric in Hrun as (x & y & rest & Hnz & ->).
  destruct Hrow as (H1 & H2 & H3 & H4). rewrite Hkv in H1, H2, H3, H4.
  apply Hp in He.
  apply (field_at _ _ _ _ _ He) in H1, H2, H3, H4.
  injection H1 as H1. injection H2 as H2. injection H3 as H3.
  injection H4 as H4. unfold latency_row_derived.
  by rewrite <- H1, <- H2, <- H3, <- H4.
Qed.

Lemma bandwidth_rows_derived r h hc B rows :
  preserved h hc →
  Forall (entry_made bandwidth_entry r h) B →
  Forall2 (bandwidth_row hc) B rows → Forall bandwidth_row_derived rows.
Proof.
  intros Hp Hall Hrows. induction Hrows as [|kv row B rows Hrow _ IH].
  { constructor. }
  apply Forall_cons in Hall as [Hkv Hall]. constructor; [|by apply IH].
  destruct Hkv as (e & items & b & v & hmid & Hkv & _ & He & Hrun).
  apply bandwidth_entry_numeric in Hrun as (x & y & rest & Hnz & ->).
  destruct Hrow as (H1 & H2 & H3). rewrite Hkv in H1, H2, H3.
  apply Hp in He.
  apply (field_at _ _ _ _ _ He) in H1, H2, H3.
  injection H1 as H1. injection H2 as H2. injection H3 as H3.
  unfold bandwidth_row_derived. by rewrite <- H1, <- H2, <- H3.
Qed.

(** X16: what a returned mapping holds is consistent.  Every entry of a
    mapping [analyze_latency] returns holds four numbers, the baseline
    average is not zero, the overhead is the VPN average less the baseline
    average and the percentage is that overhead over the baseline average
    times 100, as binary64 values; every entry of a mapping
    [analyze_bandwidth] returns holds a baseline throughput that is not
    zero and the ratio of the two throughputs.  So a returned mapping has
    no entry made from a zero baseline, and none with a string or an
    object for a number. *)
Theorem returned_entries_consistent h data all_b all_v BL VL
    (Hfb : field h data "baseline" all_b) (Hdb : is_dict h all_b BL)
    (Hfv : field h data "vpn" all_v) (Hdv : is_dict h all_v VL) :
  (∀ h' res, analyze_latency data h = (h', inr res) →
     ∃ L rows, is_dict h' res L ∧ Forall2 (latency_row h') L rows ∧
               Forall latency_row_derived rows) ∧
  (∀ h' res, analyze_bandwidth data h = (h', inr res) →
     ∃ B rows, is_dict h' res B ∧ Forall2 (bandwidth_row h') B rows ∧
               Forall bandwidth_row_derived rows).
Proof.
  split; intros h' res Hrun.
  - rewrite analyze_latency_join in Hrun.
    destruct (join_on_table "ping_" latency_entry h data all_b all_v BL VL h'
                res read_only_latency_entry Hfb Hdb Hfv Hdv Hrun)
      as (L & _ & _ & HL & Hall & _).
    destruct (latency_rows_made _ _ _ Hall) as [rows Hrows].
    exists L, rows. split_and!; try done.
    eapply latency_rows_derived; [apply preserved_refl|done..].
  - rewrite analyze_bandwidth_join in Hrun.
    destruct (join_on_table "iperf_" bandwidth_entry h data all_b all_v BL VL
                h' res read_only_bandwidth_entry Hfb Hdb Hfv Hdv Hrun)
      as (B & _ & _ & HB & Hall & _).
    destruct (bandwidth_rows_made _ _ _ Hall) as [rows Hrows].
    exists B, rows. split_and!; try done.
    eapply bandwidth_rows_derived; [apply preserved_refl|done..].
Qed.

Lemma returned_entries_consistent_witness :
  ∃ L rows,
    is_dict (analyze_latency (VRef 2) Listing.h_loaded).1 (VRef 10) L ∧
    Forall2 (latency_row (analyze_latency (VRef 2) Listing.h_loaded).1)
      L rows ∧
    Forall latency_row_derived rows.
Proof.
  destruct (returned_entries_consistent Listing.h_loaded (VRef 2)
    (VRef 0) (VRef 1)
    [("ping_gateway", VRef 3); ("ping_dns", VRef 4); ("iperf_upload", VRef 5)]
    [("ping_dns", VRef 6); ("iperf_upload", VRef 7);
     ("ping_gateway", VRef 8); ("ping_broken", VRef 9)])
    as [Hlat _]; [sample_field|sample_dict|sample_field|sample_dict|].
  apply (Hlat _ (VRef 10)). by vm_compute.
Defined.
